(** * secure-chat-app, auth-service: token utilities, environment validation
      and the user/session model, embedded in Rocq.

    The embedding follows the TypeScript sources:
    - [utils/jwt.ts]        (class [JWTUtils]),
    - the environment module ([requiredEnvVars], [validateEnv]),
    - the user model        (class [UserModel], SQL over [database/init.sql]),
    - [config/database.ts]  (the pool and the Redis client),
    - the email service     (class [EmailService]).

    JavaScript values, exceptions and the ambient world (process.env, the
    clocks and time zones of the process and of the database session, random
    draws) are explicit.  Libraries the code calls but does not contain
    (jsonwebtoken, bcrypt, nodemailer, the PostgreSQL server's input
    conversion, ECMAScript's number parsing) are interfaces: every theorem
    holds for all their implementations. *)

From Stdlib Require Import ZArith Ascii String.
From stdpp Require Import gmap strings list.

Local Open Scope Z_scope.

(** ** JavaScript values and exceptions *)

(** ECMAScript numbers.  Finite numbers are integral here (milliseconds,
    NumericDate seconds, parsed integers); [NaN] and the infinities are kept
    because the code can produce them. *)
Inductive JsNum :=
| NaN
| Infinity (negative : bool)
| Num (z : Z).

(** The time value of a [Date] object; [None] is the invalid date (NaN). *)
Record Date := mkDate { time_value : option Z }.

Inductive JsVal :=
| JUndefined
| JNull
| JBool (b : bool)
| JNumber (n : JsNum)
| JString (s : string)
| JDate (d : Date).

(** An exception in flight.  [Error m] is [new Error(m)] thrown by the
    repository's own code; [Foreign l c] is raised inside library [l]. *)
Inductive Exn :=
| Error (message : string)
| Foreign (library code : string).

Inductive Result (A : Type) :=
| Ok (a : A)
| Throw (e : Exn).
Arguments Ok {A} a.
Arguments Throw {A} e.

(** What a library call does: return or raise (with the library's code). *)
Inductive Outcome (A : Type) :=
| Returns (a : A)
| Raises (code : string).
Arguments Returns {A} a.
Arguments Raises {A} code.

Definition bind {A B} (r : Result A) (k : A -> Result B) : Result B :=
  match r with
  | Ok a => k a
  | Throw e => Throw e
  end.

Notation "x <- r ;; k" := (bind r (fun x => k))
  (at level 100, r at next level, right associativity).

(** [try { body } catch (error) { handler }] *)
Definition try_catch {A} (body : Result A) (handler : Exn -> Result A) : Result A :=
  match body with
  | Ok a => Ok a
  | Throw e => handler e
  end.

(** A call into library [lib]. *)
Definition call {A} (lib : string) (o : Outcome A) : Result A :=
  match o with
  | Returns a => Ok a
  | Raises c => Throw (Foreign lib c)
  end.

(** ToBoolean *)
Definition num_truthy (n : JsNum) : bool :=
  match n with
  | NaN => false
  | Infinity _ => true
  | Num z => negb (z =? 0)
  end.

Definition string_truthy (s : string) : bool :=
  match s with
  | EmptyString => false
  | String _ _ => true
  end.

Definition truthy (v : JsVal) : bool :=
  match v with
  | JUndefined | JNull => false
  | JBool b => b
  | JNumber n => num_truthy n
  | JString s => string_truthy s
  | JDate _ => true
  end.

(** A value of type [string | undefined], as [process.env.X] and optional
    string parameters are. *)
Definition opt_truthy (o : option string) : bool :=
  match o with
  | Some s => string_truthy s
  | None => false
  end.

(** [o || d] for [o : string | undefined] *)
Definition or_else (o : option string) (d : string) : string :=
  match o with
  | Some s => if string_truthy s then s else d
  | None => d
  end.

(** [o || null] for [o : string | undefined] *)
Definition or_null (o : option string) : option string :=
  match o with
  | Some s => if string_truthy s then Some s else None
  | None => None
  end.

(** ECMAScript built-ins the code calls; their parsing rules are the
    language's, not the repository's. *)
Class EcmaScript := {
  parseInt : string -> JsNum;
  StringToNumber : string -> JsNum
}.

(** ToNumber *)
Definition ToNumber {ES : EcmaScript} (v : JsVal) : JsNum :=
  match v with
  | JUndefined => NaN
  | JNull => Num 0
  | JBool b => Num (if b then 1 else 0)
  | JNumber n => n
  | JString s => StringToNumber s
  | JDate d => match time_value d with Some t => Num t | None => NaN end
  end.

(** [n * 1000] *)
Definition times (n : JsNum) (k : Z) : JsNum :=
  match n with
  | NaN => NaN
  | Infinity s => if k =? 0 then NaN else Infinity (if 0 <? k then s else negb s)
  | Num z => Num (z * k)
  end.

(** [new Date(n)]: TimeClip keeps time values within 8.64e15 ms of the epoch. *)
Definition new_Date (n : JsNum) : Date :=
  match n with
  | Num z => if Z.abs z <=? 8640000000000000 then mkDate (Some z) else mkDate None
  | _ => mkDate None
  end.

(** [d.getTime()] *)
Definition getTime (d : Date) : JsNum :=
  match time_value d with
  | Some t => Num t
  | None => NaN
  end.

(** [a <= b] on numbers, for a finite right operand. *)
Definition num_le (a : JsNum) (b : Z) : bool :=
  match a with
  | NaN => false
  | Infinity s => s
  | Num z => z <=? b
  end.

(** *** Local time (ECMAScript 21.4.1) *)

Definition msPerDay : Z := 86400000.

(** The host's time zone: [LocalTZA t isUTC] is the offset of local time
    from UTC in milliseconds, at UTC time [t] ([isUTC = true]) or at local
    time [t] ([isUTC = false]). *)
Record TimeZone := { LocalTZA : Z -> bool -> Z }.

Definition LocalTime (tz : TimeZone) (t : Z) : Z := t + LocalTZA tz t true.
Definition UTC (tz : TimeZone) (t : Z) : Z := t - LocalTZA tz t false.
Definition Day (t : Z) : Z := t / msPerDay.
Definition TimeWithinDay (t : Z) : Z := t mod msPerDay.
Definition MakeDate (day time : Z) : Z := day * msPerDay + time.

(** [d.setDate(d.getDate() + n)] on a date with time value [t]: in local
    time the day of the month moves [n] days on (MakeDay carries an
    overflowing day into the following months, so the day number is
    [Day + n]) and the time within the day is kept; the result is converted
    back to UTC. *)
Definition setDate_getDate_plus (tz : TimeZone) (t n : Z) : Z :=
  let lt := LocalTime tz t in
  UTC tz (MakeDate (Day lt + n) (TimeWithinDay lt)).

(** ** The ambient world of one operation *)

Record Ambient := {
  env : gmap string string;   (* process.env *)
  now : Z;                    (* the process's clock, ms since the epoch: new Date(), Date.now() *)
  sql_now : Z;                (* the database server's clock: SQL NOW() *)
  zone : TimeZone;            (* the process's time zone *)
  session_zone : TimeZone;    (* the TimeZone setting of the database session *)
  random : list Z;            (* the 16 random bytes uuidv4() draws *)
  salt : string;              (* the salt bcrypt draws *)
  fresh_id : string           (* what gen_random_uuid() yields for a new row *)
}.

(** *** TIMESTAMP columns

    Every time column of [database/init.sql] is [TIMESTAMP], that is, without
    time zone: the value kept is a wall-clock reading with no zone attached,
    here the milliseconds of that reading counted as ECMAScript counts local
    time.  Four conversions touch it:
    - the driver sends a [Date] parameter as the process's local date and
      time followed by its offset, and the server drops the offset when the
      target is such a column ([timestamp_of_Date]);
    - [NOW()] is an instant; assigned to such a column it becomes the reading
      of the session's zone at that instant ([timestamp_of_now]);
    - in [column > NOW()] the server takes the reading as a time of the
      session's zone and compares instants ([timestamp_after_now]);
    - the driver builds the [Date] of a result column by taking the reading
      as a local time of the process ([Date_of_timestamp]). *)
Definition timestamp_of_Date (w : Ambient) (t : Z) : Z := LocalTime (zone w) t.

Definition timestamp_of_now (w : Ambient) : Z := LocalTime (session_zone w) (sql_now w).

Definition timestamp_after_now (w : Ambient) (reading : Z) : bool :=
  sql_now w <? UTC (session_zone w) reading.

Definition Date_of_timestamp (w : Ambient) (reading : Z) : Z := UTC (zone w) reading.

(** ** uuid: v4()

    The uuid package's [v4]: sixteen random bytes, the version and variant
    bits set, formatted by [unsafeStringify]. *)

Definition hexdigit (n : Z) : ascii :=
  match n with
  | 0 => "0" | 1 => "1" | 2 => "2" | 3 => "3" | 4 => "4" | 5 => "5"
  | 6 => "6" | 7 => "7" | 8 => "8" | 9 => "9" | 10 => "a" | 11 => "b"
  | 12 => "c" | 13 => "d" | 14 => "e" | _ => "f"
  end%char.

(** [byteToHex[b]]: two lower-case hexadecimal digits. *)
Definition byteToHex (b : Z) : string :=
  String (hexdigit (Z.land (Z.shiftr b 4) 15)) (String (hexdigit (Z.land b 15)) "").

(** [rnds[i]] of a [Uint8Array]: a byte (absent entries read as 0 here; the
    generator always yields 16). *)
Definition byte_at (rnds : list Z) (i : nat) : Z := Z.land (nth i rnds 0) 255.

(** The version and variant bits v4 sets before formatting. *)
Definition v4_bytes (rnds : list Z) : list Z :=
  map (fun i =>
         if (i =? 6)%nat then Z.lor (Z.land (byte_at rnds i) 15) 64
         else if (i =? 8)%nat then Z.lor (Z.land (byte_at rnds i) 63) 128
         else byte_at rnds i)
      (seq 0 16).

Definition hex_at (bs : list Z) (i : nat) : string := byteToHex (nth i bs 0).

(** [unsafeStringify]: 8-4-4-4-12 hexadecimal digits. *)
Definition stringify (bs : list Z) : string :=
  hex_at bs 0 +:+ hex_at bs 1 +:+ hex_at bs 2 +:+ hex_at bs 3 +:+ "-" +:+
  hex_at bs 4 +:+ hex_at bs 5 +:+ "-" +:+
  hex_at bs 6 +:+ hex_at bs 7 +:+ "-" +:+
  hex_at bs 8 +:+ hex_at bs 9 +:+ "-" +:+
  hex_at bs 10 +:+ hex_at bs 11 +:+ hex_at bs 12 +:+ hex_at bs 13 +:+
  hex_at bs 14 +:+ hex_at bs 15.

Definition uuidv4 (rnds : list Z) : string := stringify (v4_bytes rnds).

(** Reading a formatted UUID back into its 16 bytes; it is used to show that
    formatting loses nothing. *)
Definition unhex (c : ascii) : Z :=
  match c with
  | "0" => 0 | "1" => 1 | "2" => 2 | "3" => 3 | "4" => 4 | "5" => 5
  | "6" => 6 | "7" => 7 | "8" => 8 | "9" => 9 | "a" => 10 | "b" => 11
  | "c" => 12 | "d" => 13 | "e" => 14 | _ => 15
  end%char.

Definition char_at (s : string) (i : nat) : ascii :=
  match String.get i s with
  | Some c => c
  | None => "0"%char
  end.

Definition byte_of (s : string) (i : nat) : Z :=
  16 * unhex (char_at s i) + unhex (char_at s (S i)).

Definition uuid_parse (s : string) : list Z :=
  map (byte_of s) [0; 2; 4; 6; 9; 11; 14; 16; 19; 21; 24; 26; 28; 30; 32; 34]%nat.

Definition is_byte (b : Z) : Prop := 0 <= b < 256.

(** ** utils/jwt.ts *)

(** What [jwt.decode] / [jwt.verify] hand back: a payload object, or a
    payload that is no object (a string, [null] for a malformed token). *)
Inductive Decoded :=
| DecValue (v : JsVal)
| DecObject (o : gmap string JsVal).

(** The jsonwebtoken library.  [jwt_sign payload secret expiresIn clock];
    [jwt_verify token secret clock]; [jwt_decode token]. *)
Class JsonWebToken := {
  jwt_sign : gmap string JsVal -> string -> string -> Z -> Outcome string;
  jwt_verify : string -> string -> Z -> Outcome Decoded;
  jwt_decode : string -> Outcome Decoded
}.

(** [Omit<JWTPayload, 'iat' | 'exp'>] *)
Record JWTPayload := {
  userId : string;
  email : string;
  username : string;
  isVerified : bool
}.

Definition payload_object (p : JWTPayload) : gmap string JsVal :=
  <["userId" := JString (userId p)]>
  (<["email" := JString (email p)]>
  (<["username" := JString (username p)]>
  (<["isVerified" := JBool (isVerified p)]> ∅))).

Record TokenPair := {
  accessToken : string;
  refreshToken : string
}.

Definition decoded_truthy (d : Decoded) : bool :=
  match d with
  | DecValue v => truthy v
  | DecObject _ => true
  end.

(** [decoded.exp] (property access on a truthy value). *)
Definition decoded_exp (d : Decoded) : JsVal :=
  match d with
  | DecValue _ => JUndefined
  | DecObject o => default JUndefined (o !! "exp")
  end.

Module JWTUtils.
Section JWTUtils.
Context {ES : EcmaScript} {JWT : JsonWebToken}.

Definition getAccessTokenSecret (w : Ambient) : Result string :=
  let secret := env w !! "JWT_SECRET" in
  if negb (opt_truthy secret) then
    Throw (Error "JWT_SECRET environment variable is required")
  else Ok (default "" secret).

Definition getRefreshTokenSecret (w : Ambient) : Result string :=
  let secret := env w !! "JWT_REFRESH_SECRET" in
  if negb (opt_truthy secret) then
    Throw (Error "JWT_REFRESH_SECRET environment variable is required")
  else Ok (default "" secret).

Definition generateAccessToken (w : Ambient) (payload : JWTPayload) : Result string :=
  secret <- getAccessTokenSecret w ;;
  let expiresIn := or_else (env w !! "JWT_EXPIRES_IN") "15m" in
  call "jsonwebtoken" (jwt_sign (payload_object payload) secret expiresIn (now w)).

Definition generateRefreshToken (w : Ambient) : Result string :=
  secret <- getRefreshTokenSecret w ;;
  let expiresIn := or_else (env w !! "JWT_REFRESH_EXPIRES_IN") "7d" in
  call "jsonwebtoken"
    (jwt_sign {[ "tokenId" := JString (uuidv4 (random w)) ]} secret expiresIn (now w)).

Definition generateTokenPair (w : Ambient) (payload : JWTPayload) : Result TokenPair :=
  a <- generateAccessToken w payload ;;
  r <- generateRefreshToken w ;;
  Ok {| accessToken := a; refreshToken := r |}.

Definition verifyAccessToken (w : Ambient) (token : string) : Result Decoded :=
  try_catch
    (secret <- getAccessTokenSecret w ;;
     call "jsonwebtoken" (jwt_verify token secret (now w)))
    (fun _ => Throw (Error "Invalid access token")).

Definition verifyRefreshToken (w : Ambient) (token : string) : Result Decoded :=
  try_catch
    (secret <- getRefreshTokenSecret w ;;
     call "jsonwebtoken" (jwt_verify token secret (now w)))
    (fun _ => Throw (Error "Invalid refresh token")).

(** [authHeader : string | undefined]; the result is [string | null]. *)
Definition extractTokenFromHeader (authHeader : option string) : option string :=
  match authHeader with
  | None => None
  | Some h =>
      if negb (string_truthy h) || negb (String.prefix "Bearer " h) then None
      else Some (String.substring 7 (String.length h - 7) h)
  end.

Definition getTokenExpiration (token : string) : option Date :=
  match
    try_catch
      (decoded <- call "jsonwebtoken" (jwt_decode token) ;;
       if decoded_truthy decoded && truthy (decoded_exp decoded) then
         Ok (Some (new_Date (times (ToNumber (decoded_exp decoded)) 1000)))
       else Ok None)
      (fun _ => Ok None)
  with
  | Ok r => r
  | Throw _ => None
  end.

Definition isTokenExpired (w : Ambient) (token : string) : bool :=
  match getTokenExpiration token with
  | None => true
  | Some expiration => num_le (getTime expiration) (now w)
  end.

Definition decodeToken (token : string) : option Decoded :=
  match jwt_decode token with
  | Returns d => Some d
  | Raises _ => None
  end.
End JWTUtils.
End JWTUtils.

(** ** The environment module: [requiredEnvVars], [validateEnv] *)

Record EnvConfig := {
  NODE_ENV : string;
  PORT : JsNum;
  DATABASE_URL : string;
  REDIS_URL : string;
  JWT_SECRET : string;
  JWT_REFRESH_SECRET : string;
  JWT_EXPIRES_IN : string;
  JWT_REFRESH_EXPIRES_IN : string;
  SMTP_HOST : option string;
  SMTP_PORT : JsNum;
  SMTP_USER : option string;
  SMTP_PASS : option string;
  FROM_EMAIL : option string;
  BCRYPT_ROUNDS : JsNum;
  FRONTEND_URL : string;
  RATE_LIMIT_WINDOW_MS : JsNum;
  RATE_LIMIT_MAX_REQUESTS : JsNum
}.

Definition requiredEnvVars : list string :=
  ["DATABASE_URL"; "REDIS_URL"; "JWT_SECRET"; "JWT_REFRESH_SECRET"; "FRONTEND_URL"].

(** [requiredEnvVars.filter(varName => !process.env[varName])] *)
Definition missing (e : gmap string string) : list string :=
  List.filter (fun varName => negb (opt_truthy (e !! varName))) requiredEnvVars.

Section Env.
Context {ES : EcmaScript}.

Definition validateEnv (e : gmap string string) : Result EnvConfig :=
  if (0 <? Z.of_nat (List.length (missing e))) then
    Throw (Error ("Missing required environment variables: "
                  +:+ String.concat ", " (missing e)))
  else
    Ok {| NODE_ENV := or_else (e !! "NODE_ENV") "development";
          PORT := parseInt (or_else (e !! "PORT") "3001");
          DATABASE_URL := e !!! "DATABASE_URL";
          REDIS_URL := e !!! "REDIS_URL";
          JWT_SECRET := e !!! "JWT_SECRET";
          JWT_REFRESH_SECRET := e !!! "JWT_REFRESH_SECRET";
          JWT_EXPIRES_IN := or_else (e !! "JWT_EXPIRES_IN") "15m";
          JWT_REFRESH_EXPIRES_IN := or_else (e !! "JWT_REFRESH_EXPIRES_IN") "7d";
          SMTP_HOST := e !! "SMTP_HOST";
          SMTP_PORT := if opt_truthy (e !! "SMTP_PORT")
                       then parseInt (e !!! "SMTP_PORT") else Num 587;
          SMTP_USER := e !! "SMTP_USER";
          SMTP_PASS := e !! "SMTP_PASS";
          FROM_EMAIL := e !! "FROM_EMAIL";
          BCRYPT_ROUNDS := parseInt (or_else (e !! "BCRYPT_ROUNDS") "12");
          FRONTEND_URL := e !!! "FRONTEND_URL";
          RATE_LIMIT_WINDOW_MS := parseInt (or_else (e !! "RATE_LIMIT_WINDOW_MS") "900000");
          RATE_LIMIT_MAX_REQUESTS := parseInt (or_else (e !! "RATE_LIMIT_MAX_REQUESTS") "100") |}.
End Env.

(** The configuration values the specification lists as required at start-up:
    the store and cache connection strings, the two token secrets, the two
    expiry durations, the SMTP endpoint and credentials, the hashing cost
    factor, the public base URL, the rate-limit window and ceiling. *)
Definition specRequiredConfig : list string :=
  ["DATABASE_URL"; "REDIS_URL"; "JWT_SECRET"; "JWT_REFRESH_SECRET";
   "JWT_EXPIRES_IN"; "JWT_REFRESH_EXPIRES_IN";
   "SMTP_HOST"; "SMTP_PORT"; "SMTP_USER"; "SMTP_PASS";
   "BCRYPT_ROUNDS"; "FRONTEND_URL";
   "RATE_LIMIT_WINDOW_MS"; "RATE_LIMIT_MAX_REQUESTS"].

(** ** The store: [database/init.sql] *)

(** [status IN ('online', 'offline', 'away')] *)
Inductive Status := online | offline | away.

Definition status_text (s : Status) : string :=
  match s with
  | online => "online"
  | offline => "offline"
  | away => "away"
  end.

(** A row of [users], with the fields of [interface User]; the time columns
    hold readings (see TIMESTAMP columns above). *)
Module User.
Record t := make {
  id : string;
  email : string;
  username : string;
  password_hash : string;
  display_name : option string;
  avatar_url : option string;
  bio : option string;
  status : Status;
  is_verified : bool;
  verification_token : option string;
  reset_token : option string;
  reset_token_expires : option Z;
  created_at : Z;
  updated_at : Z;
  last_login : option Z
}.
End User.

Module CreateUserData.
Record t := make {
  email : string;
  username : string;
  password : string;
  display_name : option string
}.
End CreateUserData.

(** A row of [user_sessions], with the fields of [interface UserSession];
    [device_info] is the JSON document as text, the time columns hold
    readings. *)
Module UserSession.
Record t := make {
  id : string;
  user_id : string;
  refresh_token : string;
  device_info : option string;
  ip_address : option string;
  expires_at : Z;
  created_at : Z
}.
End UserSession.

Record Db := {
  users : list User.t;
  user_sessions : list UserSession.t
}.

(** The server's conversion of a text parameter to a [UUID] or [INET]
    column value (it raises on invalid syntax and yields the canonical
    text), and the bcrypt library. *)
Class Postgres := {
  uuid_in : string -> Outcome string;
  inet_in : string -> Outcome string
}.

Class Bcrypt := {
  bcrypt_hash : string -> JsNum -> string -> Outcome string;
  bcrypt_compare : string -> string -> Outcome bool
}.

Fixpoint all_spaces (s : string) : bool :=
  match s with
  | EmptyString => true
  | String c r => if ascii_dec c " " then all_spaces r else false
  end.

(** Assignment to a [VARCHAR(n)] column: a longer value is an error unless
    the excess is spaces, which are cut. *)
Definition varchar (n : nat) (s : string) : Outcome string :=
  if (String.length s <=? n)%nat then Returns s
  else if all_spaces (String.substring n (String.length s - n) s)
       then Returns (String.substring 0 n s)
       else Raises "22001".

(** The JavaScript object pg builds for a row: one property per column; a
    time column becomes the [Date] whose local time, in the process's zone
    [tz], is the reading. *)
Definition opt_text (o : option string) : JsVal :=
  match o with Some s => JString s | None => JNull end.

Definition timestamp_value (tz : TimeZone) (reading : Z) : JsVal :=
  JDate (mkDate (Some (UTC tz reading))).

Definition opt_timestamp (tz : TimeZone) (o : option Z) : JsVal :=
  match o with Some t => timestamp_value tz t | None => JNull end.

Definition user_column (tz : TimeZone) (c : string) (u : User.t) : option JsVal :=
  if decide (c = "id") then Some (JString (User.id u))
  else if decide (c = "email") then Some (JString (User.email u))
  else if decide (c = "username") then Some (JString (User.username u))
  else if decide (c = "password_hash") then Some (JString (User.password_hash u))
  else if decide (c = "display_name") then Some (opt_text (User.display_name u))
  else if decide (c = "avatar_url") then Some (opt_text (User.avatar_url u))
  else if decide (c = "bio") then Some (opt_text (User.bio u))
  else if decide (c = "status") then Some (JString (status_text (User.status u)))
  else if decide (c = "is_verified") then Some (JBool (User.is_verified u))
  else if decide (c = "verification_token") then Some (opt_text (User.verification_token u))
  else if decide (c = "reset_token") then Some (opt_text (User.reset_token u))
  else if decide (c = "reset_token_expires") then Some (opt_timestamp tz (User.reset_token_expires u))
  else if decide (c = "created_at") then Some (timestamp_value tz (User.created_at u))
  else if decide (c = "updated_at") then Some (timestamp_value tz (User.updated_at u))
  else if decide (c = "last_login") then Some (opt_timestamp tz (User.last_login u))
  else None.

(** [RETURNING c1, c2, ...]: the object holding exactly the listed columns. *)
Definition returning (tz : TimeZone) (cols : list string) (u : User.t)
    : gmap string JsVal :=
  list_to_map (omap (fun c => pair c <$> user_column tz c u) cols).

(** [UPDATE users SET ... WHERE ...]: the row count and the new table. *)
Definition update_users (cond : User.t -> bool) (set : User.t -> User.t)
    (l : list User.t) : nat * list User.t :=
  (List.length (List.filter cond l),
   List.map (fun u => if cond u then set u else u) l).

(** [DELETE FROM user_sessions WHERE ...] *)
Definition delete_sessions (cond : UserSession.t -> bool)
    (l : list UserSession.t) : nat * list UserSession.t :=
  (List.length (List.filter cond l),
   List.filter (fun s => negb (cond s)) l).

(** [(result.rowCount ?? 0) > 0] *)
Definition affected (rowCount : nat) : bool := (0 <? rowCount)%nat.

Definition holds_verification_token (token : string) (u : User.t) : bool :=
  bool_decide (User.verification_token u = Some token).

Definition set_verified (t : Z) (u : User.t) : User.t :=
  User.make (User.id u) (User.email u) (User.username u) (User.password_hash u)
    (User.display_name u) (User.avatar_url u) (User.bio u) (User.status u)
    true None
    (User.reset_token u) (User.reset_token_expires u)
    (User.created_at u) t (User.last_login u).

Definition set_password_hash (h : string) (t : Z) (u : User.t) : User.t :=
  User.make (User.id u) (User.email u) (User.username u) h
    (User.display_name u) (User.avatar_url u) (User.bio u) (User.status u)
    (User.is_verified u) (User.verification_token u)
    (User.reset_token u) (User.reset_token_expires u)
    (User.created_at u) t (User.last_login u).

Definition set_reset_token (r : option string) (x : option Z) (t : Z) (u : User.t) : User.t :=
  User.make (User.id u) (User.email u) (User.username u) (User.password_hash u)
    (User.display_name u) (User.avatar_url u) (User.bio u) (User.status u)
    (User.is_verified u) (User.verification_token u)
    r x
    (User.created_at u) t (User.last_login u).

Definition set_last_login (t : Z) (u : User.t) : User.t :=
  User.make (User.id u) (User.email u) (User.username u) (User.password_hash u)
    (User.display_name u) (User.avatar_url u) (User.bio u) (User.status u)
    (User.is_verified u) (User.verification_token u)
    (User.reset_token u) (User.reset_token_expires u)
    (User.created_at u) t (Some t).

Definition with_users (db : Db) (l : list User.t) : Db :=
  {| users := l; user_sessions := user_sessions db |}.

Definition with_sessions (db : Db) (l : list UserSession.t) : Db :=
  {| users := users db; user_sessions := l |}.

(** No session holds [r]. *)
Definition no_session (r : string) (db : Db) : Prop :=
  forall s, In s (user_sessions db) -> UserSession.refresh_token s <> r.

Definition unique_violation (fresh e u : string) (l : list User.t) : bool :=
  existsb (fun r => bool_decide (User.id r = fresh)
                    || bool_decide (User.email r = e)
                    || bool_decide (User.username r = u)) l.

(** ** The user model: class [UserModel]

    Every method is one SQL statement: it either changes the store and
    returns, or throws and leaves the store as it was.  The store itself is
    taken to be reachable.  SQL [NOW()] is the server's clock [sql_now w],
    [new Date()] the process's clock [now w]; both are instants
    (milliseconds since the epoch), while the time columns hold readings.
    A method that hands a row to its caller is given the row as the store
    holds it: the [Date] the caller reads from a time column [c] of that row
    is [Date_of_timestamp w c]. *)

Module UserModel.
Section UserModel.
Context {ES : EcmaScript} {PG : Postgres} {BC : Bcrypt}.

(** [INSERT INTO users (email, username, password_hash, display_name,
    verification_token, is_verified) VALUES (...)]: the other columns take
    their defaults; [id], [email] and [username] are unique. *)
Definition insert_user (w : Ambient)
    (email username password_hash display_name verification_token : string)
    (is_verified : bool) (db : Db) : Result (User.t * Db) :=
  e <- call "pg" (varchar 255 email) ;;
  u <- call "pg" (varchar 50 username) ;;
  h <- call "pg" (varchar 255 password_hash) ;;
  d <- call "pg" (varchar 100 display_name) ;;
  t <- call "pg" (varchar 255 verification_token) ;;
  if unique_violation (fresh_id w) e u (users db) then Throw (Foreign "pg" "23505")
  else
    let row := User.make (fresh_id w) e u h (Some d) None None offline
                 is_verified (Some t) None None
                 (timestamp_of_now w) (timestamp_of_now w) None in
    Ok (row, with_users db (users db ++ [row])).

Definition create (w : Ambient) (userData : CreateUserData.t) (db : Db)
    : Result (gmap string JsVal * Db) :=
  hashedPassword <-
    call "bcrypt"
      (bcrypt_hash (CreateUserData.password userData)
         (parseInt (or_else (env w !! "BCRYPT_ROUNDS") "12")) (salt w)) ;;
  let verificationToken := uuidv4 (random w) in
  inserted <-
    insert_user w
      (CreateUserData.email userData)
      (CreateUserData.username userData)
      hashedPassword
      (or_else (CreateUserData.display_name userData) (CreateUserData.username userData))
      verificationToken
      false db ;;
  Ok (returning (zone w)
        ["id"; "email"; "username"; "display_name"; "status";
         "is_verified"; "created_at"; "updated_at"] (fst inserted),
      snd inserted).

Definition findByEmail (email : string) (db : Db) : option User.t :=
  head (List.filter (fun u => bool_decide (User.email u = email)) (users db)).

Definition findByUsername (username : string) (db : Db) : option User.t :=
  head (List.filter (fun u => bool_decide (User.username u = username)) (users db)).

Definition findById (id : string) (db : Db) : Result (option User.t) :=
  i <- call "pg" (uuid_in id) ;;
  Ok (head (List.filter (fun u => bool_decide (User.id u = i)) (users db))).

Definition findByVerificationToken (token : string) (db : Db) : option User.t :=
  head (List.filter (holds_verification_token token) (users db)).

Definition findByResetToken (w : Ambient) (token : string) (db : Db) : option User.t :=
  head (List.filter
          (fun u => bool_decide (User.reset_token u = Some token)
                    && match User.reset_token_expires u with
                       | Some x => timestamp_after_now w x
                       | None => false
                       end)
          (users db)).

Definition verifyEmail (w : Ambient) (token : string) (db : Db) : bool * Db :=
  let result :=
    update_users (holds_verification_token token) (set_verified (timestamp_of_now w))
      (users db) in
  (affected (fst result), with_users db (snd result)).

Definition updatePassword (w : Ambient) (userId newPassword : string) (db : Db)
    : Result (bool * Db) :=
  hashedPassword <-
    call "bcrypt"
      (bcrypt_hash newPassword
         (parseInt (or_else (env w !! "BCRYPT_ROUNDS") "12")) (salt w)) ;;
  h <- call "pg" (varchar 255 hashedPassword) ;;
  i <- call "pg" (uuid_in userId) ;;
  let result :=
    update_users (fun u => bool_decide (User.id u = i))
      (set_password_hash h (timestamp_of_now w)) (users db) in
  Ok (affected (fst result), with_users db (snd result)).

(** [expiresAt] is the time value of the (valid) [Date] passed. *)
Definition setResetToken (w : Ambient) (email token : string) (expiresAt : Z) (db : Db)
    : Result (bool * Db) :=
  t <- call "pg" (varchar 255 token) ;;
  let result :=
    update_users (fun u => bool_decide (User.email u = email))
      (set_reset_token (Some t) (Some (timestamp_of_Date w expiresAt))
         (timestamp_of_now w)) (users db) in
  Ok (affected (fst result), with_users db (snd result)).

Definition clearResetToken (w : Ambient) (userId : string) (db : Db)
    : Result (bool * Db) :=
  i <- call "pg" (uuid_in userId) ;;
  let result :=
    update_users (fun u => bool_decide (User.id u = i))
      (set_reset_token None None (timestamp_of_now w)) (users db) in
  Ok (affected (fst result), with_users db (snd result)).

Definition updateLastLogin (w : Ambient) (userId : string) (db : Db)
    : Result (bool * Db) :=
  i <- call "pg" (uuid_in userId) ;;
  let result :=
    update_users (fun u => bool_decide (User.id u = i))
      (set_last_login (timestamp_of_now w)) (users db) in
  Ok (affected (fst result), with_users db (snd result)).

Definition validatePassword (plainPassword hashedPassword : string) : Result bool :=
  call "bcrypt" (bcrypt_compare plainPassword hashedPassword).

(** [user_id] references [users(id)]; the statement returns the whole row.
    [expiresAt] is computed by the process, in its own zone, and reaches the
    column as a reading of that zone; [created_at] is the server's. *)
Definition createSession (w : Ambient) (userId refreshToken : string)
    (deviceInfo ipAddress : option string) (db : Db)
    : Result (UserSession.t * Db) :=
  let expiresAt := setDate_getDate_plus (zone w) (now w) 7 in
  i <- call "pg" (uuid_in userId) ;;
  ip <- match or_null ipAddress with
        | Some a => a' <- call "pg" (inet_in a) ;; Ok (Some a')
        | None => Ok None
        end ;;
  if existsb (fun s => bool_decide (UserSession.id s = fresh_id w)) (user_sessions db)
  then Throw (Foreign "pg" "23505")
  else if negb (existsb (fun u => bool_decide (User.id u = i)) (users db))
  then Throw (Foreign "pg" "23503")
  else
    let row := UserSession.make (fresh_id w) i refreshToken deviceInfo ip
                 (timestamp_of_Date w expiresAt) (timestamp_of_now w) in
    Ok (row, with_sessions db (user_sessions db ++ [row])).

Definition findSessionByRefreshToken (w : Ambient) (refreshToken : string) (db : Db)
    : option UserSession.t :=
  head (List.filter
          (fun s => bool_decide (UserSession.refresh_token s = refreshToken)
                    && timestamp_after_now w (UserSession.expires_at s))
          (user_sessions db)).

Definition deleteSession (refreshToken : string) (db : Db) : bool * Db :=
  let result :=
    delete_sessions (fun s => bool_decide (UserSession.refresh_token s = refreshToken))
      (user_sessions db) in
  (affected (fst result), with_sessions db (snd result)).

Definition deleteAllUserSessions (userId : string) (db : Db) : Result (bool * Db) :=
  i <- call "pg" (uuid_in userId) ;;
  let result :=
    delete_sessions (fun s => bool_decide (UserSession.user_id s = i))
      (user_sessions db) in
  Ok (affected (fst result), with_sessions db (snd result)).
End UserModel.
End UserModel.

(** ** The Identity Service: refresh *)

Module IdentityService.
Section IdentityService.
Context {ES : EcmaScript} {JWT : JsonWebToken} {PG : Postgres} {BC : Bcrypt}.

(** The specification's [InvalidTokenError]; [JWTUtils.verifyRefreshToken]
    throws it as [new Error('Invalid refresh token')]. *)
Definition InvalidTokenError : Exn := Error "Invalid refresh token".

(** The claims of an access token, read from the current user record. *)
Definition claims (u : User.t) : JWTPayload :=
  {| userId := User.id u;
     email := User.email u;
     username := User.username u;
     isVerified := User.is_verified u |}.

(** Modelled from the spec: the Identity Service's [refresh] operation; the
    service composing [JWTUtils] and [UserModel] is not among the sources.
    Section 4.2: it fails with InvalidTokenError if the token fails
    signature verification or no matching non-expired Session exists; on
    success it re-fetches the current user record, issues a new token pair
    and replaces the session record (the old refresh token is invalidated).
    The replacement is the model's [deleteSession] of the old token followed
    by [createSession] for the new one; several statements run, so the
    store is returned also when the operation throws. *)
Definition refresh (w : Ambient) (oldRefreshToken : string) (db : Db)
    : Result TokenPair * Db :=
  match JWTUtils.verifyRefreshToken w oldRefreshToken with
  | Throw _ => (Throw InvalidTokenError, db)
  | Ok _ =>
    match UserModel.findSessionByRefreshToken w oldRefreshToken db with
    | None => (Throw InvalidTokenError, db)
    | Some session =>
      match UserModel.findById (UserSession.user_id session) db with
      | Throw e => (Throw e, db)
      | Ok None => (Throw InvalidTokenError, db)
      | Ok (Some user) =>
        match JWTUtils.generateTokenPair w (claims user) with
        | Throw e => (Throw e, db)
        | Ok tokens =>
          let db1 := snd (UserModel.deleteSession oldRefreshToken db) in
          match UserModel.createSession w (User.id user) (refreshToken tokens)
                  (UserSession.device_info session)
                  (UserSession.ip_address session) db1 with
          | Throw e => (Throw e, db1)
          | Ok created => (Ok tokens, snd created)
          end
        end
      end
    end
  end.
End IdentityService.
End IdentityService.

(** ** Histories of the store

    The operations a running service applies to the store, each in the world
    of its own moment; a history is a list of them. *)

Inductive Operation :=
| Create (userData : CreateUserData.t)
| VerifyEmail (token : string)
| UpdatePassword (userId newPassword : string)
| SetResetToken (email token : string) (expiresAt : Z)
| ClearResetToken (userId : string)
| UpdateLastLogin (userId : string)
| CreateSession (userId refreshToken : string) (deviceInfo ipAddress : option string)
| DeleteSession (refreshToken : string)
| DeleteAllUserSessions (userId : string)
| Refresh (refreshToken : string).

(** The store a single-statement method leaves: the new one when it returns,
    the old one when it throws. *)
Definition store_of {A} (r : Result (A * Db)) (db : Db) : Db :=
  match r with
  | Ok x => snd x
  | Throw _ => db
  end.

Section Histories.
Context {ES : EcmaScript} {JWT : JsonWebToken} {PG : Postgres} {BC : Bcrypt}.

Definition perform (w : Ambient) (op : Operation) (db : Db) : Db :=
  match op with
  | Create userData => store_of (UserModel.create w userData db) db
  | VerifyEmail token => snd (UserModel.verifyEmail w token db)
  | UpdatePassword userId newPassword =>
      store_of (UserModel.updatePassword w userId newPassword db) db
  | SetResetToken email token expiresAt =>
      store_of (UserModel.setResetToken w email token expiresAt db) db
  | ClearResetToken userId => store_of (UserModel.clearResetToken w userId db) db
  | UpdateLastLogin userId => store_of (UserModel.updateLastLogin w userId db) db
  | CreateSession userId refreshToken deviceInfo ipAddress =>
      store_of (UserModel.createSession w userId refreshToken deviceInfo ipAddress db) db
  | DeleteSession refreshToken => snd (UserModel.deleteSession refreshToken db)
  | DeleteAllUserSessions userId => store_of (UserModel.deleteAllUserSessions userId db) db
  | Refresh refreshToken => snd (IdentityService.refresh w refreshToken db)
  end.

Fixpoint perform_all (history : list (Ambient * Operation)) (db : Db) : Db :=
  match history with
  | [] => db
  | (w, op) :: rest => perform_all rest (perform w op db)
  end.

(** The refresh token an operation may put into [user_sessions]. *)
Definition stored_refresh_token (w : Ambient) (op : Operation) : option string :=
  match op with
  | CreateSession _ refreshToken _ _ => Some refreshToken
  | Refresh _ =>
      match JWTUtils.generateRefreshToken w with
      | Ok t => Some t
      | Throw _ => None
      end
  | _ => None
  end.

(** The verification token an operation may put into [users]. *)
Definition issued_verification_token (w : Ambient) (op : Operation) : option string :=
  match op with
  | Create _ => Some (uuidv4 (random w))
  | _ => None
  end.
End Histories.

(** No user holds [token] as verification token. *)
Definition no_holder (token : string) (db : Db) : Prop :=
  forall u, In u (users db) -> User.verification_token u <> Some token.

(** ** Concrete hosts, for running the model on inputs *)

Module Host.
(** A host whose local time is UTC. *)
Definition utc : TimeZone := {| LocalTZA := fun _ _ => 0 |}.

(** US Eastern time during 2026: UTC-5, and UTC-4 from 8 March 07:00 UTC
    to 1 November 06:00 UTC. *)
Definition eastern_2026 : TimeZone :=
  {| LocalTZA := fun t isUTC =>
       if isUTC then
         if (t <? 1772953200000) || (1793512800000 <=? t)
         then -18000000 else -14400000
       else
         if (t <? 1772938800000) || (1793498400000 <=? t)
         then -18000000 else -14400000 |}.

(** The same zone as a PostgreSQL session resolves readings: of the hour
    that 1 November repeats it takes the later instant (standard time), where
    ECMAScript takes the earlier one. *)
Definition eastern_2026_session : TimeZone :=
  {| LocalTZA := fun t isUTC =>
       if isUTC then LocalTZA eastern_2026 t true
       else
         if (t <? 1772938800000) || (1793494800000 <=? t)
         then -18000000 else -14400000 |}.

(** Decimal digits only; enough for the configuration values used below. *)
Fixpoint digits (acc : Z) (s : string) : JsNum :=
  match s with
  | EmptyString => Num acc
  | String c r =>
      match Ascii.is_nat c with
      | Some d => digits (10 * acc + Z.of_nat d) r
      | None => Num acc
      end
  end.

Definition ecma : EcmaScript :=
  {| parseInt := fun s =>
       match s with
       | EmptyString => NaN
       | String c _ => if Ascii.is_nat c is Some _ then digits 0 s else NaN
       end;
     StringToNumber := fun s =>
       match s with
       | EmptyString => Num 0
       | String c _ => if Ascii.is_nat c is Some _ then digits 0 s else NaN
       end |}.

(** A stand-in for jsonwebtoken: a token is the secret, a dot and the
    token id (or the user id); it verifies under the secret it starts
    with and decodes to no payload. *)
Definition subject (payload : gmap string JsVal) : string :=
  match payload !! "tokenId", payload !! "userId" with
  | Some (JString s), _ => s
  | _, Some (JString s) => s
  | _, _ => ""
  end.

Definition jwt : JsonWebToken :=
  {| jwt_sign := fun payload secret _ _ => Returns (secret +:+ "." +:+ subject payload);
     jwt_verify := fun token secret _ =>
       if String.prefix (secret +:+ ".") token
       then Returns (DecValue (JString token))
       else Raises "JsonWebTokenError";
     jwt_decode := fun _ => Returns (DecValue JNull) |}.

(** The server's [uuid] input: thirty-two hexadecimal digits in either
    case, optionally in braces, with an optional hyphen after every fourth
    digit; the value is sixteen bytes, shown as 8-4-4-4-12 lower-case
    digits.  Anything else is invalid text (22P02). *)
Definition is_xdigit (c : ascii) : bool :=
  let n := nat_of_ascii c in
  ((48 <=? n) && (n <=? 57) || (65 <=? n) && (n <=? 70)
   || (97 <=? n) && (n <=? 102))%nat.

Definition xdigit (c : ascii) : Z :=
  let n := Z.of_nat (nat_of_ascii c) in
  if n <=? 57 then n - 48 else if n <=? 70 then n - 55 else n - 87.

Fixpoint uuid_digits (count i : nat) (src : string) : option (list Z * string) :=
  match count with
  | O => Some ([], src)
  | S count' =>
      match src with
      | String a (String b rest) =>
          if is_xdigit a && is_xdigit b then
            let rest' :=
              match rest with
              | String "-" r => if Nat.odd i && (i <? 15)%nat then r else rest
              | _ => rest
              end in
            match uuid_digits count' (S i) rest' with
            | Some (bs, tail) => Some (16 * xdigit a + xdigit b :: bs, tail)
            | None => None
            end
          else None
      | _ => None
      end
  end.

Definition string_to_uuid (source : string) : Outcome string :=
  let braces := if source is String "{" _ then true else false in
  let src := if source is String "{" r then r else source in
  match uuid_digits 16 0 src with
  | Some (bs, tail) =>
      if String.eqb tail (if braces then "}" else "")
      then Returns (stringify bs) else Raises "22P02"
  | None => Raises "22P02"
  end.

(** The server's [inet] input, for IPv4 addresses written as four decimal
    numbers up to 255 without leading zeros, which it shows as written; the
    other notations the server reads (a netmask, IPv6) are not used below
    and are refused here. *)
Fixpoint octet (acc : option Z) (s : string) : option (Z * string) :=
  match s with
  | String c r =>
      match Ascii.is_nat c, acc with
      | Some d, None => octet (Some (Z.of_nat d)) r
      | Some d, Some 0 => None
      | Some d, Some n => if 10 * n + Z.of_nat d <=? 255
                          then octet (Some (10 * n + Z.of_nat d)) r else None
      | None, Some n => Some (n, s)
      | None, None => None
      end
  | EmptyString => match acc with Some n => Some (n, s) | None => None end
  end.

Definition dotted_quad (s : string) : bool :=
  match octet None s with
  | Some (_, String "." s1) =>
      match octet None s1 with
      | Some (_, String "." s2) =>
          match octet None s2 with
          | Some (_, String "." s3) =>
              match octet None s3 with
              | Some (_, EmptyString) => true
              | _ => false
              end
          | _ => false
          end
      | _ => false
      end
  | _ => false
  end.

Definition postgres : Postgres :=
  {| uuid_in := string_to_uuid;
     inet_in := fun s => if dotted_quad s then Returns s else Raises "22P02" |}.

Definition bcrypt : Bcrypt :=
  {| bcrypt_hash := fun plain _ salt => Returns ("$2b$" +:+ salt +:+ plain);
     bcrypt_compare := fun plain hash => Returns (String.eqb hash ("$2b$" +:+ plain)) |}.

(** A deployment at the instant [t]: the process runs in the zone [tz], the
    database session in [stz], and their clocks agree. *)
Definition deployed (e : gmap string string) (t : Z) (tz stz : TimeZone)
    (rnds : list Z) (id : string) : Ambient :=
  {| env := e; now := t; sql_now := t; zone := tz; session_zone := stz;
     random := rnds; salt := "salt"; fresh_id := id |}.

(** The deployment whose database session runs in UTC. *)
Definition world (e : gmap string string) (t : Z) (tz : TimeZone)
    (rnds : list Z) (id : string) : Ambient :=
  deployed e t tz utc rnds id.

(** Row identifiers, as [gen_random_uuid()] yields them. *)
Definition u1 : string := "11111111-1111-4111-8111-111111111111".
Definition u2 : string := "22222222-2222-4222-8222-222222222222".
Definition u3 : string := "33333333-3333-4333-8333-333333333333".
Definition u4 : string := "44444444-4444-4444-8444-444444444444".
Definition u7 : string := "77777777-7777-4777-8777-777777777777".
Definition s0 : string := "a0000000-0000-4000-8000-000000000000".
Definition s1 : string := "a1111111-1111-4111-8111-111111111111".
Definition s2 : string := "a2222222-2222-4222-8222-222222222222".
Definition s3 : string := "a3333333-3333-4333-8333-333333333333".
Definition s4 : string := "a4444444-4444-4444-8444-444444444444".
Definition s9 : string := "a9999999-9999-4999-8999-999999999999".
(** The identifier in store for an operation that inserts no row. *)
Definition spare : string := "ffffffff-ffff-4fff-8fff-ffffffffffff".

Definition secrets : gmap string string :=
  <["JWT_SECRET" := "access-secret"]> (<["JWT_REFRESH_SECRET" := "refresh-secret"]> ∅).

Definition alice : User.t :=
  User.make u1 "a@x.com" "alice" "$2b$saltSecret123!" (Some "alice") None None
    offline false (Some "tok-1") None None 1000 1000 None.

Definition bob : User.t :=
  User.make u2 "b@x.com" "bob" "$2b$saltpw" (Some "Bob") None None
    offline false (Some "tok-2") None None 2000 2000 None.
End Host.

(** ** config/database.ts *)

(** A node-redis client object: the URL it was created with, the events it
    has listeners for, and whether it is connected. *)
Record RedisClient := {
  redis_url : option string;
  redis_listeners : list string;
  redis_open : bool
}.

Inductive Level := LogInfo | LogError.

(** The module's state: the variable [redisClient] (unset at load), the
    pool [db] (clients checked out, whether it was ended) and the lines the
    module's functions hand to the logger themselves. *)
Record Connections := {
  redisClient : option RedisClient;
  pool_checked_out : nat;
  pool_ended : bool;
  logged : list (Level * string)
}.

(** Where an awaited call stands: it has settled, with a value or an
    exception, or it stays pending and the function awaiting it does not
    resume. *)
Inductive Promise (A : Type) :=
| Settled (r : Result A)
| Pending.
Arguments Settled {A} r.
Arguments Pending {A}.

(** How the libraries and the servers answer the module's calls at one
    moment.  [createClient] reads the URL it is given and throws on one it
    cannot use; [connect()] is fulfilled once the server has answered, and
    while the server refuses the client goes on trying (the reconnect
    strategy is the default one, no option sets another), so the call stays
    pending. *)
Record Infrastructure := {
  redis_createClient : option string -> Outcome unit;
  redis_connect : Promise unit;
  redis_quit : Outcome unit;
  pool_connect : Outcome unit;
  pool_query : Outcome unit;
  pool_end : Outcome unit
}.

(** The state when the module has been loaded. *)
Definition loaded : Connections :=
  {| redisClient := None; pool_checked_out := 0; pool_ended := false; logged := [] |}.

Definition set_redisClient (st : Connections) (c : RedisClient) : Connections :=
  {| redisClient := Some c; pool_checked_out := pool_checked_out st;
     pool_ended := pool_ended st; logged := logged st |}.

Definition log (st : Connections) (l : Level) (m : string) : Connections :=
  {| redisClient := redisClient st; pool_checked_out := pool_checked_out st;
     pool_ended := pool_ended st; logged := logged st ++ [(l, m)] |}.

Definition set_checked_out (st : Connections) (n : nat) : Connections :=
  {| redisClient := redisClient st; pool_checked_out := n;
     pool_ended := pool_ended st; logged := logged st |}.

Definition set_ended (st : Connections) : Connections :=
  {| redisClient := redisClient st; pool_checked_out := pool_checked_out st;
     pool_ended := true; logged := logged st |}.

Definition opened (c : RedisClient) (b : bool) : RedisClient :=
  {| redis_url := redis_url c; redis_listeners := redis_listeners c; redis_open := b |}.

Module Database.

(** When [createClient] throws nothing has been assigned.  Otherwise the
    client is stored in [redisClient] before [connect()] is awaited: the
    variable keeps the client also when the call does not come back. *)
Definition initializeRedis (w : Ambient) (i : Infrastructure) (st : Connections)
    : Promise RedisClient * Connections :=
  match redisClient st with
  | Some c => (Settled (Ok c), st)
  | None =>
      match redis_createClient i (env w !! "REDIS_URL") with
      | Raises code => (Settled (Throw (Foreign "redis" code)), st)
      | Returns _ =>
          let created :=
            {| redis_url := env w !! "REDIS_URL";
               redis_listeners := ["error"; "connect"];
               redis_open := false |} in
          match redis_connect i with
          | Settled (Ok _) =>
              (Settled (Ok (opened created true)),
               set_redisClient st (opened created true))
          | Settled (Throw e) => (Settled (Throw e), set_redisClient st created)
          | Pending => (Pending, set_redisClient st created)
          end
      end
  end.

Definition getRedisClient (st : Connections) : Result RedisClient :=
  match redisClient st with
  | None => Throw (Error "Redis client not initialized. Call initializeRedis() first.")
  | Some c => Ok c
  end.

(** [process.exit(1)] ends the process: the result is the exit status, or
    [None] when the function returns. *)
Definition connectDatabase (i : Infrastructure) (st : Connections)
    : option Z * Connections :=
  match pool_connect i with
  | Raises _ => (Some 1, log st LogError "Failed to connect to database:")
  | Returns _ =>
      let st1 := set_checked_out st (S (pool_checked_out st)) in
      match pool_query i with
      | Raises _ => (Some 1, log st1 LogError "Failed to connect to database:")
      | Returns _ =>
          (None, log (set_checked_out st1 (pool_checked_out st))
                   LogInfo "Connected to PostgreSQL database")
      end
  end.

Definition closeDatabaseConnections (i : Infrastructure) (st : Connections)
    : Connections :=
  match pool_end i with
  | Raises _ => log st LogError "Error closing database connections:"
  | Returns _ =>
      let st1 := set_ended st in
      match redisClient st1 with
      | None => log st1 LogInfo "Database connections closed"
      | Some c =>
          match redis_quit i with
          | Raises _ =>
              log st1 LogError "Error closing database connections:"
          | Returns _ =>
              log (set_redisClient st1 (opened c false))
                LogInfo "Database connections closed"
          end
      end
  end.
End Database.

(** ** The email service: class [EmailService] *)

(** The double-quote character of the HTML templates. *)
Definition dq : string := String "034"%char "".

(** A template placeholder holding [v : string | undefined]. *)
Definition interpolate (o : option string) : string := default "undefined" o.

(** [s] has [part] somewhere inside. *)
Definition contains (s part : string) : Prop :=
  exists before after, s = before +:+ part +:+ after.

Record MailOptions := {
  mail_from : option string;
  mail_to : string;
  mail_subject : string;
  mail_html : string;
  mail_text : string
}.

Record TransportOptions := {
  smtp_host : option string;
  smtp_port : JsNum;
  smtp_secure : bool;
  smtp_user : option string;
  smtp_pass : option string
}.

(** The nodemailer transporter: [verify()] and [sendMail(mailOptions)]. *)
Class Nodemailer := {
  transporter_verify : Outcome unit;
  transporter_sendMail : MailOptions -> Outcome unit
}.

(** The template literals of the three mails, character for character. *)
Definition verification_html (username verificationUrl : string) : string :=
  "
          <div style=" +:+
  dq +:+
  "font-family: Arial, sans-serif; max-width: 600px; margin: 0 auto;" +:+
  dq +:+
  ">
            <h1 style=" +:+
  dq +:+
  "color: #333; text-align: center;" +:+
  dq +:+
  ">Welcome to Secure Chat App!</h1>
            
            <div style=" +:+
  dq +:+
  "background: #f8f9fa; padding: 20px; border-radius: 8px; margin: 20px 0;" +:+
  dq +:+
  ">
              <p>Hi <strong>" +:+
  username +:+
  "</strong>,</p>
              
              <p>Thank you for signing up! Please click the button below to verify your email address:</p>
              
              <div style=" +:+
  dq +:+
  "text-align: center; margin: 30px 0;" +:+
  dq +:+
  ">
                <a href=" +:+
  dq +:+
  verificationUrl +:+
  dq +:+
  " 
                   style=" +:+
  dq +:+
  "background: #007bff; color: white; padding: 12px 30px; 
                          text-decoration: none; border-radius: 5px; display: inline-block;" +:+
  dq +:+
  ">
                  Verify Email Address
                </a>
              </div>
              
              <p>If the button doesn't work, copy and paste this link into your browser:</p>
              <p style=" +:+
  dq +:+
  "word-break: break-all; color: #666;" +:+
  dq +:+
  ">" +:+
  verificationUrl +:+
  "</p>
              
              <p style=" +:+
  dq +:+
  "margin-top: 30px; padding-top: 20px; border-top: 1px solid #ddd; color: #666; font-size: 14px;" +:+
  dq +:+
  ">
                This link will expire in 24 hours. If you didn't create an account, you can safely ignore this email.
              </p>
            </div>
            
            <p style=" +:+
  dq +:+
  "text-align: center; color: #666; font-size: 12px;" +:+
  dq +:+
  ">
              © 2024 Secure Chat App. All rights reserved.
            </p>
          </div>
        ".

Definition verification_text (username verificationUrl : string) : string :=
  "
          Welcome to Secure Chat App!
          
          Hi " +:+
  username +:+
  ",
          
          Please verify your email address by visiting: " +:+
  verificationUrl +:+
  "
          
          This link will expire in 24 hours.
        ".

Definition reset_html (username resetUrl : string) : string :=
  "
          <div style=" +:+
  dq +:+
  "font-family: Arial, sans-serif; max-width: 600px; margin: 0 auto;" +:+
  dq +:+
  ">
            <h1 style=" +:+
  dq +:+
  "color: #333; text-align: center;" +:+
  dq +:+
  ">Password Reset Request</h1>
            
            <div style=" +:+
  dq +:+
  "background: #fff3cd; padding: 20px; border-radius: 8px; margin: 20px 0; border-left: 4px solid #ffc107;" +:+
  dq +:+
  ">
              <p>Hi <strong>" +:+
  username +:+
  "</strong>,</p>
              
              <p>We received a request to reset your password. Click the button below to create a new password:</p>
              
              <div style=" +:+
  dq +:+
  "text-align: center; margin: 30px 0;" +:+
  dq +:+
  ">
                <a href=" +:+
  dq +:+
  resetUrl +:+
  dq +:+
  " 
                   style=" +:+
  dq +:+
  "background: #dc3545; color: white; padding: 12px 30px; 
                          text-decoration: none; border-radius: 5px; display: inline-block;" +:+
  dq +:+
  ">
                  Reset Password
                </a>
              </div>
              
              <p>If the button doesn't work, copy and paste this link into your browser:</p>
              <p style=" +:+
  dq +:+
  "word-break: break-all; color: #666;" +:+
  dq +:+
  ">" +:+
  resetUrl +:+
  "</p>
              
              <p style=" +:+
  dq +:+
  "margin-top: 30px; padding-top: 20px; border-top: 1px solid #ddd; color: #666; font-size: 14px;" +:+
  dq +:+
  ">
                This link will expire in 1 hour. If you didn't request this reset, you can safely ignore this email.
              </p>
            </div>
            
            <p style=" +:+
  dq +:+
  "text-align: center; color: #666; font-size: 12px;" +:+
  dq +:+
  ">
              © 2024 Secure Chat App. All rights reserved.
            </p>
          </div>
        ".

Definition reset_text (username resetUrl : string) : string :=
  "
          Password Reset Request
          
          Hi " +:+
  username +:+
  ",
          
          Reset your password by visiting: " +:+
  resetUrl +:+
  "
          
          This link will expire in 1 hour.
        ".

Definition welcome_html (username frontendUrl : string) : string :=
  "
          <div style=" +:+
  dq +:+
  "font-family: Arial, sans-serif; max-width: 600px; margin: 0 auto;" +:+
  dq +:+
  ">
            <h1 style=" +:+
  dq +:+
  "color: #28a745; text-align: center;" +:+
  dq +:+
  ">🎉 Welcome to Secure Chat App!</h1>
            
            <div style=" +:+
  dq +:+
  "background: #d4edda; padding: 20px; border-radius: 8px; margin: 20px 0; border-left: 4px solid #28a745;" +:+
  dq +:+
  ">
              <p>Hi <strong>" +:+
  username +:+
  "</strong>,</p>
              
              <p>Your email has been verified successfully! You can now:</p>
              
              <ul style=" +:+
  dq +:+
  "margin: 20px 0;" +:+
  dq +:+
  ">
                <li>Send and receive real-time messages</li>
                <li>Add friends and create group chats</li>
                <li>Share files and images securely</li>
                <li>Customize your profile</li>
              </ul>
              
              <div style=" +:+
  dq +:+
  "text-align: center; margin: 30px 0;" +:+
  dq +:+
  ">
                <a href=" +:+
  dq +:+
  frontendUrl +:+
  "/login" +:+
  dq +:+
  " 
                   style=" +:+
  dq +:+
  "background: #28a745; color: white; padding: 12px 30px; 
                          text-decoration: none; border-radius: 5px; display: inline-block;" +:+
  dq +:+
  ">
                  Start Chatting Now
                </a>
              </div>
              
              <p>If you have any questions, feel free to reach out to our support team.</p>
            </div>
            
            <p style=" +:+
  dq +:+
  "text-align: center; color: #666; font-size: 12px;" +:+
  dq +:+
  ">
              © 2024 Secure Chat App. All rights reserved.
            </p>
          </div>
        ".

Definition welcome_text (username frontendUrl : string) : string :=
  "
          Welcome to Secure Chat App!
          
          Hi " +:+
  username +:+
  ",
          
          Your email has been verified! Start chatting at: " +:+
  frontendUrl +:+
  "/login
        ".

Module EmailService.
Section EmailService.
Context {ES : EcmaScript} {NM : Nodemailer}.

(** The options [createTransport] is given when the class is loaded. *)
Definition transportOptions (w : Ambient) : TransportOptions :=
  {| smtp_host := env w !! "SMTP_HOST";
     smtp_port := parseInt (or_else (env w !! "SMTP_PORT") "587");
     smtp_secure := false;
     smtp_user := env w !! "SMTP_USER";
     smtp_pass := env w !! "SMTP_PASS" |}.

(** Each method returns its boolean and the line it logs. *)
Definition testConnection : bool * (Level * string) :=
  match transporter_verify with
  | Returns _ => (true, (LogInfo, "Email service connected successfully"))
  | Raises _ => (false, (LogError, "Email service connection failed:"))
  end.

Definition verificationUrl (w : Ambient) (token : string) : string :=
  interpolate (env w !! "FRONTEND_URL") +:+ "/verify-email?token=" +:+ token.

Definition verificationMail (w : Ambient) (to username token : string) : MailOptions :=
  {| mail_from := env w !! "FROM_EMAIL";
     mail_to := to;
     mail_subject := "Verify Your Email - Secure Chat App";
     mail_html := verification_html username (verificationUrl w token);
     mail_text := verification_text username (verificationUrl w token) |}.

Definition sendVerificationEmail (w : Ambient) (to username token : string)
    : bool * (Level * string) :=
  match transporter_sendMail (verificationMail w to username token) with
  | Returns _ => (true, (LogInfo, "Verification email sent to " +:+ to))
  | Raises _ => (false, (LogError, "Failed to send verification email:"))
  end.

Definition resetUrl (w : Ambient) (token : string) : string :=
  interpolate (env w !! "FRONTEND_URL") +:+ "/reset-password?token=" +:+ token.

Definition passwordResetMail (w : Ambient) (to username token : string) : MailOptions :=
  {| mail_from := env w !! "FROM_EMAIL";
     mail_to := to;
     mail_subject := "Reset Your Password - Secure Chat App";
     mail_html := reset_html username (resetUrl w token);
     mail_text := reset_text username (resetUrl w token) |}.

Definition sendPasswordResetEmail (w : Ambient) (to username token : string)
    : bool * (Level * string) :=
  match transporter_sendMail (passwordResetMail w to username token) with
  | Returns _ => (true, (LogInfo, "Password reset email sent to " +:+ to))
  | Raises _ => (false, (LogError, "Failed to send password reset email:"))
  end.

Definition welcomeMail (w : Ambient) (to username : string) : MailOptions :=
  {| mail_from := env w !! "FROM_EMAIL";
     mail_to := to;
     mail_subject := "Welcome to Secure Chat App!";
     mail_html := welcome_html username (interpolate (env w !! "FRONTEND_URL"));
     mail_text := welcome_text username (interpolate (env w !! "FRONTEND_URL")) |}.

Definition sendWelcomeEmail (w : Ambient) (to username : string)
    : bool * (Level * string) :=
  match transporter_sendMail (welcomeMail w to username) with
  | Returns _ => (true, (LogInfo, "Welcome email sent to " +:+ to))
  | Raises _ => (false, (LogError, "Failed to send welcome email:"))
  end.
End EmailService.
End EmailService.

(** ** What the store keeps

    [row_step u u']: the same user row, later.  Identity, email and username
    are as before, a verified row is still verified, and the verification
    token is as before or cleared. *)
Definition row_step (u u' : User.t) : Prop :=
  User.id u' = User.id u
  /\ User.email u' = User.email u
  /\ User.username u' = User.username u
  /\ User.created_at u' = User.created_at u
  /\ (User.is_verified u = true -> User.is_verified u' = true)
  /\ (User.verification_token u' = User.verification_token u
      \/ User.verification_token u' = None).

(** The uniqueness constraints of [users]: primary key, email, username. *)
Definition unique_users (db : Db) : Prop :=
  NoDup (List.map User.id (users db))
  /\ NoDup (List.map User.email (users db))
  /\ NoDup (List.map User.username (users db)).

(** The operations that write to [users], and those that write to
    [user_sessions]. *)
Definition writes_users (op : Operation) : bool :=
  match op with
  | Create _ | VerifyEmail _ | UpdatePassword _ _ | SetResetToken _ _ _
  | ClearResetToken _ | UpdateLastLogin _ => true
  | _ => false
  end.

(** [verifyEmail(token)] is the operation that consumes [token]. *)
Definition consumes (token : string) (op : Operation) : bool :=
  match op with
  | VerifyEmail t => bool_decide (t = token)
  | _ => false
  end.

(** ** More hosts *)

Module Probe.
(** A jsonwebtoken stand-in whose tokens decode to a payload with the given
    [exp]; the empty token is malformed. *)
Definition jwt_exp (exp : JsVal) : JsonWebToken :=
  {| jwt_sign := fun _ secret _ _ => Returns (secret +:+ ".t");
     jwt_verify := fun token secret _ =>
       if String.prefix (secret +:+ ".") token
       then Returns (DecObject {[ "exp" := exp ]})
       else Raises "JsonWebTokenError";
     jwt_decode := fun token =>
       if string_truthy token then Returns (DecObject {[ "exp" := exp ]})
       else Returns (DecValue JNull) |}.

Definition carol : CreateUserData.t :=
  CreateUserData.make "c@x.com" "carol" "Secret123!" None.

Definition store : Db :=
  {| users := [Host.alice; Host.bob];
     user_sessions :=
       [UserSession.make Host.s0 Host.u1 "refresh-secret.old" None None 604800000 0;
        UserSession.make Host.s9 Host.u2 "refresh-secret.bob" None None 604800000 0] |}.

(** [createClient] takes no URL or an empty one (the default server) or one
    with the redis or rediss scheme. *)
Definition redis_url_ok (url : option string) : Outcome unit :=
  match url with
  | None | Some EmptyString => Returns tt
  | Some u =>
      if String.prefix "redis://" u || String.prefix "rediss://" u
      then Returns tt else Raises "ERR_INVALID_URL"
  end.

Definition healthy : Infrastructure :=
  {| redis_createClient := redis_url_ok;
     redis_connect := Settled (Ok tt); redis_quit := Returns tt;
     pool_connect := Returns tt; pool_query := Returns tt; pool_end := Returns tt |}.

(** The Redis server refuses connections. *)
Definition redis_down : Infrastructure :=
  {| redis_createClient := redis_url_ok;
     redis_connect := Pending; redis_quit := Raises "ClientClosedError";
     pool_connect := Returns tt; pool_query := Returns tt; pool_end := Returns tt |}.

(** A transporter that accepts every mail except those to nobody. *)
Definition smtp : Nodemailer :=
  {| transporter_verify := Returns tt;
     transporter_sendMail := fun m =>
       if string_truthy (mail_to m) then Returns tt else Raises "EENVELOPE" |}.

Definition postgres_down : Infrastructure :=
  {| redis_createClient := redis_url_ok;
     redis_connect := Settled (Ok tt); redis_quit := Returns tt;
     pool_connect := Raises "ECONNREFUSED"; pool_query := Raises "ECONNREFUSED";
     pool_end := Raises "ECONNREFUSED" |}.
End Probe.

(** * Properties *)

(** ** Strings *)

Lemma substring_whole (s : string) : String.substring 0 (String.length s) s = s.
Proof. induction s as [|c s IH]; simpl; [reflexivity | now rewrite IH]. Qed.

Lemma append_cons (a : ascii) (p t : string) :
  String a p +:+ t = String a (p +:+ t).
Proof. reflexivity. Qed.

Lemma prefix_split (p s : string) :
  String.prefix p s = true ->
  s = p +:+ String.substring (String.length p) (String.length s - String.length p) s.
Proof.
  revert s. induction p as [|a p IH]; intros s Hp; simpl.
  - now rewrite Nat.sub_0_r, substring_whole.
  - destruct s as [|b s]; simpl in Hp; [discriminate|].
    destruct (ascii_dec a b) as [->|]; [|discriminate].
    rewrite append_cons. f_equal. now apply IH.
Qed.

Lemma prefix_append (p t : string) : String.prefix p (p +:+ t) = true.
Proof.
  induction p as [|a p IH]; [now destruct t|].
  rewrite append_cons. simpl.
  destruct (ascii_dec a a); [exact IH | congruence].
Qed.

Lemma string_truthy_false (s : string) : string_truthy s = false <-> s = "".
Proof. destruct s; simpl; split; congruence. Qed.

Lemma opt_truthy_false (o : option string) :
  opt_truthy o = false <-> o = None \/ o = Some "".
Proof.
  destruct o as [s|]; simpl.
  - rewrite string_truthy_false. split; [intros ->; now right | intros [|]; congruence].
  - split; [now left | reflexivity].
Qed.

(** ** utils/jwt.ts *)

Section JWTProperties.
Context {ES : EcmaScript} {JWT : JsonWebToken}.

Lemma call_not_Error {A} (lib : string) (o : Outcome A) (m : string) :
  call lib o <> Throw (Error m).
Proof. destruct o; simpl; congruence. Qed.

Lemma getRefreshTokenSecret_cases (w : Ambient) :
  (opt_truthy (env w !! "JWT_REFRESH_SECRET") = false /\
   JWTUtils.getRefreshTokenSecret w =
     Throw (Error "JWT_REFRESH_SECRET environment variable is required"))
  \/ (exists secret, env w !! "JWT_REFRESH_SECRET" = Some secret /\
        string_truthy secret = true /\
        JWTUtils.getRefreshTokenSecret w = Ok secret).
Proof.
  unfold JWTUtils.getRefreshTokenSecret.
  destruct (env w !! "JWT_REFRESH_SECRET") as [s|] eqn:E; simpl.
  - destruct (string_truthy s) eqn:T; simpl; [right; eauto | left; auto].
  - left; auto.
Qed.

Lemma getAccessTokenSecret_cases (w : Ambient) :
  (opt_truthy (env w !! "JWT_SECRET") = false /\
   JWTUtils.getAccessTokenSecret w =
     Throw (Error "JWT_SECRET environment variable is required"))
  \/ (exists secret, env w !! "JWT_SECRET" = Some secret /\
        string_truthy secret = true /\
        JWTUtils.getAccessTokenSecret w = Ok secret).
Proof.
  unfold JWTUtils.getAccessTokenSecret.
  destruct (env w !! "JWT_SECRET") as [s|] eqn:E; simpl.
  - destruct (string_truthy s) eqn:T; simpl; [right; eauto | left; auto].
  - left; auto.
Qed.

(** C8.  [extractTokenFromHeader] is a total function into [string | null]
    (it cannot throw).  It returns null exactly when the header is absent or
    does not start with ['Bearer '], and otherwise the header is
    ['Bearer '] followed by the token it returns. *)
Theorem extractTokenFromHeader_spec (authHeader : option string) :
  (JWTUtils.extractTokenFromHeader authHeader = None <->
     authHeader = None \/
     exists h, authHeader = Some h /\ String.prefix "Bearer " h = false)
  /\ (forall h, authHeader = Some h -> String.prefix "Bearer " h = true ->
        exists token, h = "Bearer " +:+ token /\
                      JWTUtils.extractTokenFromHeader authHeader = Some token).
Proof.
  split.
  - destruct authHeader as [h|]; simpl.
    + destruct (String.prefix "Bearer " h) eqn:P.
      * assert (string_truthy h = true) as ->.
        { destruct h; [discriminate P | reflexivity]. }
        simpl. split; [discriminate|].
        intros [|(h' & [= <-] & P')]; congruence.
      * rewrite orb_true_r. split; [right; eauto | reflexivity].
    + split; [now left | reflexivity].
  - intros h -> P. pose proof (prefix_split _ _ P) as Hs.
    eexists; split; [exact Hs|]. simpl. rewrite P.
    assert (string_truthy h = true) as ->.
    { destruct h; [discriminate P | reflexivity]. }
    reflexivity.
Qed.

(** What [getTokenExpiration] returns: null when decoding throws, when the
    decoded value is falsy, or when its [exp] is falsy; otherwise the date
    [exp * 1000]. *)
Lemma getTokenExpiration_cases (token : string) :
  JWTUtils.getTokenExpiration token =
    match jwt_decode token with
    | Raises _ => None
    | Returns decoded =>
        if decoded_truthy decoded && truthy (decoded_exp decoded)
        then Some (new_Date (times (ToNumber (decoded_exp decoded)) 1000))
        else None
    end.
Proof.
  unfold JWTUtils.getTokenExpiration.
  destruct (jwt_decode token) as [d|c]; simpl; [|reflexivity].
  now destruct (decoded_truthy d && truthy (decoded_exp d)).
Qed.

(** C7.  [isTokenExpired] is true exactly when the expiration is unknown
    ([getTokenExpiration] returns null) or lies in the past, that is, the
    expiry instant has been reached: its time value is at most the clock's
    (the code compares with [<=]); in every other case it is false. *)
Theorem isTokenExpired_iff (w : Ambient) (token : string) :
  (JWTUtils.isTokenExpired w token = true <->
     JWTUtils.getTokenExpiration token = None \/
     exists expiration t,
       JWTUtils.getTokenExpiration token = Some expiration /\
       time_value expiration = Some t /\ t <= now w)
  /\ (JWTUtils.isTokenExpired w token = false <->
     exists expiration,
       JWTUtils.getTokenExpiration token = Some expiration /\
       match time_value expiration with
       | Some t => now w < t
       | None => True
       end).
Proof.
  unfold JWTUtils.isTokenExpired.
  destruct (JWTUtils.getTokenExpiration token) as [[[t|]]|]; simpl.
  - split; split.
    + intros L%Z.leb_le. right. eexists _, t. eauto.
    + intros [|(e & t' & [= <-] & [= <-] & L)]; [discriminate|]. now apply Z.leb_le.
    + intros L%Z.leb_gt. eexists; split; [reflexivity|]. exact L.
    + intros (e & [= <-] & L). now apply Z.leb_gt.
  - split; split; try discriminate.
    + intros [|(e & t' & [= <-] & [=] & _)]; discriminate.
    + intros _. eexists; split; [reflexivity | exact I].
    + reflexivity.
  - split; split; try discriminate; auto.
    intros (e & [=] & _).
Qed.

(** C9.  Whatever goes wrong inside [verifyAccessToken] or
    [verifyRefreshToken] leaves as the one invalid-token error; in
    particular a missing signing secret is reported as
    ['Invalid access token'] / ['Invalid refresh token'], never as the
    missing-secret error. *)
Theorem verify_failure_is_invalid_token (w : Ambient) (token : string) :
  (forall e, JWTUtils.verifyAccessToken w token = Throw e ->
             e = Error "Invalid access token")
  /\ (forall e, JWTUtils.verifyRefreshToken w token = Throw e ->
             e = Error "Invalid refresh token")
  /\ (opt_truthy (env w !! "JWT_SECRET") = false ->
        JWTUtils.verifyAccessToken w token = Throw (Error "Invalid access token"))
  /\ (opt_truthy (env w !! "JWT_REFRESH_SECRET") = false ->
        JWTUtils.verifyRefreshToken w token = Throw (Error "Invalid refresh token")).
Proof.
  unfold JWTUtils.verifyAccessToken, JWTUtils.verifyRefreshToken.
  repeat split.
  - intros e. destruct (bind _ _); simpl; congruence.
  - intros e. destruct (bind _ _); simpl; congruence.
  - intros A. destruct (getAccessTokenSecret_cases w) as [[_ ->]|(s & E & T & _)].
    + reflexivity.
    + rewrite E in A. simpl in A. congruence.
  - intros A. destruct (getRefreshTokenSecret_cases w) as [[_ ->]|(s & E & T & _)].
    + reflexivity.
    + rewrite E in A. simpl in A. congruence.
Qed.

End JWTProperties.

Section TokenIssue.
Context {ES : EcmaScript} {JWT : JsonWebToken}.

(** C6, as the code has it.  [generateRefreshToken] throws the
    missing-secret error exactly when [JWT_REFRESH_SECRET] is unset or empty,
    and throws no other error of its own.  Otherwise it hands jsonwebtoken a
    payload whose only property is [tokenId], the UUID drawn for this call,
    and signs with the value of [JWT_REFRESH_SECRET]; access tokens are
    signed with the value of the separate variable [JWT_SECRET]. *)
Theorem generateRefreshToken_spec (w : Ambient) :
  (JWTUtils.generateRefreshToken w =
     Throw (Error "JWT_REFRESH_SECRET environment variable is required")
   <-> env w !! "JWT_REFRESH_SECRET" = None \/ env w !! "JWT_REFRESH_SECRET" = Some "")
  /\ (forall m, JWTUtils.generateRefreshToken w = Throw (Error m) ->
        m = "JWT_REFRESH_SECRET environment variable is required")
  /\ (forall secret,
        env w !! "JWT_REFRESH_SECRET" = Some secret -> string_truthy secret = true ->
        exists payload : gmap string JsVal,
          dom payload = {[ "tokenId" ]} /\
          payload !! "tokenId" = Some (JString (uuidv4 (random w))) /\
          JWTUtils.generateRefreshToken w =
            call "jsonwebtoken"
              (jwt_sign payload secret
                 (or_else (env w !! "JWT_REFRESH_EXPIRES_IN") "7d") (now w)))
  /\ (forall secret claims,
        env w !! "JWT_SECRET" = Some secret -> string_truthy secret = true ->
        JWTUtils.generateAccessToken w claims =
          call "jsonwebtoken"
            (jwt_sign (payload_object claims) secret
               (or_else (env w !! "JWT_EXPIRES_IN") "15m") (now w))).
Proof.
  unfold JWTUtils.generateRefreshToken, JWTUtils.generateAccessToken.
  repeat split.
  - destruct (getRefreshTokenSecret_cases w) as [[A ->]|(s & E & T & ->)]; simpl.
    + intros _. now apply opt_truthy_false.
    + intros B. now apply call_not_Error in B.
  - intros A%opt_truthy_false.
    destruct (getRefreshTokenSecret_cases w) as [[_ ->]|(s & E & T & _)]; simpl.
    + reflexivity.
    + rewrite E in A. simpl in A. congruence.
  - intros m.
    destruct (getRefreshTokenSecret_cases w) as [[A ->]|(s & E & T & ->)]; simpl.
    + congruence.
    + intros B. now apply call_not_Error in B.
  - intros secret E T.
    exists {[ "tokenId" := JString (uuidv4 (random w)) ]}.
    split; [apply dom_singleton_L|]. split; [apply lookup_singleton_eq|].
    unfold JWTUtils.getRefreshTokenSecret. rewrite E. simpl. now rewrite T.
  - intros secret claims E T.
    unfold JWTUtils.getAccessTokenSecret. rewrite E. simpl. now rewrite T.
Qed.

End TokenIssue.

(** C6, a configuration on which the claim as stated fails: with both
    variables set to the same value the refresh token is signed with the
    very secret that signs access tokens. *)
Lemma refresh_secret_may_equal_access_secret :
  let w := Host.world (<["JWT_SECRET" := "k"]> (<["JWT_REFRESH_SECRET" := "k"]> ∅))
             0 Host.utc [] Host.s1 in
  JWTUtils.getAccessTokenSecret w = Ok "k"
  /\ JWTUtils.getRefreshTokenSecret w = Ok "k"
  /\ JWTUtils.generateRefreshToken (JWT := Host.jwt) w
     = call "jsonwebtoken"
         (jwt_sign (JsonWebToken := Host.jwt)
            {[ "tokenId" := JString (uuidv4 []) ]} "k" "7d" 0)
  /\ JWTUtils.generateAccessToken (JWT := Host.jwt) w
       (IdentityService.claims Host.alice)
     = call "jsonwebtoken"
         (jwt_sign (JsonWebToken := Host.jwt)
            (payload_object (IdentityService.claims Host.alice)) "k" "15m" 0).
Proof. repeat split. Qed.

(** C6: the theorem at a concrete world. *)
Lemma generateRefreshToken_spec_witness :
  JWTUtils.generateRefreshToken (JWT := Host.jwt)
    (Host.world Host.secrets 0 Host.utc [] Host.s1)
  = Ok "refresh-secret.00000000-0000-4000-8000-000000000000"
  /\ JWTUtils.generateRefreshToken (JWT := Host.jwt)
       (Host.world ∅ 0 Host.utc [] Host.s1)
     = Throw (Error "JWT_REFRESH_SECRET environment variable is required").
Proof.
  split.
  - destruct (generateRefreshToken_spec (JWT := Host.jwt)
                (Host.world Host.secrets 0 Host.utc [] Host.s1))
      as (_ & _ & P & _).
    destruct (P "refresh-secret" eq_refl eq_refl) as (payload & _ & L & ->).
    simpl. unfold Host.subject. rewrite L. reflexivity.
  - apply (generateRefreshToken_spec (JWT := Host.jwt)
             (Host.world ∅ 0 Host.utc [] Host.s1)).
    left. reflexivity.
Defined.

(** ** The environment module *)

Lemma missing_spec (e : gmap string string) (v : string) :
  In v (missing e) <-> In v requiredEnvVars /\ opt_truthy (e !! v) = false.
Proof.
  unfold missing. rewrite filter_In, negb_true_iff. reflexivity.
Qed.

Section EnvProperties.
Context {ES : EcmaScript}.

(** C5, as the code has it.  [validateEnv] throws exactly when one of
    [DATABASE_URL], [REDIS_URL], [JWT_SECRET], [JWT_REFRESH_SECRET],
    [FRONTEND_URL] is unset or empty, naming the missing ones, and returns a
    configuration in every other case; the expiry durations, the hashing
    cost, the port and the rate limits fall back to defaults and the SMTP
    settings are optional. *)
Theorem validateEnv_spec (e : gmap string string) :
  ((exists err, validateEnv e = Throw err) <->
     exists v, In v requiredEnvVars /\ (e !! v = None \/ e !! v = Some ""))
  /\ (forall err, validateEnv e = Throw err ->
        err = Error ("Missing required environment variables: "
                     +:+ String.concat ", " (missing e)))
  /\ ((forall v, In v requiredEnvVars -> opt_truthy (e !! v) = true) ->
        exists config,
          validateEnv e = Ok config
          /\ JWT_EXPIRES_IN config = or_else (e !! "JWT_EXPIRES_IN") "15m"
          /\ JWT_REFRESH_EXPIRES_IN config = or_else (e !! "JWT_REFRESH_EXPIRES_IN") "7d"
          /\ BCRYPT_ROUNDS config = parseInt (or_else (e !! "BCRYPT_ROUNDS") "12")
          /\ RATE_LIMIT_WINDOW_MS config
               = parseInt (or_else (e !! "RATE_LIMIT_WINDOW_MS") "900000")
          /\ RATE_LIMIT_MAX_REQUESTS config
               = parseInt (or_else (e !! "RATE_LIMIT_MAX_REQUESTS") "100")
          /\ SMTP_HOST config = e !! "SMTP_HOST"
          /\ SMTP_USER config = e !! "SMTP_USER"
          /\ SMTP_PASS config = e !! "SMTP_PASS").
Proof.
  unfold validateEnv.
  destruct (missing e) as [|v l] eqn:M; simpl.
  - repeat split.
    + intros [err E]. discriminate E.
    + intros (v & I & A%opt_truthy_false).
      assert (In v (missing e)) as B by now apply missing_spec.
      rewrite M in B. destruct B.
    + intros err E. discriminate E.
    + intros _. eexists. repeat split.
  - assert (In v (missing e)) as B by (rewrite M; now left).
    apply missing_spec in B as [I A].
    repeat split.
    + intros _. exists v. split; [exact I | now apply opt_truthy_false].
    + intros _. eauto.
    + intros err [= <-]. reflexivity.
    + intros P. rewrite (P v I) in A. discriminate A.
Qed.

End EnvProperties.

(** C5, an environment on which the claim as stated fails: the five
    required variables are set, the expiry durations, the SMTP settings, the
    hashing cost and the rate limits (all in the specification's list) are
    missing, and [validateEnv] succeeds with the defaults. *)
Lemma validateEnv_accepts_missing_optional :
  let e : gmap string string :=
    <["DATABASE_URL" := "postgres://db"]>
    (<["REDIS_URL" := "redis://cache"]>
    (<["JWT_SECRET" := "a"]>
    (<["JWT_REFRESH_SECRET" := "r"]>
    (<["FRONTEND_URL" := "http://localhost"]> ∅)))) in
  In "JWT_EXPIRES_IN" specRequiredConfig
  /\ e !! "JWT_EXPIRES_IN" = None
  /\ In "SMTP_HOST" specRequiredConfig
  /\ e !! "SMTP_HOST" = None
  /\ In "BCRYPT_ROUNDS" specRequiredConfig
  /\ e !! "BCRYPT_ROUNDS" = None
  /\ exists config,
       validateEnv (ES := Host.ecma) e = Ok config
       /\ JWT_EXPIRES_IN config = "15m"
       /\ SMTP_HOST config = None
       /\ BCRYPT_ROUNDS config = Num 12.
Proof.
  cbv zeta. repeat split; try (vm_compute; tauto).
  eexists. repeat split.
Qed.

(** C5: the theorem on an environment that sets the five required variables
    and on the empty environment. *)
Lemma validateEnv_spec_witness :
  (exists config,
     validateEnv (ES := Host.ecma)
       (<["DATABASE_URL" := "postgres://db"]>
       (<["REDIS_URL" := "redis://cache"]>
       (<["JWT_SECRET" := "a"]>
       (<["JWT_REFRESH_SECRET" := "r"]>
       (<["FRONTEND_URL" := "http://localhost"]> ∅))))) = Ok config)
  /\ exists err, validateEnv (ES := Host.ecma) ∅ = Throw err.
Proof.
  split.
  - destruct (validateEnv_spec (ES := Host.ecma)
                (<["DATABASE_URL" := "postgres://db"]>
                (<["REDIS_URL" := "redis://cache"]>
                (<["JWT_SECRET" := "a"]>
                (<["JWT_REFRESH_SECRET" := "r"]>
                (<["FRONTEND_URL" := "http://localhost"]> ∅))))))
      as (_ & _ & P).
    destruct P as (config & E & _).
    + intros v I. simpl in I.
      repeat (destruct I as [<-|I]; [reflexivity|]). destruct I.
    + eauto.
  - apply (validateEnv_spec (ES := Host.ecma) ∅).
    exists "DATABASE_URL". split; [now left | now left].
Defined.

(** ** The user model *)

Lemma holds_verification_token_spec (token : string) (u : User.t) :
  holds_verification_token token u = true <-> User.verification_token u = Some token.
Proof. unfold holds_verification_token. apply bool_decide_eq_true. Qed.

Lemma affected_spec (n : nat) : affected n = true <-> (0 < n)%nat.
Proof. unfold affected. apply Nat.ltb_lt. Qed.

Lemma filter_nonempty {A} (f : A -> bool) (l : list A) :
  (0 < List.length (List.filter f l))%nat <-> exists x, In x l /\ f x = true.
Proof.
  split.
  - destruct (List.filter f l) as [|x r] eqn:E; simpl; [lia|].
    intros _. exists x. apply filter_In. rewrite E. now left.
  - intros (x & I & T).
    assert (In x (List.filter f l)) as J by now apply filter_In.
    destruct (List.filter f l); [destruct J | simpl; lia].
Qed.

Lemma filter_none {A} (f : A -> bool) (l : list A) :
  (forall x, In x l -> f x = false) -> List.filter f l = [].
Proof.
  induction l as [|a l IH]; simpl; intros P; [reflexivity|].
  rewrite (P a) by now left. apply IH. intros x I. apply P. now right.
Qed.

(** Row by row, what the conditional update does. *)
Lemma update_users_lookup (cond : User.t -> bool) (set : User.t -> User.t)
    (l : list User.t) (i : nat) :
  snd (update_users cond set l) !! i =
    (fun u => if cond u then set u else u) <$> (l !! i).
Proof.
  unfold update_users. simpl. revert i.
  induction l as [|a l IH]; intros [|i]; simpl; auto.
Qed.

Lemma update_users_length (cond : User.t -> bool) (set : User.t -> User.t)
    (l : list User.t) :
  List.length (snd (update_users cond set l)) = List.length l.
Proof. unfold update_users. simpl. apply length_map. Qed.

Lemma In_update_users (cond : User.t -> bool) (set : User.t -> User.t)
    (l : list User.t) (v : User.t) :
  In v (snd (update_users cond set l)) ->
  exists u, In u l /\ v = if cond u then set u else u.
Proof.
  unfold update_users. simpl. rewrite in_map_iff.
  intros (u & E & I). eauto.
Qed.


(** ** uuid: formatting is injective on bytes *)

Lemma range_check (P : Z -> bool) (n : nat) :
  forallb P (map Z.of_nat (seq 0 n)) = true ->
  forall x, 0 <= x < Z.of_nat n -> P x = true.
Proof.
  intros F x R. rewrite forallb_forall in F. apply F.
  apply in_map_iff. exists (Z.to_nat x). split; [lia|].
  apply in_seq. lia.
Qed.

Lemma unhex_hexdigit (n : Z) : 0 <= n < 16 -> unhex (hexdigit n) = n.
Proof.
  intros R.
  apply Z.eqb_eq.
  apply (range_check (fun n => unhex (hexdigit n) =? n) 16); [reflexivity | lia].
Qed.

Lemma byte_of_byteToHex (b : Z) :
  is_byte b ->
  16 * unhex (hexdigit (Z.land (Z.shiftr b 4) 15)) + unhex (hexdigit (Z.land b 15)) = b.
Proof.
  intros R. unfold is_byte in R.
  change 15 with (Z.ones 4).
  rewrite !Z.land_ones, Z.shiftr_div_pow2 by lia.
  change (2 ^ 4) with 16.
  rewrite !unhex_hexdigit.
  - rewrite (Z.mod_small (b / 16)) by (split; [apply Z.div_pos; lia | apply Z.div_lt_upper_bound; lia]).
    symmetry. apply Z.div_mod. lia.
  - apply Z.mod_pos_bound. lia.
  - apply Z.mod_pos_bound. lia.
Qed.

Lemma uuid_parse_stringify (bs : list Z) :
  List.length bs = 16%nat -> Forall is_byte bs -> uuid_parse (stringify bs) = bs.
Proof.
  intros L F.
  do 16 (destruct bs as [|? bs]; [discriminate L|]).
  destruct bs; [|discriminate L].
  repeat match goal with
         | F : Forall _ (_ :: _) |- _ => apply Forall_cons_iff in F as [? F]
         end.
  cbv [uuid_parse stringify hex_at byteToHex nth map byte_of char_at String.get
       String.append Nat.eqb].
  rewrite !byte_of_byteToHex by assumption.
  reflexivity.
Qed.

Lemma is_byte_land (x : Z) : is_byte (Z.land x 255).
Proof.
  unfold is_byte. change 255 with (Z.ones 8). rewrite Z.land_ones by lia.
  apply Z.mod_pos_bound. reflexivity.
Qed.

Lemma is_byte_version (x : Z) : is_byte (Z.lor (Z.land x 15) 64).
Proof.
  assert (0 <= Z.land x 15 < 16) as R.
  { change 15 with (Z.ones 4). rewrite Z.land_ones by lia.
    apply Z.mod_pos_bound. reflexivity. }
  pose proof (range_check (fun a => (0 <=? Z.lor a 64) && (Z.lor a 64 <? 256)) 16
                eq_refl _ R) as C.
  apply andb_true_iff in C as [A B]. unfold is_byte. lia.
Qed.

Lemma is_byte_variant (x : Z) : is_byte (Z.lor (Z.land x 63) 128).
Proof.
  assert (0 <= Z.land x 63 < 64) as R.
  { change 63 with (Z.ones 6). rewrite Z.land_ones by lia.
    apply Z.mod_pos_bound. reflexivity. }
  pose proof (range_check (fun a => (0 <=? Z.lor a 128) && (Z.lor a 128 <? 256)) 64
                eq_refl _ R) as C.
  apply andb_true_iff in C as [A B]. unfold is_byte. lia.
Qed.

Lemma v4_bytes_bytes (rnds : list Z) :
  List.length (v4_bytes rnds) = 16%nat /\ Forall is_byte (v4_bytes rnds).
Proof.
  split; [reflexivity|].
  unfold v4_bytes. cbn [seq map Nat.eqb].
  repeat constructor;
    first [apply is_byte_land | apply is_byte_version | apply is_byte_variant].
Qed.

Lemma uuid_parse_uuidv4 (rnds : list Z) : uuid_parse (uuidv4 rnds) = v4_bytes rnds.
Proof. apply uuid_parse_stringify; apply v4_bytes_bytes. Qed.

Lemma uuidv4_length (rnds : list Z) : String.length (uuidv4 rnds) = 36%nat.
Proof. reflexivity. Qed.

Lemma uuidv4_distinct (r1 r2 : list Z) :
  v4_bytes r1 <> v4_bytes r2 -> uuidv4 r1 <> uuidv4 r2.
Proof.
  intros D E. apply D. rewrite <- !uuid_parse_uuidv4. now rewrite E.
Qed.

(** ** Registration: [UserModel.create] *)

Section Create.
Context {ES : EcmaScript} {PG : Postgres} {BC : Bcrypt}.

Lemma insert_user_inv (w : Ambient)
    (email username password_hash display_name verification_token : string)
    (is_verified : bool) (db : Db) (row : User.t) (db' : Db) :
  UserModel.insert_user w email username password_hash display_name
    verification_token is_verified db = Ok (row, db') ->
  exists e u h d t,
    varchar 255 email = Returns e /\ varchar 50 username = Returns u /\
    varchar 255 password_hash = Returns h /\ varchar 100 display_name = Returns d /\
    varchar 255 verification_token = Returns t /\
    unique_violation (fresh_id w) e u (users db) = false /\
    row = User.make (fresh_id w) e u h (Some d) None None offline
            is_verified (Some t) None None (timestamp_of_now w) (timestamp_of_now w) None /\
    db' = with_users db (users db ++ [row]).
Proof.
  unfold UserModel.insert_user.
  destruct (varchar 255 email) as [e|]; [|discriminate].
  destruct (varchar 50 username) as [u|]; [|discriminate].
  destruct (varchar 255 password_hash) as [h|]; [|discriminate].
  destruct (varchar 100 display_name) as [d|]; [|discriminate].
  destruct (varchar 255 verification_token) as [t|]; [|discriminate].
  simpl. destruct (unique_violation _ _ _ _) eqn:U; [discriminate|].
  intros [= <- <-]. exists e, u, h, d, t. repeat split. exact U.
Qed.

Lemma create_inv (w : Ambient) (userData : CreateUserData.t) (db : Db)
    (obj : gmap string JsVal) (db' : Db) :
  UserModel.create w userData db = Ok (obj, db') ->
  exists e u h d,
    let row := User.make (fresh_id w) e u h (Some d) None None offline
                 false (Some (uuidv4 (random w))) None None (timestamp_of_now w) (timestamp_of_now w) None in
    obj = returning (zone w) ["id"; "email"; "username"; "display_name"; "status";
                     "is_verified"; "created_at"; "updated_at"] row
    /\ db' = with_users db (users db ++ [row])
    /\ unique_violation (fresh_id w) e u (users db) = false.
Proof.
  unfold UserModel.create.
  destruct (bcrypt_hash _ _ _) as [hashed|]; [|discriminate]. simpl.
  destruct (UserModel.insert_user _ _ _ _ _ _ _ _) as [[row db1]|] eqn:I; [|discriminate].
  simpl. intros [= <- <-].
  apply insert_user_inv in I as (e & u & h & d & t & _ & _ & _ & _ & T & U & -> & ->).
  assert (t = uuidv4 (random w)) as -> by (revert T; now intros [= <-]).
  exists e, u, h, d. cbv zeta. repeat split. exact U.
Qed.

(** C10.  The object a successful [create] returns holds exactly the eight
    columns of the RETURNING list; the password digest, the verification
    token and the reset-token fields are not properties of it. *)
Theorem create_returns_projection (w : Ambient) (userData : CreateUserData.t)
    (db : Db) (obj : gmap string JsVal) (db' : Db) :
  UserModel.create w userData db = Ok (obj, db') ->
  dom obj = {[ "id"; "email"; "username"; "display_name"; "status";
               "is_verified"; "created_at"; "updated_at" ]}
  /\ obj !! "password_hash" = None
  /\ obj !! "verification_token" = None
  /\ obj !! "reset_token" = None
  /\ obj !! "reset_token_expires" = None.
Proof.
  intros (e & u & h & d & -> & _)%create_inv.
  repeat split; vm_compute; reflexivity.
Qed.

(** C3, as the code has it.  After a successful [create] the returned object
    has [is_verified = false] and no verification token; the token lives in
    the one row the call appended: that row is unverified and holds the UUID
    drawn for the call, a string of 36 characters, which differs from the
    token of any registration whose random draw differs in a bit v4 keeps. *)
Theorem create_unverified_token_stored (w : Ambient) (userData : CreateUserData.t)
    (db : Db) (obj : gmap string JsVal) (db' : Db) :
  UserModel.create w userData db = Ok (obj, db') ->
  obj !! "is_verified" = Some (JBool false)
  /\ obj !! "verification_token" = None
  /\ (exists row,
        users db' = users db ++ [row]
        /\ obj !! "id" = Some (JString (User.id row))
        /\ User.is_verified row = false
        /\ User.verification_token row = Some (uuidv4 (random w)))
  /\ String.length (uuidv4 (random w)) = 36%nat
  /\ (forall w0 : Ambient,
        v4_bytes (random w0) <> v4_bytes (random w) ->
        uuidv4 (random w0) <> uuidv4 (random w)).
Proof.
  intros (e & u & h & d & -> & -> & _)%create_inv.
  split; [vm_compute; reflexivity|].
  split; [vm_compute; reflexivity|].
  split.
  - eexists. split; [reflexivity|]. split; [vm_compute; reflexivity|]. split; reflexivity.
  - split; [reflexivity|]. intros w0. apply uuidv4_distinct.
Qed.

End Create.

(** ** Sessions *)

Lemma setDate_getDate_plus_local (tz : TimeZone) (t n : Z) :
  setDate_getDate_plus tz t n = UTC tz (LocalTime tz t + n * msPerDay).
Proof.
  unfold setDate_getDate_plus, MakeDate, Day, TimeWithinDay. f_equal.
  pose proof (Z.div_mod (LocalTime tz t) msPerDay) as D.
  unfold msPerDay in *. lia.
Qed.

Lemma head_filter_Some {A} (f : A -> bool) (l : list A) (x : A) :
  head (List.filter f l) = Some x -> In x l /\ f x = true.
Proof.
  destruct (List.filter f l) as [|y r] eqn:E; simpl; [discriminate|].
  intros [= ->]. apply filter_In. rewrite E. now left.
Qed.

Lemma head_filter_is_Some {A} (f : A -> bool) (l : list A) :
  (exists x, head (List.filter f l) = Some x) <-> exists x, In x l /\ f x = true.
Proof.
  split.
  - intros [x E]. exists x. now apply head_filter_Some.
  - intros (x & I & T).
    assert (In x (List.filter f l)) as J by now apply filter_In.
    destruct (List.filter f l) as [|y r]; [destruct J | now exists y].
Qed.

Section Sessions.
Context {ES : EcmaScript} {JWT : JsonWebToken} {PG : Postgres} {BC : Bcrypt}.

Lemma createSession_inv (w : Ambient) (userId refreshToken : string)
    (deviceInfo ipAddress : option string) (db : Db)
    (s : UserSession.t) (db' : Db) :
  UserModel.createSession w userId refreshToken deviceInfo ipAddress db = Ok (s, db') ->
  exists i ip,
    uuid_in userId = Returns i /\
    s = UserSession.make (fresh_id w) i refreshToken deviceInfo ip
          (timestamp_of_Date w (setDate_getDate_plus (zone w) (now w) 7))
          (timestamp_of_now w) /\
    db' = with_sessions db (user_sessions db ++ [s]).
Proof.
  unfold UserModel.createSession.
  destruct (uuid_in userId) as [i|]; [|discriminate]. simpl.
  destruct (match or_null ipAddress with
            | Some a => _
            | None => _
            end) as [ip|]; [|discriminate]. simpl.
  destruct (existsb _ (user_sessions db)); [discriminate|].
  destruct (existsb _ (users db)); [|discriminate]. simpl.
  intros [= <- <-]. exists i, ip. repeat split.
Qed.

Lemma timestamp_after_now_spec (w : Ambient) (reading : Z) :
  timestamp_after_now w reading = true <-> sql_now w < UTC (session_zone w) reading.
Proof. unfold timestamp_after_now. apply Z.ltb_lt. Qed.

Lemma session_holds (w : Ambient) (r : string) (s : UserSession.t) :
  bool_decide (UserSession.refresh_token s = r)
  && timestamp_after_now w (UserSession.expires_at s) = true <->
  UserSession.refresh_token s = r
  /\ sql_now w < UTC (session_zone w) (UserSession.expires_at s).
Proof.
  now rewrite andb_true_iff, bool_decide_eq_true, timestamp_after_now_spec.
Qed.


Lemma findSession_is_Some (w : Ambient) (r : string) (db : Db) :
  (exists s, UserModel.findSessionByRefreshToken w r db = Some s) <->
  exists s, In s (user_sessions db) /\ UserSession.refresh_token s = r
            /\ sql_now w < UTC (session_zone w) (UserSession.expires_at s).
Proof.
  unfold UserModel.findSessionByRefreshToken. rewrite head_filter_is_Some.
  split; intros (s & I & T); exists s; (split; [exact I|]); now apply session_holds.
Qed.

End Sessions.


(** Process and database session in different zones.  The same call on a
    process in US Eastern time whose database session runs in UTC: the
    reading 12 March 12:00 is taken by the server as 12:00 UTC, so the
    session is gone four hours before the expiry the caller reads.  With the
    process in UTC and the session in US Eastern time the reading 12 March
    17:00 is taken as 17:00 EDT, and the session is still found four hours
    after the expiry the caller reads. *)
Example createSession_across_zones :
  let db := {| users := [Host.alice]; user_sessions := [] |} in
  let west t := Host.deployed Host.secrets t Host.eastern_2026 Host.utc [] Host.s1 in
  let east t :=
    Host.deployed Host.secrets t Host.utc Host.eastern_2026_session [] Host.s1 in
  let created := 1772730000000 in
  exists s db' s2 db2,
    UserModel.createSession (PG := Host.postgres) (west created)
      Host.u1 "refresh-secret.r1" None None db = Ok (s, db')
    /\ Date_of_timestamp (west created) (UserSession.expires_at s)
       = created + 7 * msPerDay - 3600000
    /\ UserModel.findSessionByRefreshToken
         (west (created + 7 * msPerDay - 5 * 3600000)) "refresh-secret.r1" db' = None
    /\ UserModel.createSession (PG := Host.postgres) (east created)
         Host.u1 "refresh-secret.r1" None None db = Ok (s2, db2)
    /\ Date_of_timestamp (east created) (UserSession.expires_at s2)
       = created + 7 * msPerDay
    /\ UserModel.findSessionByRefreshToken
         (east (created + 7 * msPerDay + 4 * 3600000 - 1)) "refresh-secret.r1" db2
       = Some s2.
Proof.
  cbv zeta. eexists _, _, _, _.
  split; [vm_compute; reflexivity|]. split; [reflexivity|]. split; [reflexivity|].
  split; [vm_compute; reflexivity|]. split; reflexivity.
Qed.

(** ** Refresh-token rotation *)

Section Refresh.
Context {ES : EcmaScript} {JWT : JsonWebToken} {PG : Postgres} {BC : Bcrypt}.

Lemma refresh_no_session (w : Ambient) (r : string) (db : Db) :
  no_session r db ->
  IdentityService.refresh w r db = (Throw IdentityService.InvalidTokenError, db).
Proof.
  intros N. unfold IdentityService.refresh.
  destruct (JWTUtils.verifyRefreshToken w r); [|reflexivity].
  unfold UserModel.findSessionByRefreshToken.
  rewrite filter_none; [reflexivity|].
  intros s I. apply andb_false_iff. left. apply bool_decide_eq_false. now apply N.
Qed.

Lemma deleteSession_sessions (r : string) (db : Db) :
  user_sessions (snd (UserModel.deleteSession r db)) =
    List.filter (fun s => negb (bool_decide (UserSession.refresh_token s = r)))
      (user_sessions db)
  /\ users (snd (UserModel.deleteSession r db)) = users db.
Proof. split; reflexivity. Qed.

Lemma deleteSession_no_session (r : string) (db : Db) :
  no_session r (snd (UserModel.deleteSession r db)).
Proof.
  intros s. rewrite (proj1 (deleteSession_sessions r db)), filter_In.
  intros [_ N]. apply negb_true_iff, bool_decide_eq_false in N. exact N.
Qed.

(** What a successful [refresh] leaves in the store: the sessions that did
    not hold the old token, followed by one new session holding the new
    refresh token. *)
Lemma refresh_success_inv (w : Ambient) (r : string) (db : Db)
    (tokens : TokenPair) (db' : Db) :
  IdentityService.refresh w r db = (Ok tokens, db') ->
  exists old new,
    UserModel.findSessionByRefreshToken w r db = Some old
    /\ UserSession.refresh_token new = refreshToken tokens
    /\ user_sessions db' =
         List.filter (fun s => negb (bool_decide (UserSession.refresh_token s = r)))
           (user_sessions db) ++ [new]
    /\ users db' = users db.
Proof.
  unfold IdentityService.refresh.
  destruct (JWTUtils.verifyRefreshToken w r); [|discriminate].
  destruct (UserModel.findSessionByRefreshToken w r db) as [old|]; [|discriminate].
  destruct (UserModel.findById (UserSession.user_id old) db) as [[user|]|] eqn:F;
    [|discriminate..].
  destruct (JWTUtils.generateTokenPair w (IdentityService.claims user)) as [t|];
    [|discriminate].
  destruct (UserModel.createSession _ _ _ _ _ _) as [[new db2]|] eqn:C; [|discriminate].
  simpl. intros [= <- <-].
  apply createSession_inv in C as (i & ip & U & -> & ->).
  eexists old, _. split; [reflexivity|]. split; [|split; reflexivity].
  reflexivity.
Qed.

End Refresh.

(** ** Registration on a concrete store *)

(** C3, a registration on which the claim as stated fails: the call
    succeeds and the object it returns has no [verification_token] property
    at all (the RETURNING list leaves the column out). *)
Lemma create_result_has_no_token :
  exists obj db',
    UserModel.create (ES := Host.ecma) (BC := Host.bcrypt)
      (Host.world Host.secrets 5000 Host.utc
         [1; 2; 3; 4; 5; 6; 7; 8; 9; 10; 11; 12; 13; 14; 15; 16] Host.u3)
      (CreateUserData.make "c@x.com" "carol" "Secret123!" None)
      {| users := [Host.alice; Host.bob]; user_sessions := [] |} = Ok (obj, db')
    /\ obj !! "verification_token" = None
    /\ obj !! "is_verified" = Some (JBool false)
    /\ obj !! "username" = Some (JString "carol").
Proof. eexists _, _. split; [vm_compute; reflexivity|]. repeat split. Qed.

(** C3: the theorem on that registration; the token is in the new row. *)
Lemma create_unverified_token_stored_witness :
  exists obj db' row,
    UserModel.create (ES := Host.ecma) (BC := Host.bcrypt)
      (Host.world Host.secrets 5000 Host.utc
         [1; 2; 3; 4; 5; 6; 7; 8; 9; 10; 11; 12; 13; 14; 15; 16] Host.u3)
      (CreateUserData.make "c@x.com" "carol" "Secret123!" None)
      {| users := [Host.alice; Host.bob]; user_sessions := [] |} = Ok (obj, db')
    /\ obj !! "is_verified" = Some (JBool false)
    /\ users db' = [Host.alice; Host.bob; row]
    /\ User.verification_token row = Some "01020304-0506-4708-890a-0b0c0d0e0f10".
Proof.
  eexists _, _, _. split; [vm_compute; reflexivity|].
  split; [|split; reflexivity].
  exact (proj1 (create_unverified_token_stored (ES := Host.ecma) (BC := Host.bcrypt)
                  (Host.world Host.secrets 5000 Host.utc
                     [1; 2; 3; 4; 5; 6; 7; 8; 9; 10; 11; 12; 13; 14; 15; 16] Host.u3)
                  (CreateUserData.make "c@x.com" "carol" "Secret123!" None)
                  {| users := [Host.alice; Host.bob]; user_sessions := [] |}
                  _ _ eq_refl)).
Defined.

(** C10: the theorem on that registration. *)
Lemma create_returns_projection_witness :
  exists obj db',
    UserModel.create (ES := Host.ecma) (BC := Host.bcrypt)
      (Host.world Host.secrets 5000 Host.utc
         [1; 2; 3; 4; 5; 6; 7; 8; 9; 10; 11; 12; 13; 14; 15; 16] Host.u3)
      (CreateUserData.make "c@x.com" "carol" "Secret123!" None)
      {| users := [Host.alice; Host.bob]; user_sessions := [] |} = Ok (obj, db')
    /\ dom obj = {[ "id"; "email"; "username"; "display_name"; "status";
                    "is_verified"; "created_at"; "updated_at" ]}
    /\ obj !! "password_hash" = None.
Proof.
  eexists _, _. split; [vm_compute; reflexivity|].
  pose proof (create_returns_projection (ES := Host.ecma) (BC := Host.bcrypt)
                (Host.world Host.secrets 5000 Host.utc
                   [1; 2; 3; 4; 5; 6; 7; 8; 9; 10; 11; 12; 13; 14; 15; 16] Host.u3)
                (CreateUserData.make "c@x.com" "carol" "Secret123!" None)
                {| users := [Host.alice; Host.bob]; user_sessions := [] |}
                _ _ eq_refl) as (D & P & _).
  split; [exact D | exact P].
Defined.

(** ** Histories: where tokens can come from *)

Section HistoryProperties.
Context {ES : EcmaScript} {JWT : JsonWebToken} {PG : Postgres} {BC : Bcrypt}.

Lemma update_users_token (cond : User.t -> bool) (set : User.t -> User.t)
    (l : list User.t) (v : User.t) (token : string) :
  (forall u, User.verification_token (set u) = User.verification_token u
             \/ User.verification_token (set u) = None) ->
  In v (snd (update_users cond set l)) ->
  User.verification_token v = Some token ->
  exists u, In u l /\ User.verification_token u = Some token.
Proof.
  intros P (u & I & ->)%In_update_users T. exists u. split; [exact I|].
  destruct (cond u); [|exact T].
  destruct (P u) as [E|E]; rewrite E in T; [exact T | discriminate T].
Qed.

Lemma generateTokenPair_refreshToken (w : Ambient) (p : JWTPayload) (tokens : TokenPair) :
  JWTUtils.generateTokenPair w p = Ok tokens ->
  JWTUtils.generateRefreshToken w = Ok (refreshToken tokens).
Proof.
  unfold JWTUtils.generateTokenPair.
  destruct (JWTUtils.generateAccessToken w p); [|discriminate]. simpl.
  destruct (JWTUtils.generateRefreshToken w); [|discriminate]. simpl.
  now intros [= <-].
Qed.

(** [refresh] never touches [users]; a session it leaves was there before or
    holds the refresh token it generated. *)
Lemma refresh_store (w : Ambient) (r : string) (db : Db) :
  users (snd (IdentityService.refresh w r db)) = users db
  /\ forall s, In s (user_sessions (snd (IdentityService.refresh w r db))) ->
       In s (user_sessions db)
       \/ JWTUtils.generateRefreshToken w = Ok (UserSession.refresh_token s).
Proof.
  unfold IdentityService.refresh.
  destruct (JWTUtils.verifyRefreshToken w r); [|now auto].
  destruct (UserModel.findSessionByRefreshToken w r db) as [old|]; [|now auto].
  destruct (UserModel.findById (UserSession.user_id old) db) as [[user|]|]; [|now auto..].
  destruct (JWTUtils.generateTokenPair w (IdentityService.claims user)) as [t|] eqn:G;
    [|now auto].
  apply generateTokenPair_refreshToken in G.
  destruct (UserModel.createSession _ _ _ _ _ _) as [[new db2]|] eqn:C.
  - apply createSession_inv in C as (i & ip & _ & -> & ->). simpl. split; [reflexivity|].
    intros s [[I _]%filter_In|[<-|[]]]%in_app_iff; [now left | now right].
  - simpl. split; [reflexivity|]. intros s [I _]%filter_In. now left.
Qed.

Lemma perform_users (w : Ambient) (op : Operation) (db : Db) (v : User.t) (token : string) :
  In v (users (perform w op db)) ->
  User.verification_token v = Some token ->
  (exists u, In u (users db) /\ User.verification_token u = Some token)
  \/ issued_verification_token w op = Some token.
Proof.
  destruct op as [ud|tk|uid pw|em tk ex|uid|uid|uid tk dev ip|tk|uid|tk]; simpl.
  - destruct (UserModel.create w ud db) as [[obj db']|] eqn:C; simpl; [|now eauto].
    apply create_inv in C as (e & u & h & d & _ & -> & _). simpl.
    intros [I|[<-|[]]]%in_app_iff T; [now eauto|]. right. exact T.
  - intros I T. left. revert I T. apply update_users_token. now right.
  - unfold UserModel.updatePassword.
    destruct (bcrypt_hash _ _ _); simpl; [|now eauto].
    destruct (varchar 255 _); simpl; [|now eauto].
    destruct (uuid_in uid); simpl; [|now eauto].
    intros I T. left. revert I T. apply update_users_token. now left.
  - unfold UserModel.setResetToken.
    destruct (varchar 255 _); simpl; [|now eauto].
    intros I T. left. revert I T. apply update_users_token. now left.
  - unfold UserModel.clearResetToken.
    destruct (uuid_in uid); simpl; [|now eauto].
    intros I T. left. revert I T. apply update_users_token. now left.
  - unfold UserModel.updateLastLogin.
    destruct (uuid_in uid); simpl; [|now eauto].
    intros I T. left. revert I T. apply update_users_token. now left.
  - destruct (UserModel.createSession _ _ _ _ _ _) as [[s db']|] eqn:C; simpl; [|now eauto].
    apply createSession_inv in C as (i & ip' & _ & _ & ->). simpl. now eauto.
  - now eauto.
  - unfold UserModel.deleteAllUserSessions.
    destruct (uuid_in uid); simpl; now eauto.
  - rewrite (proj1 (refresh_store w tk db)). now eauto.
Qed.

Lemma perform_sessions (w : Ambient) (op : Operation) (db : Db) (s : UserSession.t) :
  In s (user_sessions (perform w op db)) ->
  In s (user_sessions db)
  \/ stored_refresh_token w op = Some (UserSession.refresh_token s).
Proof.
  destruct op as [ud|tk|uid pw|em tk ex|uid|uid|uid tk dev ip|tk|uid|tk]; simpl.
  - destruct (UserModel.create w ud db) as [[obj db']|] eqn:C; simpl; [|now auto].
    apply create_inv in C as (e & u & h & d & _ & -> & _). simpl. now auto.
  - now auto.
  - unfold UserModel.updatePassword.
    destruct (bcrypt_hash _ _ _); simpl; [|now auto].
    destruct (varchar 255 _); simpl; [|now auto].
    destruct (uuid_in uid); simpl; now auto.
  - unfold UserModel.setResetToken. destruct (varchar 255 _); simpl; now auto.
  - unfold UserModel.clearResetToken. destruct (uuid_in uid); simpl; now auto.
  - unfold UserModel.updateLastLogin. destruct (uuid_in uid); simpl; now auto.
  - destruct (UserModel.createSession _ _ _ _ _ _) as [[s' db']|] eqn:C; simpl; [|now auto].
    apply createSession_inv in C as (i & ip' & _ & -> & ->). simpl.
    intros [I|[<-|[]]]%in_app_iff; [now left | now right].
  - intros [I _]%filter_In. now left.
  - unfold UserModel.deleteAllUserSessions.
    destruct (uuid_in uid); simpl; [|now auto].
    intros [I _]%filter_In. now left.
  - intros I. apply refresh_store in I as [I|G]; [now left|]. right. now rewrite G.
Qed.

(** A history in which no operation issues [token] leaves no holder of it. *)
Lemma no_holder_history (token : string) (history : list (Ambient * Operation)) (db : Db) :
  no_holder token db ->
  Forall (fun step => issued_verification_token (fst step) (snd step) <> Some token)
    history ->
  no_holder token (perform_all history db).
Proof.
  revert db. induction history as [|[w op] rest IH]; intros db N F; [exact N|].
  apply Forall_cons_iff in F as [D F]. simpl. apply IH; [|exact F].
  intros v I T. destruct (perform_users w op db v token I T) as [(u & J & E)|E].
  - now apply (N u J).
  - now apply D.
Qed.

(** A history in which no operation stores [r] leaves no session holding it. *)
Lemma no_session_history (r : string) (history : list (Ambient * Operation)) (db : Db) :
  no_session r db ->
  Forall (fun step => stored_refresh_token (fst step) (snd step) <> Some r) history ->
  no_session r (perform_all history db).
Proof.
  revert db. induction history as [|[w op] rest IH]; intros db N F; [exact N|].
  apply Forall_cons_iff in F as [D F]. simpl. apply IH; [|exact F].
  intros s I E. destruct (perform_sessions w op db s I) as [J|T].
  - now apply (N s J).
  - apply D. simpl. now rewrite T, E.
Qed.

End HistoryProperties.

(** ** Single use: verification tokens and rotated refresh tokens *)

Section SingleUse.
Context {ES : EcmaScript} {JWT : JsonWebToken} {PG : Postgres} {BC : Bcrypt}.

Lemma verifyEmail_no_holder (w : Ambient) (token : string) (db : Db) :
  no_holder token db -> fst (UserModel.verifyEmail w token db) = false.
Proof.
  intros N. unfold UserModel.verifyEmail, update_users. cbn [fst].
  rewrite filter_none; [reflexivity|].
  intros v I. destruct (holds_verification_token token v) eqn:E; [|reflexivity].
  apply holds_verification_token_spec in E. now apply N in I.
Qed.

(** C1.  The first [verifyEmail(token)] returns true exactly when some user
    holds the token; the one UPDATE marks every holder verified and clears
    its token, leaves the other rows and the sessions as they were, and after
    it no user holds the token.  So a second call with the same token, at
    any later time, returns false, and so does every call after any history
    of operations in which no registration draws that very token again. *)
Theorem verifyEmail_single_use (w w' : Ambient) (token : string) (db : Db) :
  let first := UserModel.verifyEmail w token db in
  (fst first = true <->
     exists u, In u (users db) /\ User.verification_token u = Some token)
  /\ (forall i u, users db !! i = Some u ->
        User.verification_token u = Some token ->
        exists v, users (snd first) !! i = Some v
                  /\ User.is_verified v = true
                  /\ User.verification_token v = None
                  /\ User.id v = User.id u
                  /\ User.email v = User.email u
                  /\ User.password_hash v = User.password_hash u)
  /\ (forall i u, users db !! i = Some u ->
        User.verification_token u <> Some token ->
        users (snd first) !! i = Some u)
  /\ List.length (users (snd first)) = List.length (users db)
  /\ user_sessions (snd first) = user_sessions db
  /\ no_holder token (snd first)
  /\ fst (UserModel.verifyEmail w' token (snd first)) = false
  /\ (forall history,
        Forall (fun step =>
                  issued_verification_token (fst step) (snd step) <> Some token)
          history ->
        fst (UserModel.verifyEmail w' token (perform_all history (snd first))) = false).
Proof.
  cbv zeta. unfold UserModel.verifyEmail at 1 2 3 4 5 6 7.
  cbn [fst snd users user_sessions with_users].
  assert (no_holder token
            (with_users db
               (snd (update_users (holds_verification_token token)
                       (set_verified (timestamp_of_now w)) (users db))))) as Gone.
  { intros v (u & I & ->)%In_update_users.
    destruct (holds_verification_token token u) eqn:E; simpl; [congruence|].
    intros T%holds_verification_token_spec. congruence. }
  repeat split.
  - intros A%affected_spec%filter_nonempty. destruct A as (u & I & T).
    exists u. split; [exact I | now apply holds_verification_token_spec].
  - intros (u & I & T). apply affected_spec, filter_nonempty.
    exists u. split; [exact I | now apply holds_verification_token_spec].
  - intros i u L T. rewrite update_users_lookup, L. simpl.
    apply holds_verification_token_spec in T. rewrite T.
    eexists. repeat split.
  - intros i u L T. rewrite update_users_lookup, L. simpl.
    destruct (holds_verification_token token u) eqn:E; [|reflexivity].
    apply holds_verification_token_spec in E. contradiction.
  - apply update_users_length.
  - exact Gone.
  - now apply verifyEmail_no_holder.
  - intros history F. apply verifyEmail_no_holder. now apply no_holder_history.
Qed.

(** C2, as the rotation has it.  After a successful [refresh(r)] that
    issued a refresh token other
    than [r] (a new token carries a freshly drawn identifier), no session
    holds [r] and the session of the new token is in the store;
    [refresh(r)] then fails with InvalidTokenError at any later time and in
    any environment, leaving the store as it is, and it still does after any
    history of operations none of which stores a session under [r] again. *)
Theorem refresh_rotation_no_replay (w : Ambient) (r : string) (db : Db)
    (tokens : TokenPair) (db' : Db) :
  IdentityService.refresh w r db = (Ok tokens, db') ->
  refreshToken tokens <> r ->
  no_session r db'
  /\ (exists s, In s (user_sessions db')
                /\ UserSession.refresh_token s = refreshToken tokens)
  /\ (forall w' : Ambient,
        IdentityService.refresh w' r db'
          = (Throw IdentityService.InvalidTokenError, db'))
  /\ (forall (history : list (Ambient * Operation)) (w' : Ambient),
        Forall (fun step => stored_refresh_token (fst step) (snd step) <> Some r)
          history ->
        IdentityService.refresh w' r (perform_all history db')
          = (Throw IdentityService.InvalidTokenError, perform_all history db')).
Proof.
  intros (old & new & _ & T & S & _)%refresh_success_inv D.
  assert (no_session r db') as N.
  { intros s. rewrite S, in_app_iff, filter_In. intros [[_ N]|[<-|[]]].
    - apply negb_true_iff, bool_decide_eq_false in N. exact N.
    - congruence. }
  split; [exact N|]. split.
  - exists new. split; [|exact T]. rewrite S, in_app_iff. right. now left.
  - split.
    + intros w'. now apply refresh_no_session.
    + intros history w' F. apply refresh_no_session. now apply no_session_history.
Qed.

End SingleUse.

(** ** Single use on a concrete store *)

(** C2 on a concrete store: alice's session is rotated; the old token is
    refused two seconds later, and again after bob has opened a session and
    alice has verified her address. *)
Lemma refresh_rotation_no_replay_witness :
  let db :=
    {| users := [Host.alice; Host.bob];
       user_sessions :=
         [UserSession.make Host.s0 Host.u1 "refresh-secret.old" None None 604800000 0] |} in
  let w := Host.world Host.secrets 5000 Host.utc [] Host.s1 in
  let w' := Host.world Host.secrets 7000 Host.utc [1; 2; 3] Host.s2 in
  let history :=
    [(Host.world Host.secrets 8000 Host.utc [4] Host.s3,
      CreateSession Host.u2 "refresh-secret.bob" None None);
     (Host.world Host.secrets 9000 Host.utc [5] Host.s4, VerifyEmail "tok-1")] in
  exists tokens db',
    IdentityService.refresh (JWT := Host.jwt) (PG := Host.postgres) w "refresh-secret.old" db = (Ok tokens, db')
    /\ refreshToken tokens = "refresh-secret.00000000-0000-4000-8000-000000000000"
    /\ IdentityService.refresh (JWT := Host.jwt) (PG := Host.postgres) w' "refresh-secret.old" db'
       = (Throw IdentityService.InvalidTokenError, db')
    /\ IdentityService.refresh (JWT := Host.jwt) (PG := Host.postgres) w' "refresh-secret.old"
         (perform_all (ES := Host.ecma) (JWT := Host.jwt) (PG := Host.postgres)
            (BC := Host.bcrypt) history db')
       = (Throw IdentityService.InvalidTokenError,
          perform_all (ES := Host.ecma) (JWT := Host.jwt) (PG := Host.postgres)
            (BC := Host.bcrypt) history db').
Proof.
  cbv zeta. eexists _, _. split; [vm_compute; reflexivity|]. split; [reflexivity|].
  pose proof (refresh_rotation_no_replay (ES := Host.ecma) (JWT := Host.jwt)
                (PG := Host.postgres) (BC := Host.bcrypt)
                (Host.world Host.secrets 5000 Host.utc [] Host.s1) "refresh-secret.old"
                {| users := [Host.alice; Host.bob];
                   user_sessions :=
                     [UserSession.make Host.s0 Host.u1 "refresh-secret.old" None None
                        604800000 0] |}
                _ _ eq_refl ltac:(discriminate)) as (_ & _ & Later & After).
  split; [apply Later|]. apply After.
  repeat constructor; simpl; discriminate.
Defined.

(** C2, a rotation on which the claim as stated fails.  Alice's session
    holds the refresh token [r], issued in the fifth second.  In that same
    second [refresh(r)] runs and [uuidv4] draws the token identifier that
    [r] carries: the refresh token issued is [r] again, the session record
    is replaced by one under the same token, and the replay of [r] a second
    and a half later is accepted. *)
Lemma refresh_replay_of_reissued_token :
  let r := "refresh-secret.00000000-0000-4000-8000-000000000000" in
  let db :=
    {| users := [Host.alice; Host.bob];
       user_sessions :=
         [UserSession.make Host.s0 Host.u1 r None None 604805000 5000] |} in
  let zeros := [0; 0; 0; 0; 0; 0; 0; 0; 0; 0; 0; 0; 0; 0; 0; 0] in
  let w := Host.world Host.secrets 5500 Host.utc zeros Host.s1 in
  let w' :=
    Host.world Host.secrets 7000 Host.utc
      [1; 2; 3; 4; 5; 6; 7; 8; 9; 10; 11; 12; 13; 14; 15; 16] Host.s2 in
  exists tokens db' tokens' db'',
    IdentityService.refresh (JWT := Host.jwt) (PG := Host.postgres) w r db
      = (Ok tokens, db')
    /\ refreshToken tokens = r
    /\ uuidv4 zeros = "00000000-0000-4000-8000-000000000000"
    /\ IdentityService.refresh (JWT := Host.jwt) (PG := Host.postgres) w' r db'
       = (Ok tokens', db'').
Proof.
  cbv zeta. eexists _, _, _, _.
  split; [vm_compute; reflexivity|]. split; [reflexivity|]. split; [reflexivity|].
  vm_compute; reflexivity.
Qed.

(** C1 on a concrete store: the first call verifies alice; the second is
    refused, also after carol has registered and alice has logged in. *)
Lemma verifyEmail_single_use_witness :
  let db := {| users := [Host.alice; Host.bob]; user_sessions := [] |} in
  let w := Host.world Host.secrets 5000 Host.utc [] Host.spare in
  let w' := Host.world Host.secrets 6000 Host.utc [] Host.spare in
  let history :=
    [(Host.world Host.secrets 5500 Host.utc [7; 7; 7] Host.u3,
      Create (CreateUserData.make "c@x.com" "carol" "Secret123!" None));
     (Host.world Host.secrets 5600 Host.utc [] Host.spare, UpdateLastLogin Host.u1)] in
  fst (UserModel.verifyEmail w "tok-1" db) = true
  /\ fst (UserModel.verifyEmail w' "tok-1" (snd (UserModel.verifyEmail w "tok-1" db)))
     = false
  /\ fst (UserModel.verifyEmail w' "tok-1"
            (perform_all (ES := Host.ecma) (JWT := Host.jwt) (PG := Host.postgres)
               (BC := Host.bcrypt) history
               (snd (UserModel.verifyEmail w "tok-1" db))))
     = false.
Proof.
  cbv zeta. split; [reflexivity|].
  pose proof (verifyEmail_single_use (ES := Host.ecma) (JWT := Host.jwt)
                (PG := Host.postgres) (BC := Host.bcrypt)
                (Host.world Host.secrets 5000 Host.utc [] Host.spare)
                (Host.world Host.secrets 6000 Host.utc [] Host.spare) "tok-1"
                {| users := [Host.alice; Host.bob]; user_sessions := [] |})
    as (_ & _ & _ & _ & _ & _ & Second & After).
  split; [exact Second|]. apply After.
  repeat constructor; simpl; discriminate.
Defined.

(** * Further properties of the code *)

(** ** utils/jwt.ts: issuing and reading tokens *)

Section TokenPairs.
Context {ES : EcmaScript} {JWT : JsonWebToken}.

Lemma generateAccessToken_cases (w : Ambient) (claims : JWTPayload) :
  (opt_truthy (env w !! "JWT_SECRET") = false /\
   JWTUtils.generateAccessToken w claims =
     Throw (Error "JWT_SECRET environment variable is required"))
  \/ (exists secret, env w !! "JWT_SECRET" = Some secret /\
        string_truthy secret = true /\
        JWTUtils.generateAccessToken w claims =
          call "jsonwebtoken"
            (jwt_sign (payload_object claims) secret
               (or_else (env w !! "JWT_EXPIRES_IN") "15m") (now w))).
Proof.
  unfold JWTUtils.generateAccessToken.
  destruct (getAccessTokenSecret_cases w) as [[A ->]|(s & E & T & ->)]; simpl.
  - left. auto.
  - right. eauto.
Qed.

Lemma payload_object_dom (claims : JWTPayload) :
  dom (payload_object claims) = {[ "userId"; "email"; "username"; "isVerified" ]}.
Proof.
  unfold payload_object. rewrite !dom_insert_L, dom_empty_L.
  apply set_eq. intros k. set_solver.
Qed.

(** X1.  [generateAccessToken] throws the missing-secret error exactly when
    [JWT_SECRET] is unset or empty and no other error of its own; otherwise
    it asks jsonwebtoken to sign, under that secret, an object with exactly
    the four claims userId, email, username and isVerified, with the expiry
    [JWT_EXPIRES_IN], or ['15m'] when that variable is unset or empty. *)
Theorem generateAccessToken_spec (w : Ambient) (claims : JWTPayload) :
  (JWTUtils.generateAccessToken w claims =
     Throw (Error "JWT_SECRET environment variable is required")
   <-> env w !! "JWT_SECRET" = None \/ env w !! "JWT_SECRET" = Some "")
  /\ (forall m, JWTUtils.generateAccessToken w claims = Throw (Error m) ->
        m = "JWT_SECRET environment variable is required")
  /\ dom (payload_object claims) = {[ "userId"; "email"; "username"; "isVerified" ]}
  /\ payload_object claims !! "userId" = Some (JString (userId claims))
  /\ payload_object claims !! "isVerified" = Some (JBool (isVerified claims))
  /\ (forall secret expiry,
        env w !! "JWT_SECRET" = Some secret -> string_truthy secret = true ->
        env w !! "JWT_EXPIRES_IN" = Some expiry -> string_truthy expiry = true ->
        JWTUtils.generateAccessToken w claims =
          call "jsonwebtoken" (jwt_sign (payload_object claims) secret expiry (now w)))
  /\ (forall secret,
        env w !! "JWT_SECRET" = Some secret -> string_truthy secret = true ->
        env w !! "JWT_EXPIRES_IN" = None \/ env w !! "JWT_EXPIRES_IN" = Some "" ->
        JWTUtils.generateAccessToken w claims =
          call "jsonwebtoken" (jwt_sign (payload_object claims) secret "15m" (now w))).
Proof.
  split; [|split; [|split; [apply payload_object_dom|split; [reflexivity|split; [reflexivity|]]]]].
  - destruct (generateAccessToken_cases w claims) as [[A ->]|(s & E & T & ->)].
    + split; [intros _; now apply opt_truthy_false | reflexivity].
    + split.
      * intros B. now apply call_not_Error in B.
      * intros A%opt_truthy_false. rewrite E in A. simpl in A. congruence.
  - intros m. destruct (generateAccessToken_cases w claims) as [[A ->]|(s & E & T & ->)].
    + congruence.
    + intros B. now apply call_not_Error in B.
  - split.
    + intros secret expiry E T X TX.
      destruct (generateAccessToken_cases w claims) as [[A _]|(s & E' & _ & ->)].
      * rewrite E in A. simpl in A. congruence.
      * rewrite X. simpl. rewrite TX. congruence.
    + intros secret E T X.
      destruct (generateAccessToken_cases w claims) as [[A _]|(s & E' & _ & ->)].
      * rewrite E in A. simpl in A. congruence.
      * assert (or_else (env w !! "JWT_EXPIRES_IN") "15m" = "15m") as ->
          by (destruct X as [-> | ->]; reflexivity).
        congruence.
Qed.

(** X2.  [generateTokenPair] signs the access token first: a missing
    [JWT_SECRET] is the error it reports even when [JWT_REFRESH_SECRET] is
    missing too, and the refresh secret's absence is reported only once the
    access token has been signed.  It returns a pair exactly when both
    generators return, and then both secrets are set and non-empty. *)
Theorem generateTokenPair_cases (w : Ambient) (claims : JWTPayload) :
  (opt_truthy (env w !! "JWT_SECRET") = false ->
     JWTUtils.generateTokenPair w claims =
       Throw (Error "JWT_SECRET environment variable is required"))
  /\ (forall a, JWTUtils.generateAccessToken w claims = Ok a ->
        opt_truthy (env w !! "JWT_REFRESH_SECRET") = false ->
        JWTUtils.generateTokenPair w claims =
          Throw (Error "JWT_REFRESH_SECRET environment variable is required"))
  /\ (forall tokens,
        JWTUtils.generateTokenPair w claims = Ok tokens <->
        JWTUtils.generateAccessToken w claims = Ok (accessToken tokens)
        /\ JWTUtils.generateRefreshToken w = Ok (refreshToken tokens))
  /\ (forall tokens,
        JWTUtils.generateTokenPair w claims = Ok tokens ->
        opt_truthy (env w !! "JWT_SECRET") = true
        /\ opt_truthy (env w !! "JWT_REFRESH_SECRET") = true).
Proof.
  assert (forall tokens,
            JWTUtils.generateTokenPair w claims = Ok tokens <->
            JWTUtils.generateAccessToken w claims = Ok (accessToken tokens)
            /\ JWTUtils.generateRefreshToken w = Ok (refreshToken tokens)) as Both.
  { intros [a r]. unfold JWTUtils.generateTokenPair. simpl.
    destruct (JWTUtils.generateAccessToken w claims) as [a'|]; simpl.
    - destruct (JWTUtils.generateRefreshToken w) as [r'|]; simpl.
      + split; [intros [= -> ->]; auto | intros [[= ->] [= ->]]; reflexivity].
      + split; [discriminate | intros [_ B]; discriminate B].
    - split; [discriminate | intros [B _]; discriminate B]. }
  split; [|split; [|split; [exact Both|]]].
  - intros A. unfold JWTUtils.generateTokenPair.
    destruct (generateAccessToken_cases w claims) as [[_ ->]|(s & E & T & _)].
    + reflexivity.
    + rewrite E in A. simpl in A. congruence.
  - intros a G A. unfold JWTUtils.generateTokenPair. rewrite G. simpl.
    unfold JWTUtils.generateRefreshToken.
    destruct (getRefreshTokenSecret_cases w) as [[_ ->]|(s & E & T & _)].
    + reflexivity.
    + rewrite E in A. simpl in A. congruence.
  - intros tokens [G R]%Both. split.
    + destruct (generateAccessToken_cases w claims) as [[_ B]|(s & E & T & _)].
      * congruence.
      * rewrite E. exact T.
    + unfold JWTUtils.generateRefreshToken in R.
      destruct (getRefreshTokenSecret_cases w) as [[_ B]|(s & E & T & _)].
      * rewrite B in R. discriminate R.
      * rewrite E. exact T.
Qed.

(** X3.  [verifyAccessToken] returns a payload exactly when [JWT_SECRET] is
    set and non-empty and jsonwebtoken verifies the token under it, and it
    returns that payload; likewise [verifyRefreshToken] with
    [JWT_REFRESH_SECRET].  Neither reads the other's secret. *)
Theorem verify_success_iff (w : Ambient) (token : string) (payload : Decoded) :
  (JWTUtils.verifyAccessToken w token = Ok payload <->
     exists secret, env w !! "JWT_SECRET" = Some secret /\ string_truthy secret = true
                    /\ jwt_verify token secret (now w) = Returns payload)
  /\ (JWTUtils.verifyRefreshToken w token = Ok payload <->
     exists secret, env w !! "JWT_REFRESH_SECRET" = Some secret
                    /\ string_truthy secret = true
                    /\ jwt_verify token secret (now w) = Returns payload).
Proof.
  unfold JWTUtils.verifyAccessToken, JWTUtils.verifyRefreshToken. split.
  - destruct (getAccessTokenSecret_cases w) as [[A ->]|(s & E & T & ->)]; simpl.
    + split; [discriminate|]. intros (s & E & T & _). rewrite E in A. simpl in A. congruence.
    + destruct (jwt_verify token s (now w)) as [p|c] eqn:V; simpl.
      * split; [intros [= <-]; eauto|]. intros (s' & E' & _ & V'). congruence.
      * split; [discriminate|]. intros (s' & E' & _ & V'). congruence.
  - destruct (getRefreshTokenSecret_cases w) as [[A ->]|(s & E & T & ->)]; simpl.
    + split; [discriminate|]. intros (s & E & T & _). rewrite E in A. simpl in A. congruence.
    + destruct (jwt_verify token s (now w)) as [p|c] eqn:V; simpl.
      * split; [intros [= <-]; eauto|]. intros (s' & E' & _ & V'). congruence.
      * split; [discriminate|]. intros (s' & E' & _ & V'). congruence.
Qed.

End TokenPairs.

Section Expiration.
Context {ES : EcmaScript} {JWT : JsonWebToken}.

(** X4.  [getTokenExpiration] yields null when decoding throws, when the
    payload is not an object, when the payload has no [exp], and when [exp]
    is 0; for a non-zero integral [exp] of [n] seconds within the range of
    Date it yields the date [n * 1000] ms. *)
Theorem getTokenExpiration_edges (token : string) :
  (forall code, jwt_decode token = Raises code ->
     JWTUtils.getTokenExpiration token = None)
  /\ (forall v, jwt_decode token = Returns (DecValue v) ->
        JWTUtils.getTokenExpiration token = None)
  /\ (forall o, jwt_decode token = Returns (DecObject o) -> o !! "exp" = None ->
        JWTUtils.getTokenExpiration token = None)
  /\ (forall o, jwt_decode token = Returns (DecObject o) ->
        o !! "exp" = Some (JNumber (Num 0)) ->
        JWTUtils.getTokenExpiration token = None)
  /\ (forall o n, jwt_decode token = Returns (DecObject o) ->
        o !! "exp" = Some (JNumber (Num n)) -> n <> 0 ->
        Z.abs (n * 1000) <= 8640000000000000 ->
        JWTUtils.getTokenExpiration token = Some (mkDate (Some (n * 1000)))).
Proof.
  rewrite getTokenExpiration_cases. repeat split.
  - intros code ->. reflexivity.
  - intros v ->. simpl. now rewrite andb_false_r.
  - intros o -> E. simpl. now rewrite E.
  - intros o -> E. simpl. now rewrite E.
  - intros o n -> E N R. simpl. rewrite E. simpl.
    apply Z.eqb_neq in N. rewrite N. simpl.
    apply Z.leb_le in R. now rewrite R.
Qed.

(** X5.  Expiry is monotone in the clock: a token that [isTokenExpired]
    reports expired is reported expired at every later instant. *)
Theorem isTokenExpired_monotone (w w' : Ambient) (token : string) :
  JWTUtils.isTokenExpired w token = true ->
  now w <= now w' ->
  JWTUtils.isTokenExpired w' token = true.
Proof.
  unfold JWTUtils.isTokenExpired.
  destruct (JWTUtils.getTokenExpiration token) as [[[t|]]|]; simpl; auto.
  intros L%Z.leb_le M. apply Z.leb_le. lia.
Qed.

(** X6.  A token whose [exp] lies beyond the range of Date (more than
    8.64e15 ms from the epoch) has an invalid expiration date, and
    [isTokenExpired] reports it not expired at every instant. *)
Theorem isTokenExpired_out_of_range (w : Ambient) (token : string)
    (o : gmap string JsVal) (n : Z) :
  jwt_decode token = Returns (DecObject o) ->
  o !! "exp" = Some (JNumber (Num n)) ->
  8640000000000000 < Z.abs (n * 1000) ->
  JWTUtils.getTokenExpiration token = Some (mkDate None)
  /\ JWTUtils.isTokenExpired w token = false.
Proof.
  intros D E R. unfold JWTUtils.isTokenExpired.
  rewrite getTokenExpiration_cases, D. simpl. rewrite E. simpl.
  assert (n <> 0) as N by lia. apply Z.eqb_neq in N. rewrite N. simpl.
  apply Z.leb_gt in R. rewrite R. auto.
Qed.

End Expiration.

(** X5 on a token expiring at second 100: expired at 100 s, and at 101 s. *)
Lemma isTokenExpired_monotone_witness :
  JWTUtils.isTokenExpired (JWT := Probe.jwt_exp (JNumber (Num 100)))
    (ES := Host.ecma) (Host.world ∅ 99999 Host.utc [] Host.spare) "t" = false
  /\ JWTUtils.isTokenExpired (JWT := Probe.jwt_exp (JNumber (Num 100)))
       (ES := Host.ecma) (Host.world ∅ 100000 Host.utc [] Host.spare) "t" = true
  /\ JWTUtils.isTokenExpired (JWT := Probe.jwt_exp (JNumber (Num 100)))
       (ES := Host.ecma) (Host.world ∅ 101000 Host.utc [] Host.spare) "t" = true.
Proof.
  split; [reflexivity|]. split; [reflexivity|].
  apply (isTokenExpired_monotone (JWT := Probe.jwt_exp (JNumber (Num 100)))
           (ES := Host.ecma)
           (Host.world ∅ 100000 Host.utc [] Host.spare)
           (Host.world ∅ 101000 Host.utc [] Host.spare) "t"); [reflexivity|].
  simpl. lia.
Defined.

(** X6 on a token whose [exp] is 10^13 seconds. *)
Lemma isTokenExpired_out_of_range_witness :
  JWTUtils.isTokenExpired (JWT := Probe.jwt_exp (JNumber (Num 10000000000000)))
    (ES := Host.ecma) (Host.world ∅ 8640000000000000 Host.utc [] Host.spare) "t" = false.
Proof.
  apply (isTokenExpired_out_of_range
           (JWT := Probe.jwt_exp (JNumber (Num 10000000000000))) (ES := Host.ecma)
           (Host.world ∅ 8640000000000000 Host.utc [] Host.spare) "t"
           {[ "exp" := JNumber (Num 10000000000000) ]} 10000000000000).
  - reflexivity.
  - reflexivity.
  - simpl. lia.
Defined.

(** ** The user model: registration, lookups and uniqueness *)

Lemma varchar_fits (n : nat) (s : string) :
  (String.length s <= n)%nat -> varchar n s = Returns s.
Proof. intros L. unfold varchar. apply Nat.leb_le in L. now rewrite L. Qed.

Lemma unique_violation_false (fresh e u : string) (l : list User.t) :
  unique_violation fresh e u l = false <->
  forall r, In r l -> User.id r <> fresh /\ User.email r <> e /\ User.username r <> u.
Proof.
  unfold unique_violation. split.
  - intros X r I.
    destruct (bool_decide (User.id r = fresh) || bool_decide (User.email r = e)
              || bool_decide (User.username r = u)) eqn:B.
    + assert (existsb (fun r => bool_decide (User.id r = fresh)
                                || bool_decide (User.email r = e)
                                || bool_decide (User.username r = u)) l = true) as Y
        by (apply existsb_exists; eauto).
      congruence.
    + apply orb_false_iff in B as [B C]. apply orb_false_iff in B as [A B].
      apply bool_decide_eq_false in A, B, C. auto.
  - intros P. destruct (existsb _ l) eqn:X; [|reflexivity].
    apply existsb_exists in X as (r & I & B). destruct (P r I) as (A & B' & C).
    apply orb_true_iff in B as [B|B]; [apply orb_true_iff in B as [B|B]|];
      apply bool_decide_eq_true in B; contradiction.
Qed.

Lemma head_filter_app_last {A} (f : A -> bool) (l : list A) (x : A) :
  (forall y, In y l -> f y = false) -> f x = true ->
  head (List.filter f (l ++ [x])) = Some x.
Proof.
  intros N T. rewrite List.filter_app, (filter_none f l N). simpl. now rewrite T.
Qed.


Section Registration.
Context {ES : EcmaScript} {JWT : JsonWebToken} {PG : Postgres} {BC : Bcrypt}.

(** Everything a successful [create] went through. *)
Lemma create_steps (w : Ambient) (userData : CreateUserData.t) (db : Db)
    (obj : gmap string JsVal) (db' : Db) :
  UserModel.create w userData db = Ok (obj, db') ->
  exists hashed e u h d,
    bcrypt_hash (CreateUserData.password userData)
      (parseInt (or_else (env w !! "BCRYPT_ROUNDS") "12")) (salt w) = Returns hashed
    /\ varchar 255 (CreateUserData.email userData) = Returns e
    /\ varchar 50 (CreateUserData.username userData) = Returns u
    /\ varchar 255 hashed = Returns h
    /\ varchar 100 (or_else (CreateUserData.display_name userData)
                      (CreateUserData.username userData)) = Returns d
    /\ unique_violation (fresh_id w) e u (users db) = false
    /\ obj = returning (zone w) ["id"; "email"; "username"; "display_name"; "status";
                        "is_verified"; "created_at"; "updated_at"]
               (User.make (fresh_id w) e u h (Some d) None None offline
                  false (Some (uuidv4 (random w))) None None (timestamp_of_now w) (timestamp_of_now w) None)
    /\ db' = with_users db
               (users db ++
                [User.make (fresh_id w) e u h (Some d) None None offline
                   false (Some (uuidv4 (random w))) None None (timestamp_of_now w) (timestamp_of_now w) None]).
Proof.
  unfold UserModel.create.
  destruct (bcrypt_hash _ _ _) as [hashed|] eqn:B; [|discriminate]. simpl.
  destruct (UserModel.insert_user _ _ _ _ _ _ _ _) as [[row db1]|] eqn:I; [|discriminate].
  simpl. intros [= <- <-].
  apply insert_user_inv in I
    as (e & u & h & d & t & E & U & Hh & D & T & V & -> & ->).
  assert (t = uuidv4 (random w)) as -> by (revert T; now intros [= <-]).
  exists hashed, e, u, h, d. repeat split; assumption.
Qed.

(** X7.  Insert, then look up: after a successful [create] whose email and
    username fit their columns, [findByEmail] and [findByUsername] return
    the new row, which carries the given email and username, the generated
    id and the drawn verification token and is unverified; and
    [findByVerificationToken] returns it when no earlier row holds the same
    token. *)
Theorem create_then_find (w : Ambient) (userData : CreateUserData.t) (db : Db)
    (obj : gmap string JsVal) (db' : Db) :
  UserModel.create w userData db = Ok (obj, db') ->
  (String.length (CreateUserData.email userData) <= 255)%nat ->
  (String.length (CreateUserData.username userData) <= 50)%nat ->
  exists row,
    users db' = users db ++ [row]
    /\ UserModel.findByEmail (CreateUserData.email userData) db' = Some row
    /\ UserModel.findByUsername (CreateUserData.username userData) db' = Some row
    /\ User.email row = CreateUserData.email userData
    /\ User.username row = CreateUserData.username userData
    /\ User.id row = fresh_id w
    /\ User.is_verified row = false
    /\ User.verification_token row = Some (uuidv4 (random w))
    /\ obj !! "email" = Some (JString (CreateUserData.email userData))
    /\ obj !! "id" = Some (JString (fresh_id w))
    /\ (no_holder (uuidv4 (random w)) db ->
        UserModel.findByVerificationToken (uuidv4 (random w)) db' = Some row).
Proof.
  intros C Le Lu.
  apply create_steps in C as (hashed & e & u & h & d & _ & E & U & _ & _ & V & -> & ->).
  rewrite varchar_fits in E by exact Le. rewrite varchar_fits in U by exact Lu.
  injection E as <-. injection U as <-.
  pose proof (proj1 (unique_violation_false _ _ _ _) V) as Fresh.
  eexists. split; [reflexivity|].
  split; [|split; [|repeat split]].
  - unfold UserModel.findByEmail. simpl. apply head_filter_app_last.
    + intros y I. apply bool_decide_eq_false. now apply Fresh.
    + now apply bool_decide_eq_true.
  - unfold UserModel.findByUsername. simpl. apply head_filter_app_last.
    + intros y I. apply bool_decide_eq_false. now apply Fresh.
    + now apply bool_decide_eq_true.
  - intros N. unfold UserModel.findByVerificationToken. simpl.
    apply head_filter_app_last.
    + intros y I. destruct (holds_verification_token _ y) eqn:X; [|reflexivity].
      apply holds_verification_token_spec in X. now apply N in I.
    + now apply holds_verification_token_spec.
Qed.

(** X8.  A taken email or username: when hashing succeeds and the values
    fit their columns, [create] for an email or a username that a stored
    user already has throws the store's unique violation (23505) and adds
    nothing. *)
Theorem create_conflict (w : Ambient) (userData : CreateUserData.t) (db : Db)
    (hashed : string) (taken : User.t) :
  bcrypt_hash (CreateUserData.password userData)
    (parseInt (or_else (env w !! "BCRYPT_ROUNDS") "12")) (salt w) = Returns hashed ->
  (String.length hashed <= 255)%nat ->
  (String.length (CreateUserData.email userData) <= 255)%nat ->
  (String.length (CreateUserData.username userData) <= 50)%nat ->
  (String.length (or_else (CreateUserData.display_name userData)
                    (CreateUserData.username userData)) <= 100)%nat ->
  In taken (users db) ->
  User.email taken = CreateUserData.email userData
  \/ User.username taken = CreateUserData.username userData ->
  UserModel.create w userData db = Throw (Foreign "pg" "23505").
Proof.
  intros B Lh Le Lu Ld I T. unfold UserModel.create, UserModel.insert_user.
  rewrite B. cbn [call bind].
  rewrite (varchar_fits 255 (CreateUserData.email userData)) by exact Le.
  rewrite (varchar_fits 50) by exact Lu.
  rewrite (varchar_fits 255 hashed) by exact Lh.
  rewrite (varchar_fits 100) by exact Ld.
  rewrite (varchar_fits 255 (uuidv4 (random w))) by (rewrite uuidv4_length; lia).
  cbn [call bind].
  destruct (unique_violation _ _ _ (users db)) eqn:V; [reflexivity|].
  apply unique_violation_false with (r := taken) in V as (_ & A & C); [|exact I].
  destruct T; contradiction.
Qed.

End Registration.

(** ** The user model: what every operation preserves *)

Lemma row_step_refl (u : User.t) : row_step u u.
Proof. unfold row_step. auto 10. Qed.

Lemma row_step_trans (a b c : User.t) : row_step a b -> row_step b c -> row_step a c.
Proof.
  unfold row_step. intros (A1 & A2 & A3 & A4 & A5 & A6) (B1 & B2 & B3 & B4 & B5 & B6).
  repeat split; try congruence.
  - auto.
  - destruct B6 as [B6|B6]; [rewrite B6; exact A6 | now right].
Qed.

Lemma Forall2_row_step_refl (l : list User.t) : Forall2 row_step l l.
Proof. induction l; constructor; auto using row_step_refl. Qed.

Lemma Forall2_row_step_trans (a b c : list User.t) :
  Forall2 row_step a b -> Forall2 row_step b c -> Forall2 row_step a c.
Proof.
  intros X. revert c. induction X as [|x y a b S X IH]; intros c Y.
  - inversion Y. constructor.
  - inversion Y as [|y' z b' c' S' Y' E1 E2]; subst. constructor.
    + eapply row_step_trans; eauto.
    + now apply IH.
Qed.

Lemma update_users_row_step (cond : User.t -> bool) (set : User.t -> User.t)
    (l : list User.t) :
  (forall u, row_step u (set u)) ->
  Forall2 row_step l (snd (update_users cond set l)).
Proof.
  intros P. unfold update_users. simpl.
  induction l as [|u l IH]; simpl; constructor; [|exact IH].
  destruct (cond u); [apply P | apply row_step_refl].
Qed.

Lemma row_step_keys (l l' : list User.t) :
  Forall2 row_step l l' ->
  List.map User.id l' = List.map User.id l
  /\ List.map User.email l' = List.map User.email l
  /\ List.map User.username l' = List.map User.username l.
Proof.
  induction 1 as [|u u' l l' (A & B & C & _) _ (IA & IB & IC)]; simpl; [auto|].
  rewrite A, B, C, IA, IB, IC. auto.
Qed.

Section Preservation.
Context {ES : EcmaScript} {JWT : JsonWebToken} {PG : Postgres} {BC : Bcrypt}.

(** One operation, seen from [users]: the rows that were there step
    forward in place, and at most one row is appended, whose id, email and
    username no earlier row has. *)
Lemma perform_rows (w : Ambient) (op : Operation) (db : Db) :
  exists kept added,
    users (perform w op db) = kept ++ added
    /\ Forall2 row_step (users db) kept
    /\ (added = []
        \/ exists row, added = [row] /\
             forall r, In r (users db) ->
               User.id r <> User.id row /\ User.email r <> User.email row
               /\ User.username r <> User.username row).
Proof.
  assert (exists kept added,
            users db = kept ++ added /\ Forall2 row_step (users db) kept
            /\ (added = [] \/ exists row, added = [row] /\
                  forall r, In r (users db) ->
                    User.id r <> User.id row /\ User.email r <> User.email row
                    /\ User.username r <> User.username row)) as Same.
  { exists (users db), []. rewrite app_nil_r.
    split; [reflexivity|]. split; [apply Forall2_row_step_refl | now left]. }
  assert (forall cond set, (forall u, row_step u (set u)) ->
            exists kept added,
              snd (update_users cond set (users db)) = kept ++ added
              /\ Forall2 row_step (users db) kept
              /\ (added = [] \/ exists row, added = [row] /\
                    forall r, In r (users db) ->
                      User.id r <> User.id row /\ User.email r <> User.email row
                      /\ User.username r <> User.username row)) as Updated.
  { intros cond set P. exists (snd (update_users cond set (users db))), [].
    rewrite app_nil_r. split; [reflexivity|].
    split; [now apply update_users_row_step | now left]. }
  destruct op as [ud|tk|uid pw|em tk ex|uid|uid|uid tk dev ip|tk|uid|tk]; simpl.
  - destruct (UserModel.create w ud db) as [[obj db']|] eqn:C; simpl; [|exact Same].
    apply create_steps in C as (hashed & e & u & h & d & _ & _ & _ & _ & _ & V & _ & ->).
    simpl. eexists (users db), [_]. split; [reflexivity|].
    split; [apply Forall2_row_step_refl|]. right. eexists. split; [reflexivity|].
    simpl. now apply unique_violation_false.
  - apply Updated. intros u. unfold row_step. simpl. auto 10.
  - unfold UserModel.updatePassword.
    destruct (bcrypt_hash _ _ _); simpl; [|exact Same].
    destruct (varchar 255 _); simpl; [|exact Same].
    destruct (uuid_in uid); simpl; [|exact Same].
    apply Updated. intros u. unfold row_step. simpl. auto 10.
  - unfold UserModel.setResetToken.
    destruct (varchar 255 _); simpl; [|exact Same].
    apply Updated. intros u. unfold row_step. simpl. auto 10.
  - unfold UserModel.clearResetToken.
    destruct (uuid_in uid); simpl; [|exact Same].
    apply Updated. intros u. unfold row_step. simpl. auto 10.
  - unfold UserModel.updateLastLogin.
    destruct (uuid_in uid); simpl; [|exact Same].
    apply Updated. intros u. unfold row_step. simpl. auto 10.
  - destruct (UserModel.createSession _ _ _ _ _ _) as [[s db']|] eqn:C; simpl;
      [|exact Same].
    apply createSession_inv in C as (i & ip' & _ & _ & ->). exact Same.
  - exact Same.
  - unfold UserModel.deleteAllUserSessions.
    destruct (uuid_in uid); simpl; exact Same.
  - rewrite (proj1 (refresh_store w tk db)). exact Same.
Qed.

Lemma perform_all_rows (history : list (Ambient * Operation)) (db : Db) :
  exists kept added,
    users (perform_all history db) = kept ++ added
    /\ Forall2 row_step (users db) kept.
Proof.
  revert db. induction history as [|[w op] rest IH]; intros db; simpl.
  - exists (users db), []. rewrite app_nil_r. split; [reflexivity|].
    apply Forall2_row_step_refl.
  - destruct (perform_rows w op db) as (k1 & a1 & E1 & F1 & _).
    destruct (IH (perform w op db)) as (k2 & a2 & E2 & F2).
    rewrite E1 in F2. apply Forall2_app_inv_l in F2 as (k2a & k2b & Fa & Fb & ->).
    exists k2a, (k2b ++ a2). split; [now rewrite E2, app_assoc|].
    eapply Forall2_row_step_trans; eauto.
Qed.

(** X9.  Rows of [users] are never removed or reordered, and verification
    is final: after any history of operations the row at each position is
    the same user (same id, email, username and creation time), it is still
    verified if it was, and its verification token is unchanged or
    cleared. *)
Theorem users_persist (history : list (Ambient * Operation)) (db : Db)
    (i : nat) (u : User.t) :
  users db !! i = Some u ->
  exists u',
    users (perform_all history db) !! i = Some u'
    /\ User.id u' = User.id u
    /\ User.email u' = User.email u
    /\ User.username u' = User.username u
    /\ User.created_at u' = User.created_at u
    /\ (User.is_verified u = true -> User.is_verified u' = true)
    /\ (User.verification_token u' = User.verification_token u
        \/ User.verification_token u' = None).
Proof.
  intros L. destruct (perform_all_rows history db) as (kept & added & E & F).
  destruct (Forall2_lookup_l _ _ _ _ _ F L) as (u' & L' & S).
  exists u'. split; [|exact S].
  rewrite E. now apply lookup_app_l_Some.
Qed.

(** X10.  The uniqueness constraints are an invariant: if ids, emails and
    usernames are pairwise distinct in the store, they are so after any
    history of operations. *)
Theorem unique_users_invariant (history : list (Ambient * Operation)) (db : Db) :
  unique_users db -> unique_users (perform_all history db).
Proof.
  revert db. induction history as [|[w op] rest IH]; intros db U; [exact U|].
  simpl. apply IH.
  destruct (perform_rows w op db) as (kept & added & E & F & A).
  destruct (row_step_keys _ _ F) as (Ki & Ke & Ku).
  destruct U as (Ui & Ue & Uu). unfold unique_users. rewrite E.
  destruct A as [->|(row & -> & Fresh)].
  - rewrite app_nil_r, Ki, Ke, Ku. auto.
  - rewrite !map_app, Ki, Ke, Ku. simpl.
    repeat split; apply NoDup_app; (split; [assumption|]);
      (split; [|apply NoDup_singleton]);
      intros x X Y; apply list_elem_of_In, in_map_iff in X as (r & <- & I);
      apply list_elem_of_singleton in Y;
      destruct (Fresh r I) as (A & B & C); congruence.
Qed.

(** X11.  Frames: the operations that write [users] (create, verifyEmail,
    updatePassword, setResetToken, clearResetToken, updateLastLogin) leave
    [user_sessions] exactly as it was, so changing a password revokes no
    session; createSession, deleteSession, deleteAllUserSessions and refresh
    leave [users] exactly as it was. *)
Theorem frames (w : Ambient) (op : Operation) (db : Db) :
  if writes_users op
  then user_sessions (perform w op db) = user_sessions db
  else users (perform w op db) = users db.
Proof.
  destruct op as [ud|tk|uid pw|em tk ex|uid|uid|uid tk dev ip|tk|uid|tk]; simpl.
  - destruct (UserModel.create w ud db) as [[obj db']|] eqn:C; simpl; [|reflexivity].
    apply create_steps in C as (? & ? & ? & ? & ? & _ & _ & _ & _ & _ & _ & _ & ->).
    reflexivity.
  - reflexivity.
  - unfold UserModel.updatePassword.
    destruct (bcrypt_hash _ _ _); simpl; [|reflexivity].
    destruct (varchar 255 _); simpl; [|reflexivity].
    destruct (uuid_in uid); reflexivity.
  - unfold UserModel.setResetToken. destruct (varchar 255 _); reflexivity.
  - unfold UserModel.clearResetToken. destruct (uuid_in uid); reflexivity.
  - unfold UserModel.updateLastLogin. destruct (uuid_in uid); reflexivity.
  - destruct (UserModel.createSession _ _ _ _ _ _) as [[s db']|] eqn:C; simpl;
      [|reflexivity].
    apply createSession_inv in C as (i & ip' & _ & _ & ->). reflexivity.
  - reflexivity.
  - unfold UserModel.deleteAllUserSessions. destruct (uuid_in uid); reflexivity.
  - apply refresh_store.
Qed.

End Preservation.

(** ** The user model: sessions *)

Lemma In_filter_other (f : UserSession.t -> string) (k : string)
    (l : list UserSession.t) (s : UserSession.t) :
  In s (List.filter (fun s => negb (bool_decide (f s = k))) l) <->
  In s l /\ f s <> k.
Proof. now rewrite filter_In, negb_true_iff, bool_decide_eq_false. Qed.

Section SessionStore.
Context {ES : EcmaScript} {JWT : JsonWebToken} {PG : Postgres} {BC : Bcrypt}.

Lemma createSession_user (w : Ambient) (userId refreshToken : string)
    (deviceInfo ipAddress : option string) (db : Db)
    (s : UserSession.t) (db' : Db) :
  UserModel.createSession w userId refreshToken deviceInfo ipAddress db = Ok (s, db') ->
  exists u, In u (users db) /\ User.id u = UserSession.user_id s.
Proof.
  unfold UserModel.createSession.
  destruct (uuid_in userId) as [i|]; [|discriminate]. simpl.
  destruct (match or_null ipAddress with
            | Some a => _
            | None => _
            end) as [ip|]; [|discriminate]. simpl.
  destruct (existsb _ (user_sessions db)); [discriminate|].
  destruct (existsb _ (users db)) eqn:X; [|discriminate]. simpl.
  intros [= <- <-]. simpl.
  apply existsb_exists in X as (u & I & E). apply bool_decide_eq_true in E. eauto.
Qed.

(** X12.  Insert, then look up, with several sessions per user: a
    successful [createSession] adds one session, for a stored user, and
    changes nothing else.  The session's [created_at] is the reading of the
    database session's zone at the server's clock; its [expires_at] is the
    reading of the process's zone at the instant seven local calendar days
    after the call.  A token that found a session still finds one; the new
    token finds a session exactly when it did before or the new reading,
    taken as a time of the database session's zone at the lookup, is after
    the server's clock, and then it finds the new session itself when no
    earlier session holds the token. *)
Theorem createSession_then_find (w w' : Ambient) (userId refreshToken : string)
    (deviceInfo ipAddress : option string) (db : Db)
    (s : UserSession.t) (db' : Db) :
  UserModel.createSession w userId refreshToken deviceInfo ipAddress db = Ok (s, db') ->
  users db' = users db
  /\ (forall x, In x (user_sessions db') <-> In x (user_sessions db) \/ x = s)
  /\ UserSession.id s = fresh_id w
  /\ UserSession.refresh_token s = refreshToken
  /\ UserSession.device_info s = deviceInfo
  /\ (exists u, In u (users db) /\ User.id u = UserSession.user_id s)
  /\ UserSession.created_at s = LocalTime (session_zone w) (sql_now w)
  /\ UserSession.expires_at s
     = LocalTime (zone w) (UTC (zone w) (LocalTime (zone w) (now w) + 7 * msPerDay))
  /\ (forall r,
        (exists found, UserModel.findSessionByRefreshToken w' r db = Some found) ->
        exists found, UserModel.findSessionByRefreshToken w' r db' = Some found)
  /\ ((exists found,
         UserModel.findSessionByRefreshToken w' refreshToken db' = Some found) <->
      (exists found,
         UserModel.findSessionByRefreshToken w' refreshToken db = Some found)
      \/ sql_now w' < UTC (session_zone w') (UserSession.expires_at s))
  /\ (no_session refreshToken db ->
      sql_now w' < UTC (session_zone w') (UserSession.expires_at s) ->
      UserModel.findSessionByRefreshToken w' refreshToken db' = Some s).
Proof.
  intros C. pose proof (createSession_user _ _ _ _ _ _ _ _ C) as U.
  apply createSession_inv in C as (i & ip & _ & E & ->).
  assert (forall x, In x (user_sessions db ++ [s]) <->
                    In x (user_sessions db) \/ x = s) as Mem.
  { intros x. rewrite in_app_iff. simpl. intuition. }
  cbn [users user_sessions with_sessions].
  split; [reflexivity|]. split; [exact Mem|].
  split; [now rewrite E|]. split; [now rewrite E|]. split; [now rewrite E|].
  split; [exact U|]. split; [now rewrite E|].
  split; [rewrite E; cbn [UserSession.expires_at]; unfold timestamp_of_Date;
          now rewrite setDate_getDate_plus_local|].
  split; [|split].
  - intros r. rewrite !findSession_is_Some. cbn [user_sessions with_sessions].
    intros (x & I & T). exists x. split; [|exact T]. apply Mem. now left.
  - rewrite !findSession_is_Some. cbn [user_sessions with_sessions]. split.
    + intros (x & [I| ->]%Mem & T & L); [left; now eauto | now right].
    + intros [(x & I & T)|L].
      * exists x. split; [|exact T]. apply Mem. now left.
      * exists s. split; [apply Mem; now right|]. split; [now rewrite E | exact L].
  - intros N L. unfold UserModel.findSessionByRefreshToken.
    cbn [user_sessions with_sessions]. apply head_filter_app_last.
    + intros y I. apply andb_false_iff. left. apply bool_decide_eq_false. now apply N.
    + apply session_holds. split; [now rewrite E | exact L].
Qed.

(** X13.  A session needs its user: for a user id that the server accepts
    but that no row of [users] has, [createSession] throws (the foreign-key
    violation 23503, unless the address is rejected or the generated id
    collides first) and the store is as it was. *)
Theorem createSession_unknown_user (w : Ambient) (userId refreshToken : string)
    (deviceInfo ipAddress : option string) (db : Db) (i : string) :
  uuid_in userId = Returns i ->
  (forall u, In u (users db) -> User.id u <> i) ->
  (exists e, UserModel.createSession w userId refreshToken deviceInfo ipAddress db
             = Throw e)
  /\ (or_null ipAddress = None ->
      (forall s, In s (user_sessions db) -> UserSession.id s <> fresh_id w) ->
      UserModel.createSession w userId refreshToken deviceInfo ipAddress db
        = Throw (Foreign "pg" "23503")).
Proof.
  intros U N. unfold UserModel.createSession. rewrite U. cbn [call bind].
  assert (existsb (fun u => bool_decide (User.id u = i)) (users db) = false) as X.
  { destruct (existsb _ (users db)) eqn:X; [|reflexivity].
    apply existsb_exists in X as (u & I & E). apply bool_decide_eq_true in E.
    now apply N in I. }
  split.
  - destruct (or_null ipAddress) as [a|]; cbn [bind].
    + destruct (inet_in a); cbn [call bind]; [|eauto].
      destruct (existsb _ (user_sessions db)); [eauto|]. rewrite X. simpl. eauto.
    + destruct (existsb _ (user_sessions db)); [eauto|]. rewrite X. simpl. eauto.
  - intros -> F. cbn [bind].
    assert (existsb (fun s => bool_decide (UserSession.id s = fresh_id w))
              (user_sessions db) = false) as ->.
    { destruct (existsb _ (user_sessions db)) eqn:Y; [|reflexivity].
      apply existsb_exists in Y as (s & I & E). apply bool_decide_eq_true in E.
      now apply F in I. }
    rewrite X. reflexivity.
Qed.

(** X14.  [deleteSession] returns true exactly when some session holds the
    token; it removes the sessions holding it and nothing else, keeps the
    order of the others and leaves [users] alone; afterwards the token finds
    no session and a second [deleteSession] returns false and changes
    nothing. *)
Theorem deleteSession_spec (w : Ambient) (r : string) (db : Db) :
  let after := snd (UserModel.deleteSession r db) in
  (fst (UserModel.deleteSession r db) = true <->
     exists s, In s (user_sessions db) /\ UserSession.refresh_token s = r)
  /\ (forall s, In s (user_sessions after) <->
        In s (user_sessions db) /\ UserSession.refresh_token s <> r)
  /\ user_sessions after
     = List.filter (fun s => negb (bool_decide (UserSession.refresh_token s = r)))
         (user_sessions db)
  /\ users after = users db
  /\ UserModel.findSessionByRefreshToken w r after = None
  /\ UserModel.deleteSession r after = (false, after).
Proof.
  cbv zeta. unfold UserModel.deleteSession, delete_sessions.
  cbn [fst snd users user_sessions with_sessions].
  assert (forall s,
            In s (List.filter
                    (fun s => negb (bool_decide (UserSession.refresh_token s = r)))
                    (user_sessions db)) ->
            bool_decide (UserSession.refresh_token s = r) = false) as Gone.
  { intros s [_ N]%filter_In. now apply negb_true_iff in N. }
  split; [split|]; [| |split; [|split; [|split; [|split]]]]; try reflexivity.
  - intros A%affected_spec%filter_nonempty. destruct A as (s & I & E).
    apply bool_decide_eq_true in E. eauto.
  - intros (s & I & E). apply affected_spec, filter_nonempty.
    exists s. split; [exact I | now apply bool_decide_eq_true].
  - intros s. apply (In_filter_other UserSession.refresh_token).
  - unfold UserModel.findSessionByRefreshToken. simpl.
    rewrite filter_none; [reflexivity|].
    intros s I. rewrite (Gone s I). reflexivity.
  - rewrite (filter_none _ _ Gone). simpl. f_equal. unfold with_sessions. simpl.
    f_equal. clear Gone.
    induction (user_sessions db) as [|s l IH]; simpl; [reflexivity|].
    destruct (bool_decide (UserSession.refresh_token s = r)) eqn:E; simpl; [exact IH|].
    rewrite E. simpl. now rewrite IH.
Qed.

(** X15.  [deleteAllUserSessions] throws only when the server rejects the
    user id; otherwise it returns true exactly when the user had a session,
    removes exactly the sessions of that user, and leaves the sessions of
    every other user and [users] alone. *)
Theorem deleteAllUserSessions_spec (userId : string) (db : Db) :
  (forall code, uuid_in userId = Raises code ->
     UserModel.deleteAllUserSessions userId db = Throw (Foreign "pg" code))
  /\ (forall i, uuid_in userId = Returns i ->
        exists removed db',
          UserModel.deleteAllUserSessions userId db = Ok (removed, db')
          /\ (removed = true <->
                exists s, In s (user_sessions db) /\ UserSession.user_id s = i)
          /\ (forall s, In s (user_sessions db') <->
                In s (user_sessions db) /\ UserSession.user_id s <> i)
          /\ users db' = users db).
Proof.
  unfold UserModel.deleteAllUserSessions, delete_sessions. split.
  - intros code ->. reflexivity.
  - intros i ->. cbn [call bind fst snd]. eexists _, _. split; [reflexivity|].
    cbn [users user_sessions with_sessions].
    split; [split|split; [|reflexivity]].
    + intros A%affected_spec%filter_nonempty. destruct A as (s & I & E).
      apply bool_decide_eq_true in E. eauto.
    + intros (s & I & E). apply affected_spec, filter_nonempty.
      exists s. split; [exact I | now apply bool_decide_eq_true].
    + intros s. apply (In_filter_other UserSession.user_id).
Qed.

End SessionStore.

(** ** The user model: reset tokens, passwords, verification lookups *)

Lemma In_lookup_users (l : list User.t) (u : User.t) :
  In u l <-> exists i, l !! i = Some u.
Proof. rewrite <- list_elem_of_In. apply list_elem_of_lookup. Qed.

Lemma reset_token_holds (w : Ambient) (token : string) (u : User.t) :
  bool_decide (User.reset_token u = Some token)
  && match User.reset_token_expires u with
     | Some x => timestamp_after_now w x
     | None => false
     end = true <->
  User.reset_token u = Some token
  /\ exists x, User.reset_token_expires u = Some x
               /\ sql_now w < UTC (session_zone w) x.
Proof.
  rewrite andb_true_iff, bool_decide_eq_true.
  destruct (User.reset_token_expires u) as [x|].
  - rewrite timestamp_after_now_spec. split.
    + intros [A B]. eauto.
    + intros (A & y & [= <-] & B). auto.
  - split; [intros [_ B]; discriminate B | intros (_ & y & B & _); discriminate B].
Qed.

Lemma findByResetToken_sound (w : Ambient) (token : string) (db : Db) (u : User.t) :
  UserModel.findByResetToken w token db = Some u ->
  In u (users db) /\ User.reset_token u = Some token
  /\ exists x, User.reset_token_expires u = Some x
               /\ sql_now w < UTC (session_zone w) x.
Proof.
  unfold UserModel.findByResetToken.
  intros [I T]%head_filter_Some. apply reset_token_holds in T. tauto.
Qed.

Lemma findByResetToken_complete (w : Ambient) (token : string) (db : Db)
    (u : User.t) (x : Z) :
  In u (users db) -> User.reset_token u = Some token ->
  User.reset_token_expires u = Some x -> sql_now w < UTC (session_zone w) x ->
  exists v, UserModel.findByResetToken w token db = Some v.
Proof.
  intros I A B C. unfold UserModel.findByResetToken.
  apply head_filter_is_Some. exists u. split; [exact I|].
  apply reset_token_holds. eauto.
Qed.

Section Credentials.
Context {ES : EcmaScript} {JWT : JsonWebToken} {PG : Postgres} {BC : Bcrypt}.

(** X16.  [findByResetToken] returns only a stored user who holds the token
    and whose expiry reading, taken as a time of the database session's
    zone, is strictly after the server's clock, and it returns one whenever
    such a user exists: a reset token whose expiry, so taken, has been
    reached, or one without an expiry, finds nobody. *)
Theorem findByResetToken_spec (w : Ambient) (token : string) (db : Db) :
  (forall u, UserModel.findByResetToken w token db = Some u ->
     In u (users db) /\ User.reset_token u = Some token
     /\ exists x, User.reset_token_expires u = Some x
                  /\ sql_now w < UTC (session_zone w) x)
  /\ ((exists u, UserModel.findByResetToken w token db = Some u) <->
      exists u x, In u (users db) /\ User.reset_token u = Some token
                  /\ User.reset_token_expires u = Some x
                  /\ sql_now w < UTC (session_zone w) x)
  /\ ((forall u x, In u (users db) -> User.reset_token u = Some token ->
         User.reset_token_expires u = Some x ->
         UTC (session_zone w) x <= sql_now w) ->
      UserModel.findByResetToken w token db = None).
Proof.
  split; [|split].
  - intros u. apply findByResetToken_sound.
  - split.
    + intros (u & (I & A & x & B & C)%findByResetToken_sound). eauto 10.
    + intros (u & x & I & A & B & C). eapply findByResetToken_complete; eauto.
  - intros Expired. unfold UserModel.findByResetToken.
    rewrite filter_none; [reflexivity|].
    intros u I. match goal with |- ?b = false => destruct b eqn:T end; [|reflexivity].
    apply reset_token_holds in T as (A & x & B & C).
    specialize (Expired u x I A B). lia.
Qed.

(** X17.  Set, then find: [setResetToken] with a token that fits the
    column returns true exactly when a user has the email; that user then
    holds the token (a token set earlier is replaced) and, as expiry, the
    reading of the process's zone at the instant passed; every other row and
    [user_sessions] are as before.  Afterwards [findByResetToken] finds a
    holder of the token as long as that reading, taken as a time of the
    database session's zone, is after the server's clock: until the instant
    passed when the two conversions undo each other, as they do when both
    zones are UTC. *)
Theorem setResetToken_then_find (w w' : Ambient) (email token : string)
    (expiresAt : Z) (db : Db) :
  (String.length token <= 255)%nat ->
  exists found db',
    UserModel.setResetToken w email token expiresAt db = Ok (found, db')
    /\ (found = true <-> exists u, In u (users db) /\ User.email u = email)
    /\ user_sessions db' = user_sessions db
    /\ (forall i u, users db !! i = Some u -> User.email u = email ->
          exists u', users db' !! i = Some u'
                     /\ User.reset_token u' = Some token
                     /\ User.reset_token_expires u'
                        = Some (LocalTime (zone w) expiresAt)
                     /\ User.id u' = User.id u
                     /\ User.password_hash u' = User.password_hash u
                     /\ User.is_verified u' = User.is_verified u)
    /\ (forall i u, users db !! i = Some u -> User.email u <> email ->
          users db' !! i = Some u)
    /\ (found = true ->
        sql_now w' < UTC (session_zone w') (LocalTime (zone w) expiresAt) ->
        exists u', UserModel.findByResetToken w' token db' = Some u'
                   /\ User.reset_token u' = Some token)
    /\ (found = true ->
        UTC (session_zone w') (LocalTime (zone w) expiresAt) = expiresAt ->
        sql_now w' < expiresAt ->
        exists u', UserModel.findByResetToken w' token db' = Some u'
                   /\ User.reset_token u' = Some token).
Proof.
  intros L. unfold UserModel.setResetToken. rewrite (varchar_fits 255 token L).
  cbn [call bind]. eexists _, _. split; [reflexivity|].
  cbn [users user_sessions with_users]. unfold timestamp_of_Date.
  set (reading := LocalTime (zone w) expiresAt).
  set (assign := set_reset_token (Some token) (Some reading) (timestamp_of_now w)).
  assert (forall i u, users db !! i = Some u -> User.email u = email ->
            exists u',
              snd (update_users (fun u => bool_decide (User.email u = email))
                     assign (users db)) !! i = Some u'
              /\ User.reset_token u' = Some token
              /\ User.reset_token_expires u' = Some reading
              /\ User.id u' = User.id u
              /\ User.password_hash u' = User.password_hash u
              /\ User.is_verified u' = User.is_verified u) as Assigned.
  { intros i u Li E. rewrite update_users_lookup, Li. simpl.
    rewrite (bool_decide_eq_true_2 _ E). eexists. repeat split. }
  assert (affected
            (fst (update_users (fun u => bool_decide (User.email u = email))
                    assign (users db))) = true <->
          exists u, In u (users db) /\ User.email u = email) as Found.
  { unfold update_users. cbn [fst]. rewrite affected_spec, filter_nonempty. split.
    - intros (u & I & E). apply bool_decide_eq_true in E. eauto.
    - intros (u & I & E). exists u. split; [exact I | now apply bool_decide_eq_true]. }
  assert (affected
            (fst (update_users (fun u => bool_decide (User.email u = email))
                    assign (users db))) = true ->
          sql_now w' < UTC (session_zone w') reading ->
          exists u',
            UserModel.findByResetToken w' token
              (with_users db
                 (snd (update_users (fun u => bool_decide (User.email u = email))
                         assign (users db)))) = Some u'
            /\ User.reset_token u' = Some token) as Later.
  { intros (u & I & E)%Found Lt.
    apply In_lookup_users in I as [i Li].
    destruct (Assigned i u Li E) as (u' & Li' & T & X & _).
    destruct (findByResetToken_complete w' token
                (with_users db
                   (snd (update_users (fun u => bool_decide (User.email u = email))
                           assign (users db)))) u' reading) as [v F]; auto.
    { apply In_lookup_users. eauto. }
    exists v. split; [exact F|]. now apply findByResetToken_sound in F. }
  split; [exact Found|]. split; [reflexivity|]. split; [exact Assigned|].
  split; [|split; [exact Later|]].
  - intros i u Li N. rewrite update_users_lookup, Li. simpl.
    now rewrite (bool_decide_eq_false_2 _ N).
  - intros F Inv Lt. apply Later; [exact F|]. now rewrite Inv.
Qed.

(** X18.  [clearResetToken] for an id the server accepts returns true
    exactly when a user has that id, and afterwards no reset token finds
    that user, at any time; rows of other users are untouched. *)
Theorem clearResetToken_spec (w w' : Ambient) (userId : string) (db : Db) (i : string) :
  uuid_in userId = Returns i ->
  exists found db',
    UserModel.clearResetToken w userId db = Ok (found, db')
    /\ (found = true <-> exists u, In u (users db) /\ User.id u = i)
    /\ (forall u, In u (users db') -> User.id u = i ->
          User.reset_token u = None /\ User.reset_token_expires u = None)
    /\ (forall token u, UserModel.findByResetToken w' token db' = Some u ->
          User.id u <> i)
    /\ (forall k u, users db !! k = Some u -> User.id u <> i ->
          users db' !! k = Some u).
Proof.
  intros U. unfold UserModel.clearResetToken. rewrite U. cbn [call bind].
  eexists _, _. split; [reflexivity|]. cbn [users user_sessions with_users].
  assert (forall u,
            In u (snd (update_users (fun u => bool_decide (User.id u = i))
                         (set_reset_token None None (timestamp_of_now w))
                         (users db))) ->
            User.id u = i ->
            User.reset_token u = None /\ User.reset_token_expires u = None) as Cleared.
  { intros v (u & I & ->)%In_update_users.
    destruct (bool_decide (User.id u = i)) eqn:E; simpl; [auto|].
    apply bool_decide_eq_false in E. contradiction. }
  split; [|split; [exact Cleared|split]].
  - unfold update_users. cbn [fst]. rewrite affected_spec, filter_nonempty. split.
    + intros (u & I & E). apply bool_decide_eq_true in E. eauto.
    + intros (u & I & E). exists u. split; [exact I | now apply bool_decide_eq_true].
  - intros token u F E.
    apply findByResetToken_sound in F as (I & T & _).
    destruct (Cleared u I E) as [N _]. congruence.
  - intros k u Lk N. rewrite update_users_lookup, Lk. simpl.
    now rewrite (bool_decide_eq_false_2 _ N).
Qed.

(** X19.  [updatePassword] hashes with the cost [BCRYPT_ROUNDS] (12 when
    unset or empty) and returns true exactly when a user has the id; it
    replaces the digest of that user only, and it clears neither the reset
    token nor the verification state and removes no session. *)
Theorem updatePassword_spec (w : Ambient) (userId newPassword : string) (db : Db)
    (found : bool) (db' : Db) :
  UserModel.updatePassword w userId newPassword db = Ok (found, db') ->
  exists hashed stored i,
    bcrypt_hash newPassword (parseInt (or_else (env w !! "BCRYPT_ROUNDS") "12")) (salt w)
      = Returns hashed
    /\ varchar 255 hashed = Returns stored
    /\ uuid_in userId = Returns i
    /\ (found = true <-> exists u, In u (users db) /\ User.id u = i)
    /\ user_sessions db' = user_sessions db
    /\ (forall k u, users db !! k = Some u -> User.id u = i ->
          exists u', users db' !! k = Some u'
                     /\ User.password_hash u' = stored
                     /\ User.reset_token u' = User.reset_token u
                     /\ User.reset_token_expires u' = User.reset_token_expires u
                     /\ User.verification_token u' = User.verification_token u
                     /\ User.is_verified u' = User.is_verified u)
    /\ (forall k u, users db !! k = Some u -> User.id u <> i ->
          users db' !! k = Some u).
Proof.
  unfold UserModel.updatePassword.
  destruct (bcrypt_hash _ _ _) as [hashed|] eqn:B; [|discriminate]. cbn [call bind].
  destruct (varchar 255 hashed) as [stored|] eqn:V; [|discriminate]. cbn [call bind].
  destruct (uuid_in userId) as [i|] eqn:U; [|discriminate]. cbn [call bind].
  intros [= <- <-]. exists hashed, stored, i.
  split; [reflexivity|]. split; [exact V|]. split; [reflexivity|].
  cbn [users user_sessions with_users]. split; [|split; [reflexivity|split]].
  - unfold update_users. cbn [fst]. rewrite affected_spec, filter_nonempty. split.
    + intros (u & I & E). apply bool_decide_eq_true in E. eauto.
    + intros (u & I & E). exists u. split; [exact I | now apply bool_decide_eq_true].
  - intros k u Lk E.
    pose proof (update_users_lookup (fun u0 => bool_decide (User.id u0 = i))
                  (set_password_hash stored (timestamp_of_now w)) (users db) k) as R.
    unfold update_users in R. cbn [snd] in R. rewrite R, Lk. simpl.
    rewrite (bool_decide_eq_true_2 _ E). eexists. repeat split.
  - intros k u Lk N.
    pose proof (update_users_lookup (fun u0 => bool_decide (User.id u0 = i))
                  (set_password_hash stored (timestamp_of_now w)) (users db) k) as R.
    unfold update_users in R. cbn [snd] in R. rewrite R, Lk. simpl.
    now rewrite (bool_decide_eq_false_2 _ N).
Qed.

(** X20.  Lookup and update agree: [verifyEmail(token)] returns true
    exactly when [findByVerificationToken(token)] finds a user; the user it
    finds is stored and holds the token, and after [verifyEmail] the lookup
    finds nobody. *)
Theorem verifyEmail_agrees_with_lookup (w : Ambient) (token : string) (db : Db) :
  (fst (UserModel.verifyEmail w token db) = true <->
     exists u, UserModel.findByVerificationToken token db = Some u)
  /\ (forall u, UserModel.findByVerificationToken token db = Some u ->
        In u (users db) /\ User.verification_token u = Some token)
  /\ UserModel.findByVerificationToken token (snd (UserModel.verifyEmail w token db))
     = None.
Proof.
  unfold UserModel.verifyEmail, UserModel.findByVerificationToken.
  cbn [fst snd users with_users]. split; [|split].
  - unfold update_users. cbn [fst].
    now rewrite affected_spec, filter_nonempty, head_filter_is_Some.
  - intros u [I T]%head_filter_Some. now apply holds_verification_token_spec in T.
  - rewrite filter_none; [reflexivity|].
    intros v (u & I & ->)%In_update_users.
    destruct (holds_verification_token token u) eqn:E; [reflexivity | exact E].
Qed.

End Credentials.

(** ** The environment module: the validated configuration *)

Section Configuration.
Context {ES : EcmaScript}.

Lemma required_present (e : gmap string string) (v : string) :
  missing e = [] -> In v requiredEnvVars ->
  exists s, e !! v = Some s /\ string_truthy s = true /\ e !!! v = s.
Proof.
  intros M I.
  destruct (opt_truthy (e !! v)) eqn:T.
  - destruct (e !! v) as [s|] eqn:E; [|discriminate T].
    exists s. split; [reflexivity|]. split; [exact T|].
    rewrite lookup_total_alt, E. reflexivity.
  - assert (In v (missing e)) as J by now apply missing_spec.
    rewrite M in J. destruct J.
Qed.

(** X21.  The configuration [validateEnv] returns carries the environment's
    own values for the five required variables, each non-empty, so the
    non-null assertions in the source never meet a missing value; [NODE_ENV]
    and [PORT] default to development and 3001, and the SMTP port is 587
    when [SMTP_PORT] is unset or empty and the parsed variable otherwise. *)
Theorem validateEnv_values (e : gmap string string) (config : EnvConfig) :
  validateEnv e = Ok config ->
  (e !! "DATABASE_URL" = Some (DATABASE_URL config)
   /\ string_truthy (DATABASE_URL config) = true)
  /\ (e !! "REDIS_URL" = Some (REDIS_URL config)
      /\ string_truthy (REDIS_URL config) = true)
  /\ (e !! "JWT_SECRET" = Some (JWT_SECRET config)
      /\ string_truthy (JWT_SECRET config) = true)
  /\ (e !! "JWT_REFRESH_SECRET" = Some (JWT_REFRESH_SECRET config)
      /\ string_truthy (JWT_REFRESH_SECRET config) = true)
  /\ (e !! "FRONTEND_URL" = Some (FRONTEND_URL config)
      /\ string_truthy (FRONTEND_URL config) = true)
  /\ NODE_ENV config = or_else (e !! "NODE_ENV") "development"
  /\ PORT config = parseInt (or_else (e !! "PORT") "3001")
  /\ (e !! "SMTP_PORT" = None \/ e !! "SMTP_PORT" = Some "" ->
      SMTP_PORT config = Num 587)
  /\ (forall p, e !! "SMTP_PORT" = Some p -> string_truthy p = true ->
      SMTP_PORT config = parseInt p)
  /\ FROM_EMAIL config = e !! "FROM_EMAIL".
Proof.
  unfold validateEnv. destruct (missing e) as [|v l] eqn:M; [|discriminate].
  simpl. intros [= <-]. simpl.
  assert (forall v, In v requiredEnvVars ->
            e !! v = Some (e !!! v) /\ string_truthy (e !!! v) = true) as P.
  { intros v I. destruct (required_present e v M I) as (s & E & T & ->). auto. }
  split; [apply P; simpl; auto|]. split; [apply P; simpl; auto|].
  split; [apply P; simpl; auto|]. split; [apply P; simpl; auto 6|].
  split; [apply P; simpl; auto 6|].
  split; [reflexivity|]. split; [reflexivity|]. split; [|split; [|reflexivity]].
  - intros [-> | ->]; reflexivity.
  - intros p E T. rewrite E. simpl. rewrite T. rewrite lookup_total_alt, E. reflexivity.
Qed.

End Configuration.

(** ** config/database.ts: connections *)

(** X22.  The Redis client is created once: when [initializeRedis] returns
    a client, [getRedisClient] returns that client, and every later
    [initializeRedis] returns it again and changes nothing, whatever the
    environment and the server's answer are then (no second connect). *)
Theorem initializeRedis_once (w : Ambient) (i : Infrastructure)
    (st : Connections) (c : RedisClient) (st' : Connections) :
  Database.initializeRedis w i st = (Settled (Ok c), st') ->
  Database.getRedisClient st' = Ok c
  /\ (forall w2 i2, Database.initializeRedis w2 i2 st' = (Settled (Ok c), st'))
  /\ (redisClient st = None ->
      redis_open c = true /\ redis_url c = env w !! "REDIS_URL"
      /\ redis_listeners c = ["error"; "connect"]).
Proof.
  unfold Database.initializeRedis, Database.getRedisClient.
  destruct (redisClient st) as [c0|] eqn:R.
  - intros [= <- <-]. rewrite R.
    split; [reflexivity|]. split; [reflexivity | discriminate].
  - destruct (redis_createClient i _); [|discriminate].
    destruct (redis_connect i) as [[?|?]|]; [|discriminate..].
    intros [= <- <-]. simpl. repeat split.
Qed.

(** X23.  What a first call leaves when it brings no client back.  When
    [createClient] throws, [initializeRedis] throws, nothing is assigned and
    [getRedisClient] goes on throwing its not-initialized error.  When the
    client is created and [connect()] stays pending, the call does not come
    back, yet the unconnected client is assigned already: [getRedisClient]
    returns it without throwing, and a second [initializeRedis] settles at
    once with it, creating and connecting nothing. *)
Theorem initializeRedis_unfinished (w : Ambient) (i : Infrastructure)
    (st : Connections) :
  redisClient st = None ->
  (forall code, redis_createClient i (env w !! "REDIS_URL") = Raises code ->
     Database.initializeRedis w i st = (Settled (Throw (Foreign "redis" code)), st)
     /\ Database.getRedisClient st
        = Throw (Error "Redis client not initialized. Call initializeRedis() first."))
  /\ (redis_createClient i (env w !! "REDIS_URL") = Returns tt ->
      redis_connect i = Pending ->
      exists c st',
        Database.initializeRedis w i st = (Pending, st')
        /\ redis_open c = false
        /\ redis_url c = env w !! "REDIS_URL"
        /\ Database.getRedisClient st' = Ok c
        /\ (forall w2 i2,
              Database.initializeRedis w2 i2 st' = (Settled (Ok c), st'))).
Proof.
  intros R. unfold Database.initializeRedis, Database.getRedisClient. rewrite R.
  split.
  - intros code C. rewrite C. split; reflexivity.
  - intros C P. rewrite C, P.
    exists {| redis_url := env w !! "REDIS_URL";
              redis_listeners := ["error"; "connect"];
              redis_open := false |}.
    eexists. repeat split.
Qed.

(** X24.  [getRedisClient] throws its not-initialized error exactly when
    [redisClient] was never assigned, and neither [connectDatabase] nor
    [closeDatabaseConnections] assigns or clears it: after closing, a client
    that existed is still returned. *)
Theorem getRedisClient_spec (i : Infrastructure) (st : Connections) :
  (Database.getRedisClient st
     = Throw (Error "Redis client not initialized. Call initializeRedis() first.")
   <-> redisClient st = None)
  /\ (forall e, Database.getRedisClient st = Throw e ->
        e = Error "Redis client not initialized. Call initializeRedis() first.")
  /\ redisClient (snd (Database.connectDatabase i st)) = redisClient st
  /\ (redisClient (Database.closeDatabaseConnections i st) = None
      <-> redisClient st = None)
  /\ (forall c, Database.getRedisClient st = Ok c ->
        exists c', Database.getRedisClient (Database.closeDatabaseConnections i st)
                   = Ok c'
                   /\ redis_url c' = redis_url c).
Proof.
  unfold Database.getRedisClient, Database.connectDatabase,
    Database.closeDatabaseConnections.
  destruct (redisClient st) as [c|] eqn:R; repeat split; try congruence.
  - destruct (pool_connect i); [destruct (pool_query i)|]; simpl; exact R.
  - destruct (pool_end i); simpl; rewrite ?R; [destruct (redis_quit i)|]; simpl;
      rewrite ?R; congruence.
  - intros c0 [= <-]. destruct (pool_end i); simpl; rewrite ?R;
      [destruct (redis_quit i)|]; simpl; rewrite ?R; eauto.
  - destruct (pool_connect i); [destruct (pool_query i)|]; simpl; exact R.
  - destruct (pool_end i); simpl; rewrite ?R; simpl; auto.
Qed.

(** X25.  [closeDatabaseConnections] never throws and logs one line.  It
    quits Redis only after the pool has ended: when [db.end()] fails the
    client is left as it is and the error line is logged; when both calls
    succeed the pool is ended, the client is closed and the closing line is
    logged. *)
Theorem closeDatabaseConnections_spec (i : Infrastructure) (st : Connections) :
  let st' := Database.closeDatabaseConnections i st in
  (exists line, logged st' = logged st ++ [line])
  /\ (forall code, pool_end i = Raises code ->
        redisClient st' = redisClient st
        /\ pool_ended st' = pool_ended st
        /\ logged st' = logged st ++ [(LogError, "Error closing database connections:")])
  /\ (forall c, pool_end i = Returns tt -> redisClient st = Some c ->
        redis_quit i = Returns tt ->
        pool_ended st' = true
        /\ redisClient st' = Some (opened c false)
        /\ logged st' = logged st ++ [(LogInfo, "Database connections closed")])
  /\ (forall c code, pool_end i = Returns tt -> redisClient st = Some c ->
        redis_quit i = Raises code ->
        pool_ended st' = true
        /\ redisClient st' = Some c
        /\ logged st' = logged st ++ [(LogError, "Error closing database connections:")])
  /\ (pool_end i = Returns tt -> redisClient st = None ->
        pool_ended st' = true
        /\ logged st' = logged st ++ [(LogInfo, "Database connections closed")]).
Proof.
  cbv zeta. unfold Database.closeDatabaseConnections.
  split; [|split; [|split; [|split]]].
  - destruct (pool_end i); simpl; [|eauto].
    destruct (redisClient st); simpl; [destruct (redis_quit i)|]; simpl; eauto.
  - intros code E. rewrite E. auto.
  - intros c E R Q. rewrite E. cbn [set_ended redisClient]. rewrite R, Q. auto.
  - intros c code E R Q. rewrite E. cbn [set_ended redisClient]. rewrite R, Q.
    simpl. auto.
  - intros E R. rewrite E. cbn [set_ended redisClient]. rewrite R. auto.
Qed.

(** X26.  [connectDatabase] ends the process with status 1 exactly when
    taking a client from the pool or the probe query fails, logging the
    failure; otherwise it returns with the client released (as many clients
    checked out as before) and the success line logged. *)
Theorem connectDatabase_spec (i : Infrastructure) (st : Connections) :
  (fst (Database.connectDatabase i st) = Some 1 <->
     (exists code, pool_connect i = Raises code)
     \/ (exists code, pool_query i = Raises code))
  /\ (fst (Database.connectDatabase i st) = None <->
     pool_connect i = Returns tt /\ pool_query i = Returns tt)
  /\ (fst (Database.connectDatabase i st) = None ->
        pool_checked_out (snd (Database.connectDatabase i st)) = pool_checked_out st
        /\ logged (snd (Database.connectDatabase i st))
           = logged st ++ [(LogInfo, "Connected to PostgreSQL database")])
  /\ (fst (Database.connectDatabase i st) = Some 1 ->
        logged (snd (Database.connectDatabase i st))
        = logged st ++ [(LogError, "Failed to connect to database:")]).
Proof.
  unfold Database.connectDatabase.
  destruct (pool_connect i) as [[]|c1]; [destruct (pool_query i) as [[]|c2]|]; simpl;
    repeat split; try discriminate; eauto.
  - intros [[c E]|[c E]]; discriminate E.
  - intros [_ E]. discriminate E.
  - intros [E _]. discriminate E.
Qed.

(** ** The further properties on concrete stores *)

(** X7: carol registers and is found by email and by username. *)
Lemma create_then_find_witness :
  exists obj db' row,
    UserModel.create (ES := Host.ecma) (BC := Host.bcrypt)
      (Host.world Host.secrets 5000 Host.utc [1; 2; 3] Host.u3) Probe.carol Probe.store
      = Ok (obj, db')
    /\ UserModel.findByEmail "c@x.com" db' = Some row
    /\ UserModel.findByUsername "carol" db' = Some row
    /\ User.id row = Host.u3.
Proof.
  destruct (create_then_find (ES := Host.ecma) (BC := Host.bcrypt)
              (Host.world Host.secrets 5000 Host.utc [1; 2; 3] Host.u3)
              Probe.carol Probe.store _ _ eq_refl)
    as (row & _ & E & U & _ & _ & I & _); [simpl; lia | simpl; lia |].
  eexists _, _, row. split; [reflexivity|]. auto.
Defined.

(** X8: a second registration under alice's email is refused. *)
Lemma create_conflict_witness :
  UserModel.create (ES := Host.ecma) (BC := Host.bcrypt)
    (Host.world Host.secrets 5000 Host.utc [1; 2; 3] Host.u3)
    (CreateUserData.make "a@x.com" "alice2" "pw" None) Probe.store
  = Throw (Foreign "pg" "23505").
Proof.
  apply (create_conflict (ES := Host.ecma) (BC := Host.bcrypt)
           (Host.world Host.secrets 5000 Host.utc [1; 2; 3] Host.u3)
           (CreateUserData.make "a@x.com" "alice2" "pw" None) Probe.store
           "$2b$saltpw" Host.alice).
  - reflexivity.
  - simpl. lia.
  - simpl. lia.
  - simpl. lia.
  - simpl. lia.
  - simpl. auto.
  - left. reflexivity.
Defined.

(** X9: alice, once verified, is still the first row and still verified
    after a password change, a registration and a session rotation. *)
Lemma users_persist_witness :
  let history :=
    [(Host.world Host.secrets 5000 Host.utc [] Host.spare, VerifyEmail "tok-1");
     (Host.world Host.secrets 5100 Host.utc [] Host.spare, UpdatePassword Host.u1 "new-password");
     (Host.world Host.secrets 5200 Host.utc [9] Host.u3, Create Probe.carol);
     (Host.world Host.secrets 5300 Host.utc [8] Host.s1, Refresh "refresh-secret.old")] in
  exists u',
    users (perform_all (ES := Host.ecma) (JWT := Host.jwt) (PG := Host.postgres)
             (BC := Host.bcrypt) (List.tl history)
             (perform (ES := Host.ecma) (JWT := Host.jwt) (PG := Host.postgres)
                (BC := Host.bcrypt) (Host.world Host.secrets 5000 Host.utc [] Host.spare)
                (VerifyEmail "tok-1") Probe.store)) !! 0%nat = Some u'
    /\ User.id u' = Host.u1
    /\ User.is_verified u' = true.
Proof.
  cbv zeta.
  destruct (users_persist (ES := Host.ecma) (JWT := Host.jwt) (PG := Host.postgres)
              (BC := Host.bcrypt)
              [(Host.world Host.secrets 5100 Host.utc [] Host.spare,
                UpdatePassword Host.u1 "new-password");
               (Host.world Host.secrets 5200 Host.utc [9] Host.u3, Create Probe.carol);
               (Host.world Host.secrets 5300 Host.utc [8] Host.s1,
                Refresh "refresh-secret.old")]
              (perform (ES := Host.ecma) (JWT := Host.jwt) (PG := Host.postgres)
                 (BC := Host.bcrypt) (Host.world Host.secrets 5000 Host.utc [] Host.spare)
                 (VerifyEmail "tok-1") Probe.store)
              0%nat (set_verified 5000 Host.alice) eq_refl)
    as (u' & L & I & _ & _ & _ & V & _).
  exists u'. split; [exact L|]. split; [exact I | now apply V].
Defined.

(** X10: the two-user store stays unique through a registration and a
    refused duplicate. *)
Lemma unique_users_invariant_witness :
  unique_users
    (perform_all (ES := Host.ecma) (JWT := Host.jwt) (PG := Host.postgres)
       (BC := Host.bcrypt)
       [(Host.world Host.secrets 5200 Host.utc [9] Host.u3, Create Probe.carol);
        (Host.world Host.secrets 5300 Host.utc [7] Host.u4, Create Probe.carol)]
       Probe.store).
Proof.
  apply (unique_users_invariant (ES := Host.ecma) (JWT := Host.jwt)
           (PG := Host.postgres) (BC := Host.bcrypt)).
  unfold unique_users. simpl.
  repeat split;
    repeat (apply NoDup_cons; split; [rewrite list_elem_of_In; simpl; intuition discriminate|]);
    apply NoDup_nil_2.
Defined.

(** X12: bob opens a second session; both tokens find their sessions. *)
Lemma createSession_then_find_witness :
  exists s db',
    UserModel.createSession (PG := Host.postgres)
      (Host.world Host.secrets 5000 Host.utc [] Host.s1)
      Host.u2 "refresh-secret.bob2" (Some "{}") None Probe.store = Ok (s, db')
    /\ UserModel.findSessionByRefreshToken
         (Host.world Host.secrets 6000 Host.utc [] Host.spare) "refresh-secret.bob2" db'
       = Some s
    /\ List.length (user_sessions db') = 3%nat.
Proof.
  eexists _, _. split; [reflexivity|]. split; [|reflexivity].
  apply (createSession_then_find (PG := Host.postgres)
           (Host.world Host.secrets 5000 Host.utc [] Host.s1)
           (Host.world Host.secrets 6000 Host.utc [] Host.spare)
           Host.u2 "refresh-secret.bob2" (Some "{}") None Probe.store _ _ eq_refl).
  - intros s [<-|[<-|[]]]; simpl; discriminate.
  - vm_compute. reflexivity.
Defined.

(** X13: no session for a user id nobody has. *)
Lemma createSession_unknown_user_witness :
  UserModel.createSession (PG := Host.postgres)
    (Host.world Host.secrets 5000 Host.utc [] Host.s1)
    Host.u7 "refresh-secret.x" None None Probe.store = Throw (Foreign "pg" "23503").
Proof.
  apply (createSession_unknown_user (PG := Host.postgres)
           (Host.world Host.secrets 5000 Host.utc [] Host.s1)
           Host.u7 "refresh-secret.x" None None Probe.store Host.u7).
  - reflexivity.
  - intros u [<-|[<-|[]]]; simpl; discriminate.
  - reflexivity.
  - intros s [<-|[<-|[]]]; simpl; discriminate.
Defined.

(** X17: alice asks for a reset; the token finds her until it expires. *)
Lemma setResetToken_then_find_witness :
  exists db' u',
    UserModel.setResetToken (Host.world Host.secrets 5000 Host.utc [] Host.spare)
      "a@x.com" "reset-1" 3605000 Probe.store = Ok (true, db')
    /\ UserModel.findByResetToken (Host.world Host.secrets 6000 Host.utc [] Host.spare)
         "reset-1" db' = Some u'
    /\ User.reset_token u' = Some "reset-1".
Proof.
  destruct (setResetToken_then_find
              (Host.world Host.secrets 5000 Host.utc [] Host.spare)
              (Host.world Host.secrets 6000 Host.utc [] Host.spare)
              "a@x.com" "reset-1" 3605000 Probe.store)
    as (found & db' & E & _ & _ & _ & _ & _ & F); [simpl; lia|].
  injection E as <- <-.
  destruct (F eq_refl) as (u' & Fu & T); [reflexivity | simpl; lia |].
  eexists _, u'. split; [reflexivity|]. split; [exact Fu | exact T].
Defined.

(** X18: after alice's reset token is cleared it finds nobody. *)
Lemma clearResetToken_spec_witness :
  exists db',
    UserModel.clearResetToken (PG := Host.postgres)
      (Host.world Host.secrets 7000 Host.utc [] Host.spare) Host.u1 Probe.store = Ok (true, db')
    /\ forall u, In u (users db') -> User.id u = Host.u1 -> User.reset_token u = None.
Proof.
  destruct (clearResetToken_spec (PG := Host.postgres)
              (Host.world Host.secrets 7000 Host.utc [] Host.spare)
              (Host.world Host.secrets 8000 Host.utc [] Host.spare)
              Host.u1 Probe.store Host.u1 eq_refl)
    as (found & db' & E & _ & C & _).
  injection E as <- <-.
  eexists. split; [reflexivity|]. intros u I J. now apply C.
Defined.

(** X19: alice's digest is replaced, her verification token is not. *)
Lemma updatePassword_spec_witness :
  exists db' u',
    UserModel.updatePassword (ES := Host.ecma) (PG := Host.postgres) (BC := Host.bcrypt)
      (Host.world Host.secrets 7000 Host.utc [] Host.spare) Host.u1 "new-password" Probe.store
    = Ok (true, db')
    /\ users db' !! 0%nat = Some u'
    /\ User.password_hash u' = "$2b$saltnew-password"
    /\ User.verification_token u' = Some "tok-1".
Proof.
  destruct (updatePassword_spec (ES := Host.ecma) (PG := Host.postgres)
              (BC := Host.bcrypt)
              (Host.world Host.secrets 7000 Host.utc [] Host.spare) Host.u1 "new-password"
              Probe.store _ _ eq_refl)
    as (hashed & stored & i & B & V & U & _ & _ & Changed & _).
  injection B as <-. injection V as <-. injection U as <-.
  destruct (Changed 0%nat Host.alice eq_refl eq_refl) as (u' & L & P & _ & _ & T & _).
  eexists _, u'. split; [reflexivity|]. auto.
Defined.

(** X21: a configuration read from a complete environment. *)
Lemma validateEnv_values_witness :
  exists config,
    validateEnv (ES := Host.ecma)
      (<["DATABASE_URL" := "postgres://db"]>
      (<["REDIS_URL" := "redis://cache"]>
      (<["JWT_SECRET" := "a"]>
      (<["JWT_REFRESH_SECRET" := "r"]>
      (<["FRONTEND_URL" := "http://localhost"]>
      (<["SMTP_PORT" := ""]> ∅)))))) = Ok config
    /\ REDIS_URL config = "redis://cache"
    /\ SMTP_PORT config = Num 587.
Proof.
  assert (exists config,
            validateEnv (ES := Host.ecma)
              (<["DATABASE_URL" := "postgres://db"]>
              (<["REDIS_URL" := "redis://cache"]>
              (<["JWT_SECRET" := "a"]>
              (<["JWT_REFRESH_SECRET" := "r"]>
              (<["FRONTEND_URL" := "http://localhost"]>
              (<["SMTP_PORT" := ""]> ∅)))))) = Ok config) as [config E]
    by (eexists; reflexivity).
  destruct (validateEnv_values (ES := Host.ecma) _ config E)
    as (_ & (R & _) & _ & _ & _ & _ & _ & P & _).
  exists config. split; [exact E|]. split.
  - change (Some "redis://cache" = Some (REDIS_URL config)) in R. congruence.
  - apply P. right. reflexivity.
Defined.

(** X22: one client, however often [initializeRedis] is called. *)
Lemma initializeRedis_once_witness :
  exists c st',
    Database.initializeRedis (Host.world Host.secrets 0 Host.utc [] Host.spare)
      Probe.healthy loaded = (Settled (Ok c), st')
    /\ Database.getRedisClient st' = Ok c
    /\ Database.initializeRedis (Host.world ∅ 1 Host.utc [] Host.spare)
         Probe.redis_down st' = (Settled (Ok c), st').
Proof.
  eexists _, _. split; [reflexivity|].
  destruct (initializeRedis_once (Host.world Host.secrets 0 Host.utc [] Host.spare)
              Probe.healthy loaded _ _ eq_refl) as (G & Again & _).
  split; [exact G | apply Again].
Defined.

(** X23: with a text that is no URL nothing is assigned; with a proper URL
    and the server refusing, the call stays pending and the module hands
    out the unconnected client from then on. *)
Lemma initializeRedis_unfinished_witness :
  let bad := Host.world (<["REDIS_URL" := "localhost"]> ∅) 0 Host.utc [] Host.spare in
  let good :=
    Host.world (<["REDIS_URL" := "redis://localhost:6379"]> ∅) 0 Host.utc [] Host.spare in
  Database.initializeRedis bad Probe.redis_down loaded
    = (Settled (Throw (Foreign "redis" "ERR_INVALID_URL")), loaded)
  /\ exists c st',
       Database.initializeRedis good Probe.redis_down loaded = (Pending, st')
       /\ redis_open c = false
       /\ Database.getRedisClient st' = Ok c
       /\ Database.initializeRedis good Probe.healthy st' = (Settled (Ok c), st').
Proof.
  cbv zeta. split.
  - apply (initializeRedis_unfinished
             (Host.world (<["REDIS_URL" := "localhost"]> ∅) 0 Host.utc [] Host.spare)
             Probe.redis_down loaded eq_refl).
    reflexivity.
  - destruct (proj2 (initializeRedis_unfinished
                       (Host.world (<["REDIS_URL" := "redis://localhost:6379"]> ∅)
                          0 Host.utc [] Host.spare)
                       Probe.redis_down loaded eq_refl))
      as (c & st' & E & O & _ & G & Again); [reflexivity | reflexivity |].
    exists c, st'. split; [exact E|]. split; [exact O|]. split; [exact G|].
    apply Again.
Defined.

(** ** The user model: lookups *)

Lemma map_lookup {A B} (f : A -> B) (l : list A) (i : nat) :
  List.map f l !! i = f <$> l !! i.
Proof. revert i. induction l as [|a l IH]; intros [|i]; simpl; auto. Qed.

Section Lookups.
Context {ES : EcmaScript} {JWT : JsonWebToken} {PG : Postgres} {BC : Bcrypt}.

(** X27.  [findByEmail] and [findByUsername] return a stored user with the
    given email or username and return null exactly when there is none;
    [findById] throws when the server rejects the id and otherwise does the
    same for the id the server reads.  While emails are distinct, the user
    found by email is the only stored user with that email. *)
Theorem find_spec (db : Db) (key : string) :
  (forall u, UserModel.findByEmail key db = Some u ->
     In u (users db) /\ User.email u = key)
  /\ (UserModel.findByEmail key db = None <->
      forall u, In u (users db) -> User.email u <> key)
  /\ (forall u, UserModel.findByUsername key db = Some u ->
        In u (users db) /\ User.username u = key)
  /\ (UserModel.findByUsername key db = None <->
      forall u, In u (users db) -> User.username u <> key)
  /\ (forall code, uuid_in key = Raises code ->
        UserModel.findById key db = Throw (Foreign "pg" code))
  /\ (forall i, uuid_in key = Returns i ->
        exists found, UserModel.findById key db = Ok found
          /\ (forall u, found = Some u -> In u (users db) /\ User.id u = i)
          /\ (found = None <-> forall u, In u (users db) -> User.id u <> i))
  /\ (NoDup (List.map User.email (users db)) ->
      forall u v, UserModel.findByEmail key db = Some u ->
        In v (users db) -> User.email v = key -> v = u).
Proof.
  assert (forall (f : User.t -> string) (k : string),
            (forall u, head (List.filter (fun u => bool_decide (f u = k)) (users db))
                       = Some u -> In u (users db) /\ f u = k)
            /\ (head (List.filter (fun u => bool_decide (f u = k)) (users db)) = None
                <-> forall u, In u (users db) -> f u <> k)) as Generic.
  { intros f k. split.
    - intros u [I E]%head_filter_Some. now apply bool_decide_eq_true in E.
    - split.
      + intros N u I E.
        assert (exists x, head (List.filter (fun u => bool_decide (f u = k))
                                  (users db)) = Some x) as [x X].
        { apply head_filter_is_Some. exists u.
          split; [exact I | now apply bool_decide_eq_true]. }
        congruence.
      + intros N. rewrite filter_none; [reflexivity|].
        intros u I. apply bool_decide_eq_false. now apply N. }
  split; [apply (Generic User.email)|]. split; [apply (Generic User.email)|].
  split; [apply (Generic User.username)|]. split; [apply (Generic User.username)|].
  split; [|split].
  - intros code U. unfold UserModel.findById. now rewrite U.
  - intros i U. unfold UserModel.findById. rewrite U. cbn [call bind].
    eexists. split; [reflexivity|]. split.
    + intros u. apply (Generic User.id).
    + apply (Generic User.id).
  - intros D u v F Iv Ev. apply (Generic User.email) in F as [Iu Eu].
    apply In_lookup_users in Iu as [a La]. apply In_lookup_users in Iv as [b Lb].
    assert (a = b) as ->; [|congruence].
    eapply NoDup_lookup; [exact D | |].
    + rewrite map_lookup, La. reflexivity.
    + rewrite map_lookup, Lb. simpl. congruence.
Qed.

End Lookups.

(** ** The email service *)

Lemma append_assoc (a b c : string) : (a +:+ b) +:+ c = a +:+ (b +:+ c).
Proof. induction a as [|x a IH]; [reflexivity|]. rewrite !append_cons. now rewrite IH. Qed.

Lemma append_empty_r (a : string) : a +:+ "" = a.
Proof. induction a as [|x a IH]; [reflexivity|]. rewrite append_cons. now rewrite IH. Qed.

Lemma contains_here (p r : string) : contains (p +:+ r) p.
Proof. exists "", r. reflexivity. Qed.

Lemma contains_end (p : string) : contains p p.
Proof. exists "", "". change ("" +:+ p +:+ "") with (p +:+ ""). now rewrite append_empty_r. Qed.

Lemma contains_skip (a r p : string) : contains r p -> contains (a +:+ r) p.
Proof.
  intros (x & y & ->). exists (a +:+ x), y. now rewrite append_assoc.
Qed.

Ltac find_part :=
  repeat first [ apply contains_here | apply contains_end | apply contains_skip ].

Section Mails.
Context {ES : EcmaScript} {NM : Nodemailer}.

(** X28.  The verification and reset mails go to the given address, from
    [FROM_EMAIL]; their links are [FRONTEND_URL] followed by
    [/verify-email?token=] or [/reset-password?token=] and the token as it
    is (the literal text undefined stands for an unset [FRONTEND_URL]); the
    link is in both the HTML and the text part, and the username is put into
    the HTML exactly as given. *)
Theorem mail_links (w : Ambient) (to username token : string) :
  let v := EmailService.verificationMail w to username token in
  let r := EmailService.passwordResetMail w to username token in
  (mail_to v = to /\ mail_from v = env w !! "FROM_EMAIL"
   /\ mail_to r = to /\ mail_from r = env w !! "FROM_EMAIL")
  /\ (forall base, env w !! "FRONTEND_URL" = Some base ->
        EmailService.verificationUrl w token = base +:+ "/verify-email?token=" +:+ token
        /\ EmailService.resetUrl w token = base +:+ "/reset-password?token=" +:+ token)
  /\ (env w !! "FRONTEND_URL" = None ->
        EmailService.verificationUrl w token
          = "undefined/verify-email?token=" +:+ token
        /\ EmailService.resetUrl w token = "undefined/reset-password?token=" +:+ token)
  /\ contains (mail_html v) (EmailService.verificationUrl w token)
  /\ contains (mail_text v) (EmailService.verificationUrl w token)
  /\ contains (mail_html r) (EmailService.resetUrl w token)
  /\ contains (mail_text r) (EmailService.resetUrl w token)
  /\ contains (EmailService.verificationUrl w token) token
  /\ contains (EmailService.resetUrl w token) token
  /\ contains (mail_html v) username
  /\ contains (mail_html r) username.
Proof.
  cbv zeta. split; [repeat split|]. split; [|split].
  - intros base E. unfold EmailService.verificationUrl, EmailService.resetUrl.
    rewrite E. split; reflexivity.
  - intros E. unfold EmailService.verificationUrl, EmailService.resetUrl.
    rewrite E. split; reflexivity.
  - assert (contains (EmailService.verificationUrl w token) token
            /\ contains (EmailService.resetUrl w token) token) as [A B].
    { unfold EmailService.verificationUrl, EmailService.resetUrl. split; find_part. }
    cbn [EmailService.verificationMail EmailService.passwordResetMail
         mail_html mail_text].
    unfold verification_html, verification_text, reset_html, reset_text.
    revert A B.
    generalize (EmailService.verificationUrl w token) as vurl.
    generalize (EmailService.resetUrl w token) as rurl.
    intros rurl vurl A B.
    repeat split; try assumption; find_part.
Qed.

(** X29.  No send method throws: each returns true exactly when the
    transporter accepts the mail, logging the recipient, and false with the
    failure line otherwise; [testConnection] does the same for
    [verify()]. *)
Theorem send_results (w : Ambient) (to username token : string) :
  ((fst (EmailService.sendVerificationEmail w to username token) = true <->
      transporter_sendMail (EmailService.verificationMail w to username token)
        = Returns tt)
   /\ snd (EmailService.sendVerificationEmail w to username token)
      = if fst (EmailService.sendVerificationEmail w to username token)
        then (LogInfo, "Verification email sent to " +:+ to)
        else (LogError, "Failed to send verification email:"))
  /\ ((fst (EmailService.sendPasswordResetEmail w to username token) = true <->
         transporter_sendMail (EmailService.passwordResetMail w to username token)
           = Returns tt)
      /\ snd (EmailService.sendPasswordResetEmail w to username token)
         = if fst (EmailService.sendPasswordResetEmail w to username token)
           then (LogInfo, "Password reset email sent to " +:+ to)
           else (LogError, "Failed to send password reset email:"))
  /\ ((fst (EmailService.sendWelcomeEmail w to username) = true <->
         transporter_sendMail (EmailService.welcomeMail w to username) = Returns tt)
      /\ snd (EmailService.sendWelcomeEmail w to username)
         = if fst (EmailService.sendWelcomeEmail w to username)
           then (LogInfo, "Welcome email sent to " +:+ to)
           else (LogError, "Failed to send welcome email:"))
  /\ ((fst EmailService.testConnection = true <-> transporter_verify = Returns tt)
      /\ snd EmailService.testConnection
         = if fst EmailService.testConnection
           then (LogInfo, "Email service connected successfully")
           else (LogError, "Email service connection failed:")).
Proof.
  unfold EmailService.sendVerificationEmail, EmailService.sendPasswordResetEmail,
    EmailService.sendWelcomeEmail, EmailService.testConnection.
  repeat split;
    match goal with
    | |- context [match ?o with Returns _ => _ | Raises _ => _ end] =>
        destruct o as [[]|]; simpl; congruence
    end.
Qed.

End Mails.

(** ** Verification tokens do not expire *)

Section NoExpiry.
Context {ES : EcmaScript} {JWT : JsonWebToken} {PG : Postgres} {BC : Bcrypt}.

Lemma update_users_keeps (cond : User.t -> bool) (set : User.t -> User.t)
    (l : list User.t) (u : User.t) :
  In u l -> In (if cond u then set u else u) (snd (update_users cond set l)).
Proof.
  intros I. unfold update_users. simpl.
  apply in_map_iff. exists u. split; [reflexivity | exact I].
Qed.

Lemma perform_keeps_holder (w : Ambient) (op : Operation) (db : Db) (token : string) :
  consumes token op = false ->
  (exists u, In u (users db) /\ User.verification_token u = Some token) ->
  exists u, In u (users (perform w op db)) /\ User.verification_token u = Some token.
Proof.
  intros C (u & I & T).
  assert (forall cond set,
            (forall v, User.verification_token (set v) = User.verification_token v) ->
            exists u', In u' (snd (update_users cond set (users db)))
                       /\ User.verification_token u' = Some token) as Updated.
  { intros cond set P. eexists. split; [apply update_users_keeps; exact I|].
    destruct (cond u); [rewrite P|]; exact T. }
  destruct op as [ud|tk|uid pw|em tk ex|uid|uid|uid tk dev ip|tk|uid|tk]; simpl.
  - destruct (UserModel.create w ud db) as [[obj db']|] eqn:E; simpl; [|eauto].
    apply create_inv in E as (e & n & h & d & _ & -> & _). simpl.
    exists u. split; [apply in_app_iff; now left | exact T].
  - simpl in C. apply bool_decide_eq_false in C.
    eexists. split; [apply update_users_keeps; exact I|].
    destruct (holds_verification_token tk u) eqn:Held; [|exact T].
    apply holds_verification_token_spec in Held. congruence.
  - unfold UserModel.updatePassword.
    destruct (bcrypt_hash _ _ _); simpl; [|eauto].
    destruct (varchar 255 _); simpl; [|eauto].
    destruct (uuid_in uid); simpl; [|eauto].
    now apply Updated.
  - unfold UserModel.setResetToken. destruct (varchar 255 _); simpl; [|eauto].
    now apply Updated.
  - unfold UserModel.clearResetToken. destruct (uuid_in uid); simpl; [|eauto].
    now apply Updated.
  - unfold UserModel.updateLastLogin. destruct (uuid_in uid); simpl; [|eauto].
    now apply Updated.
  - destruct (UserModel.createSession _ _ _ _ _ _) as [[s db']|] eqn:E; simpl; [|eauto].
    apply createSession_inv in E as (i & ip' & _ & _ & ->). simpl. eauto.
  - eauto.
  - unfold UserModel.deleteAllUserSessions. destruct (uuid_in uid); simpl; eauto.
  - rewrite (proj1 (refresh_store w tk db)). eauto.
Qed.

(** X30.  A verification token that [verifyEmail] would accept stays
    acceptable: after any history of operations that does not verify that
    token, and at any later time, [verifyEmail] still returns true.  The
    clock plays no part, although the verification mail tells the reader
    that the link expires in 24 hours. *)
Theorem verification_token_never_expires (history : list (Ambient * Operation))
    (w w' : Ambient) (token : string) (db : Db) :
  Forall (fun step => consumes token (snd step) = false) history ->
  fst (UserModel.verifyEmail w token db) = true ->
  fst (UserModel.verifyEmail w' token (perform_all history db)) = true
  /\ forall to username,
       contains (mail_text (EmailService.verificationMail w to username token))
         "This link will expire in 24 hours.".
Proof.
  intros F V. split.
  - assert (forall d v, fst (UserModel.verifyEmail v token d) = true <->
              exists u, In u (users d) /\ User.verification_token u = Some token) as Iff.
    { intros d v. unfold UserModel.verifyEmail, update_users. cbn [fst].
      rewrite affected_spec, filter_nonempty. split.
      - intros (u & I & T). apply holds_verification_token_spec in T. eauto.
      - intros (u & I & T). exists u.
        split; [exact I | now apply holds_verification_token_spec]. }
    apply Iff. apply Iff in V. clear Iff. revert db V.
    induction F as [|[v op] rest C F IH]; intros db V; [exact V|].
    simpl. apply IH. now apply perform_keeps_holder.
  - intros to username. simpl. unfold verification_text.
    do 4 apply contains_skip.
    exists "
          
          ", "
        ". reflexivity.
Qed.

End NoExpiry.

(** X30: bob's token is still accepted after carol has registered, alice has
    verified and bob has changed his password. *)
Lemma verification_token_never_expires_witness :
  fst (UserModel.verifyEmail (Host.world Host.secrets 99000000 Host.utc [] Host.spare) "tok-2"
         (perform_all (ES := Host.ecma) (JWT := Host.jwt) (PG := Host.postgres)
            (BC := Host.bcrypt)
            [(Host.world Host.secrets 5200 Host.utc [9] Host.u3, Create Probe.carol);
             (Host.world Host.secrets 5300 Host.utc [] Host.spare, VerifyEmail "tok-1");
             (Host.world Host.secrets 5400 Host.utc [] Host.spare, UpdatePassword Host.u2 "pw2")]
            Probe.store)) = true.
Proof.
  apply (verification_token_never_expires (ES := Host.ecma) (JWT := Host.jwt)
           (PG := Host.postgres) (BC := Host.bcrypt)
           [(Host.world Host.secrets 5200 Host.utc [9] Host.u3, Create Probe.carol);
            (Host.world Host.secrets 5300 Host.utc [] Host.spare, VerifyEmail "tok-1");
            (Host.world Host.secrets 5400 Host.utc [] Host.spare, UpdatePassword Host.u2 "pw2")]
           (Host.world Host.secrets 5000 Host.utc [] Host.spare)
           (Host.world Host.secrets 99000000 Host.utc [] Host.spare) "tok-2" Probe.store).
  - repeat constructor.
  - reflexivity.
Defined.
